(** * A shallow embedding of [src/server.c], the HMA page-lock manager

    The file follows the C source function by function.  The calls of one
    thread are modelled: the words of the mapped [*-hma] file are a finite map
    from word index to value; before each access of the thread to the mapping
    the stores that other clients have made in the meantime arrive (see
    [peers_arrive]), so that [__sync_val_compare_and_swap] can fail and the
    loops around it are real loops; and every call that leaves the module
    (fcntl, gettimeofday, the allocator, the pager, sqlite3_log) takes its
    result from a script held in the environment and appends an event to the
    environment's trace.  The process mutex is not modelled, and C [assert]s,
    which are compiled out of release builds, are kept as comments only.

    Loops of the form [while(1)] carry a [fuel] argument bounding the number
    of iterations; [None] is "fuel exhausted", never a result of the C code. *)

From Stdlib Require Import ZArith List Bool Lia.
From stdpp Require Import gmap strings list.

Local Open Scope Z_scope.

(** ** Constants of the C file *)

Definition HMA_CLIENT_SLOTS : Z := 16.
Definition HMA_PAGELOCK_SLOTS : Z := 256 * 1024.
Definition HMA_FILE_SIZE : Z := 4 + 4 * HMA_CLIENT_SLOTS + 4 * HMA_PAGELOCK_SLOTS.

Definition SERVER_WRITE_LOCK : Z := 3.
Definition SERVER_READ_LOCK : Z := 2.
Definition SERVER_NO_LOCK : Z := 1.

(** Modelled from the spec: the result codes of [sqliteInt.h], which is not
    part of the sources at hand.  Section 7 of the specification lists the
    kinds OK, BUSY, BUSY_DEADLOCK, NOMEM, CANTOPEN and ERROR; NOTICE and
    WARNING are the two further codes [server.c] passes to [sqlite3_log], and
    IOERR stands for an error code coming back from the pager.  The only fact
    about their numeric values the C code relies on is that [SQLITE_OK] is the
    one code that is zero, see [rc_nonzero]. *)
Inductive rc : Type :=
| SQLITE_OK
| SQLITE_ERROR
| SQLITE_BUSY
| SQLITE_BUSY_DEADLOCK
| SQLITE_NOMEM
| SQLITE_CANTOPEN
| SQLITE_IOERR
| SQLITE_NOTICE
| SQLITE_WARNING.

#[global] Instance rc_eq_dec : EqDecision rc.
Proof. solve_decision. Defined.

(** [if( rc )] in C. *)
Definition rc_nonzero (r : rc) : bool :=
  match r with SQLITE_OK => false | _ => true end.

(** ** The operating system seen from [server.c] *)

Inductive fcntl_cmd : Type := F_SETLK | F_SETLKW.
Inductive flock_type : Type := F_UNLCK | F_RDLCK | F_WRLCK.
Inductive errno : Type :=
| ENONE | EAGAIN | EACCES | EBADF | EINTR | EINVAL | ENOLCK | EDEADLK.

#[global] Instance errno_eq_dec : EqDecision errno.
Proof. solve_decision. Defined.

Definition SEEK_SET : Z := 0.

(** The [struct flock] handed to fcntl.  [l_type] is [None] for the unused
    entry 0 of [aType]. *)
Record flock : Type := {
  l_type : option flock_type;
  l_whence : Z;
  l_start : Z;
  l_len : Z
}.

Inductive log_arg : Type := ArgInt (n : Z) | ArgStr (s : string).

Inductive event : Type :=
| EvFcntl (fd : Z) (cmd : fcntl_cmd) (l : flock)
| EvLog (code : rc) (fmt : string) (arg : log_arg)
| EvGettimeofday
| EvAlloc (nByte : Z)
| EvFree (ptr : Z)
| EvRollbackJournal (pPager : Z) (iClient : Z)
| EvCas (idx : Z) (expected : Z) (desired : Z)
| EvStat (zPath : string)
| EvOpen (zName : string)
| EvFtruncate (fd : Z) (size : Z)
| EvMmap (fd : Z) (size : Z)
| EvMunmap (ptr : Z)
| EvClose (fd : Z)
| EvUnlink (zName : string)
| EvOsLock (dbfd : Z).

(** The environment: for each kind of outside call the results of the calls
    still to come (an exhausted script answers with success), the stores of the other
    clients that arrive before each access to the mapping, and the trace of
    the calls made so far, oldest first. *)
Record Env : Type := {
  e_fcntl : list (Z * errno);        (* fcntl: return value and errno *)
  e_time : list (Z * Z);             (* gettimeofday: tv_sec, tv_usec *)
  e_alloc : list Z;                  (* sqlite3_malloc/realloc: address, 0 on failure *)
  e_pager : list rc;                 (* sqlite3PagerRollbackJournal *)
  e_stat : list (Z * Z * Z);         (* stat: return value, st_dev, st_ino *)
  e_open : list Z;                   (* open: file descriptor or -1 *)
  e_ftruncate : list Z;              (* ftruncate: return value *)
  e_mmap : list (Z * gmap Z Z);      (* mmap: address and the words found there *)
  e_oslock : list rc;                (* sqlite3OsLock *)
  e_peers : list (list (Z * Z));     (* stores of other clients, see peers_arrive *)
  e_trace : list event
}.

Definition env_log (e : Env) (ev : event) : Env :=
  {| e_fcntl := e_fcntl e; e_time := e_time e; e_alloc := e_alloc e;
     e_pager := e_pager e; e_stat := e_stat e; e_open := e_open e;
     e_ftruncate := e_ftruncate e; e_mmap := e_mmap e; e_oslock := e_oslock e;
     e_peers := e_peers e;
     e_trace := e_trace e ++ [ev] |}.

Definition fcntl (e : Env) (fd : Z) (cmd : fcntl_cmd) (l : flock) : Env * (Z * errno) :=
  ({| e_fcntl := tl (e_fcntl e); e_time := e_time e; e_alloc := e_alloc e;
      e_pager := e_pager e; e_stat := e_stat e; e_open := e_open e;
      e_ftruncate := e_ftruncate e; e_mmap := e_mmap e; e_oslock := e_oslock e;
      e_peers := e_peers e;
      e_trace := e_trace e ++ [EvFcntl fd cmd l] |},
   hd (0, ENONE) (e_fcntl e)).

Definition gettimeofday (e : Env) : Env * (Z * Z) :=
  ({| e_fcntl := e_fcntl e; e_time := tl (e_time e); e_alloc := e_alloc e;
      e_pager := e_pager e; e_stat := e_stat e; e_open := e_open e;
      e_ftruncate := e_ftruncate e; e_mmap := e_mmap e; e_oslock := e_oslock e;
      e_peers := e_peers e;
      e_trace := e_trace e ++ [EvGettimeofday] |},
   hd (0, 0) (e_time e)).

(** [sqlite3_malloc] and [sqlite3_realloc] share one script of addresses. *)
Definition sqlite3_malloc (e : Env) (nByte : Z) : Env * Z :=
  ({| e_fcntl := e_fcntl e; e_time := e_time e; e_alloc := tl (e_alloc e);
      e_pager := e_pager e; e_stat := e_stat e; e_open := e_open e;
      e_ftruncate := e_ftruncate e; e_mmap := e_mmap e; e_oslock := e_oslock e;
      e_peers := e_peers e;
      e_trace := e_trace e ++ [EvAlloc nByte] |},
   hd 4096 (e_alloc e)).

Definition sqlite3_free (e : Env) (ptr : Z) : Env := env_log e (EvFree ptr).

Definition sqlite3PagerRollbackJournal (e : Env) (pPager iClient : Z) : Env * rc :=
  ({| e_fcntl := e_fcntl e; e_time := e_time e; e_alloc := e_alloc e;
      e_pager := tl (e_pager e); e_stat := e_stat e; e_open := e_open e;
      e_ftruncate := e_ftruncate e; e_mmap := e_mmap e; e_oslock := e_oslock e;
      e_peers := e_peers e;
      e_trace := e_trace e ++ [EvRollbackJournal pPager iClient] |},
   hd SQLITE_OK (e_pager e)).

Definition sqlite3_log (e : Env) (code : rc) (fmt : string) (arg : log_arg) : Env :=
  env_log e (EvLog code fmt arg).

(** ** Machine integers

    The slot words are [u32].  Every operation the C code applies to them
    ([&], [|], [>>] and [& ~(1<<i)]) maps words below [2^32] to words below
    [2^32] for the client ids 0..15, so no wrap-around occurs and
    the operations are written with the bit operations of [Z]
    (see [serverEndWord_range], [serverRollbackWord_range] and
    [serverLockWord_range]).  The two [i64] time counters do wrap. *)

Definition i64 (x : Z) : Z := (x + 2 ^ 63) mod 2 ^ 64 - 2 ^ 63.

(** The word stored at index [k] of the mapping; the file is zero-filled when it
    is created, so an index never written holds 0. *)
Definition word (m : gmap Z Z) (k : Z) : Z := default 0 (m !! k).

(** ** The other clients

    What client [i] has in the word [v]: its reader bit, and whether the write
    field names it. *)
Definition contribution (i v : Z) : bool * bool :=
  (Z.testbit v i, Z.shiftr v HMA_CLIENT_SLOTS =? i + 1).

(** Invariant I1 of the specification for one word: a [u32] whose write field
    is at most [HMA_CLIENT_SLOTS]. *)
Definition word_okb (v : Z) : bool :=
  (0 <=? v) && (Z.shiftr v HMA_CLIENT_SLOTS <=? HMA_CLIENT_SLOTS).

(** The indices of [aMap] that are page-lock slots. *)
Definition is_page_slotb (k : Z) : bool :=
  (1 + HMA_CLIENT_SLOTS <=? k) && (k <? 1 + HMA_CLIENT_SLOTS + HMA_PAGELOCK_SLOTS).

(** Another client replaces the page-lock word [old] by [new]: it does so with
    a compare-and-swap that changes its own reader bit, takes the write field
    when it is 0, gives it up when it is its own, or scrubs a client whose slot
    byte it has write-locked, which a live connection's byte cannot be.  So
    the store leaves what the live client [iClient] has in the word and keeps
    invariant I1. *)
Definition peer_respects (iClient old new : Z) : bool :=
  ((iClient <? 0) || bool_decide (contribution iClient new = contribution iClient old))
  && implb (word_okb old) (word_okb new).

(** One store [(k, v)] of another client.  A store into a page-lock slot that
    does not respect the calling connection is not one the protocol allows
    and is dropped; stores into the other words are not restricted. *)
Definition peer_store (iClient : Z) (m : gmap Z Z) (s : Z * Z) : gmap Z Z :=
  if is_page_slotb s.1 && negb (peer_respects iClient (word m s.1) s.2) then m
  else <[s.1 := s.2]> m.

(** The stores that the other clients have made since the last access of the
    connection [iClient] to the mapping arrive: the head of [e_peers]. *)
Definition peers_arrive (iClient : Z) (e : Env) (m : gmap Z Z) : Env * gmap Z Z :=
  ({| e_fcntl := e_fcntl e; e_time := e_time e; e_alloc := e_alloc e;
      e_pager := e_pager e; e_stat := e_stat e; e_open := e_open e;
      e_ftruncate := e_ftruncate e; e_mmap := e_mmap e; e_oslock := e_oslock e;
      e_peers := tl (e_peers e);
      e_trace := e_trace e |},
   foldl (peer_store iClient) m (hd [] (e_peers e))).

(** [*pSlot]: a read of the word at index [k]. *)
Definition read_word (iClient : Z) (e : Env) (m : gmap Z Z) (k : Z)
  : Env * gmap Z Z * Z :=
  let '(e1, m1) := peers_arrive iClient e m in
  (e1, m1, word m1 k).

(** [__sync_val_compare_and_swap(&aMap[k], expected, desired)]: returns the
    word found; stores [desired] when that word is [expected]. *)
Definition sync_val_compare_and_swap (iClient : Z) (e : Env) (m : gmap Z Z)
    (k expected desired : Z) : Env * gmap Z Z * Z :=
  let '(e1, m1) := peers_arrive iClient e m in
  let cur := word m1 k in
  (env_log e1 (EvCas k expected desired),
   if cur =? expected then <[k := desired]> m1 else m1,
   cur).

(** ** The structures *)

Record ServerHMA : Type := {
  zName : string;            (* hma file path *)
  fd : Z;                    (* Fd open on hma file *)
  nClient : Z;               (* Current number of clients *)
  aClient : gmap Z Z;        (* Local clients: index -> address of the Server,
                                a missing index is a null pointer; the C array
                                has the indices 0..15 *)
  aMapAddr : Z;              (* the pointer aMap itself, 0 when not mapped *)
  aMap : gmap Z Z;           (* the words aMap points to *)
  st_dev : Z;
  st_ino : Z
}.

Record Server : Type := {
  pHma : Z;                  (* address of the ServerHMA, 0 for none *)
  iClient : Z;               (* Client id *)
  pPager : Z;                (* Associated pager object *)
  nUsWrite : Z;              (* Cumulative us holding WRITER lock *)
  iUsWrite : Z;              (* Time WRITER lock was taken *)
  nAlloc : Z;                (* Allocated size of aLock[] array *)
  nLock : Z;                 (* Number of entries in aLock[] *)
  aLockAddr : Z;             (* the pointer aLock itself, 0 for none *)
  aLock : list Z             (* the nAlloc entries aLock points to *)
}.

Definition hma_set_aMap (h : ServerHMA) (m : gmap Z Z) : ServerHMA :=
  {| zName := zName h; fd := fd h; nClient := nClient h; aClient := aClient h;
     aMapAddr := aMapAddr h; aMap := m; st_dev := st_dev h; st_ino := st_ino h |}.

Definition hma_set_aClient (h : ServerHMA) (a : gmap Z Z) : ServerHMA :=
  {| zName := zName h; fd := fd h; nClient := nClient h; aClient := a;
     aMapAddr := aMapAddr h; aMap := aMap h; st_dev := st_dev h; st_ino := st_ino h |}.

Definition hma_set_nClient (h : ServerHMA) (n : Z) : ServerHMA :=
  {| zName := zName h; fd := fd h; nClient := n; aClient := aClient h;
     aMapAddr := aMapAddr h; aMap := aMap h; st_dev := st_dev h; st_ino := st_ino h |}.

(** ** posixLock *)

Definition aType : list (option flock_type) :=
  [None; Some F_UNLCK; Some F_RDLCK; Some F_WRLCK].

Definition posixLock (e : Env) (fd iSlot eLock : Z) (bBlock : bool) : Env * rc :=
  (* assert( eLock==SERVER_WRITE_LOCK || eLock==SERVER_READ_LOCK
          || eLock==SERVER_NO_LOCK ) *)
  let l := {| l_type := default None (aType !! Z.to_nat eLock);
              l_whence := SEEK_SET;
              l_start := iSlot * 4;        (* iSlot*sizeof(u32) *)
              l_len := 1 |} in
  let '(e1, (res, err)) := fcntl e fd (if bBlock then F_SETLKW else F_SETLK) l in
  if negb (res =? 0) && bBlock && bool_decide (err = EDEADLK) then
    (e1, SQLITE_BUSY_DEADLOCK)
  else
    (e1, if res =? 0 then SQLITE_OK else SQLITE_BUSY).

(** ** Slots of the mapping *)

(** [&p->pHma->aMap[1 + HMA_CLIENT_SLOTS + pgno % HMA_PAGELOCK_SLOTS]],
    as an index into [aMap]. *)
Definition serverPageLockSlot (pgno : Z) : Z :=
  let iSlot := pgno mod HMA_PAGELOCK_SLOTS in
  1 + HMA_CLIENT_SLOTS + iSlot.

Definition serverClientSlot (iClient : Z) : Z := 1 + iClient.

(** ** serverRollbackClient *)

(** The word the loop body computes from [v]. *)
Definition serverRollbackWord (iBlock v : Z) : Z :=
  let n := Z.land v (Z.lnot (Z.shiftl 1 iBlock)) in
  if Z.shiftr v HMA_CLIENT_SLOTS =? iBlock + 1 then
    Z.land n (Z.shiftl 1 HMA_CLIENT_SLOTS - 1)
  else n.

(** [while( 1 )] around the compare-and-swap of one slot; [v] is the value read
    before the loop or after a failed swap. *)
Fixpoint serverRollbackSlot (fuel : nat) (iClient : Z) (e : Env) (m : gmap Z Z)
    (iBlock k v : Z) : option (Env * gmap Z Z) :=
  match fuel with
  | O => None
  | S fuel' =>
      let n := serverRollbackWord iBlock v in
      let '(e1, m1, old) := sync_val_compare_and_swap iClient e m k v n in
      if old =? v then Some (e1, m1)
      else
        let '(e2, m2, v2) := read_word iClient e1 m1 k in
        serverRollbackSlot fuel' iClient e2 m2 iBlock k v2
  end.

(** [for(i=0; i<HMA_PAGELOCK_SLOTS; i++)], with [cnt] slots still to visit. *)
Fixpoint serverRollbackSlots (cnt : nat) (fuel : nat) (iClient : Z) (e : Env)
    (m : gmap Z Z) (iBlock i : Z) : option (Env * gmap Z Z) :=
  match cnt with
  | O => Some (e, m)
  | S cnt' =>
      let k := serverPageLockSlot i in
      let '(e0, m0, v) := read_word iClient e m k in
      match serverRollbackSlot fuel iClient e0 m0 iBlock k v with
      | None => None
      | Some (e1, m1) => serverRollbackSlots cnt' fuel iClient e1 m1 iBlock (i + 1)
      end
  end.

Definition serverRollbackClient (fuel : nat) (e : Env) (h : ServerHMA) (p : Server)
    (iBlock : Z) : option (Env * ServerHMA * rc) :=
  let e1 := sqlite3_log e SQLITE_NOTICE "Rolling back failed client %d" (ArgInt iBlock) in
  (* Roll back any journal file for client iBlock. *)
  let '(e2, r) := sqlite3PagerRollbackJournal e1 (pPager p) iBlock in
  (* Clear any locks held by client iBlock from the HMA file. *)
  if bool_decide (r = SQLITE_OK) then
    match serverRollbackSlots (Z.to_nat HMA_PAGELOCK_SLOTS) fuel (iClient p) e2 (aMap h)
            iBlock 0 with
    | None => None
    | Some (e3, m3) => Some (e3, hma_set_aMap h m3, r)
    end
  else Some (e2, h, r).

(** ** serverOvercomeLock *)

Definition serverWriteLocker (v : Z) : Z := Z.shiftr v HMA_CLIENT_SLOTS - 1.

(** [for(iBlock=0; iBlock<HMA_CLIENT_SLOTS; iBlock++)] looking for a reader
    other than the caller, with [cnt] indices still to try. *)
Fixpoint serverFindReader (cnt : nat) (iBlock iClient v : Z) : Z :=
  match cnt with
  | O => iBlock
  | S cnt' =>
      if negb (iBlock =? iClient) && negb (Z.land v (Z.shiftl 1 iBlock) =? 0)
      then iBlock
      else serverFindReader cnt' (iBlock + 1) iClient v
  end.

(** The client [serverOvercomeLock] holds responsible for the value [v]. *)
Definition serverBlocker (iClient v : Z) : Z :=
  let iBlock := Z.shiftr v HMA_CLIENT_SLOTS - 1 in
  if (iBlock <? 0) || (iBlock =? iClient) then
    serverFindReader (Z.to_nat HMA_CLIENT_SLOTS) 0 iClient v
  else iBlock.

(** Returns the result code and the final value of [*pbRetry], which the
    caller initialises to [bRetry]. *)
Definition serverOvercomeLock (fuel : nat) (e : Env) (h : ServerHMA) (p : Server)
    (bWrite bBlock : bool) (v : Z) (bRetry : bool)
  : option (Env * ServerHMA * rc * bool) :=
  let iBlock := serverBlocker (iClient p) v in
  (* assert( iBlock<HMA_CLIENT_SLOTS ) *)
  if default 0 (aClient h !! iBlock) =? 0 then
    let '(e1, r1) := posixLock e (fd h) (iBlock + 1) SERVER_WRITE_LOCK false in
    if bool_decide (r1 = SQLITE_OK) then
      match serverRollbackClient fuel e1 h p iBlock with
      | None => None
      | Some (e2, h2, r2) =>
          (* Release the lock on slot iBlock *)
          let '(e3, _) := posixLock e2 (fd h2) (iBlock + 1) SERVER_NO_LOCK false in
          Some (e3, h2, r2, if bool_decide (r2 = SQLITE_OK) then true else bRetry)
      end
    else if bool_decide (r1 = SQLITE_BUSY) then
      let '(e4, r4, bRetry4) :=
        if bBlock then
          let '(e2, r2) := posixLock e1 (fd h) (iBlock + 1) SERVER_READ_LOCK true in
          if bool_decide (r2 = SQLITE_OK) then
            let '(e3, _) := posixLock e2 (fd h) (iBlock + 1) SERVER_NO_LOCK false in
            (e3, r2, true)
          else (e2, r2, bRetry)
        else (e1, r1, bRetry) in
      Some (e4, h, if bool_decide (r4 = SQLITE_BUSY) then SQLITE_OK else r4, bRetry4)
    else Some (e1, h, r1, bRetry)
  else Some (e, h, SQLITE_OK, bRetry).

(** ** sqlite3ServerLock *)

Definition sqlite3_realloc (e : Env) (ptr : list Z) (nByte : Z) : Env * Z :=
  sqlite3_malloc e nByte.

Definition server_set_lock (p : Server) (nAlloc' nLock' aLockAddr' : Z)
    (aLock' : list Z) : Server :=
  {| pHma := pHma p; iClient := iClient p; pPager := pPager p;
     nUsWrite := nUsWrite p; iUsWrite := iUsWrite p;
     nAlloc := nAlloc'; nLock := nLock'; aLockAddr := aLockAddr'; aLock := aLock' |}.

Definition server_set_time (p : Server) (nUsWrite' iUsWrite' : Z) : Server :=
  {| pHma := pHma p; iClient := iClient p; pPager := pPager p;
     nUsWrite := nUsWrite'; iUsWrite := iUsWrite';
     nAlloc := nAlloc p; nLock := nLock p; aLockAddr := aLockAddr p;
     aLock := aLock p |}.

(** The condition of the inner [while]: another client holds the write field,
    or (for a write request) another client has a reader bit. *)
Definition serverConflict (iClient : Z) (bWrite : bool) (v : Z) : bool :=
  let mask := if bWrite
              then Z.land (Z.shiftl 1 HMA_CLIENT_SLOTS - 1) (Z.lnot (Z.shiftl 1 iClient))
              else 0 in
  let w := serverWriteLocker v in
  ((0 <=? w) && negb (w =? iClient)) || negb (Z.land v mask =? 0).

(** The word that installs RESERVED. *)
Definition serverReservedWord (iClient v : Z) : Z :=
  Z.lor v (Z.shiftl (iClient + 1) HMA_CLIENT_SLOTS).

(** The word the final compare-and-swap installs. *)
Definition serverLockWord (iClient : Z) (bWrite : bool) (v : Z) : Z :=
  let n := Z.lor v (Z.shiftl 1 iClient) in
  if bWrite then Z.lor n (Z.shiftl (iClient + 1) HMA_CLIENT_SLOTS) else n.

(** The two nested [while] loops.  Both the [continue] of the inner loop and
    the fall-through of the outer one arrive at the test of the inner loop
    with a freshly read [v] ([mask] does not change), so one recursive
    function with the state [(v, bReserved)] covers them.  The result is the
    code with which the loops are left and the final [bReserved]. *)
Fixpoint serverLockLoop (fuel : nat) (e : Env) (h : ServerHMA) (p : Server)
    (pgno : Z) (bWrite bBlock : bool) (v : Z) (bReserved : bool)
  : option (Env * ServerHMA * rc * bool) :=
  match fuel with
  | O => None
  | S fuel' =>
      let k := serverPageLockSlot pgno in
      let w := serverWriteLocker v in
      if serverConflict (iClient p) bWrite v then
        (* Attempt a RESERVED lock before anything else *)
        let try_reserved :=
          if (w <? 0) && bWrite && bBlock then
            let n := serverReservedWord (iClient p) v in
            (* assert( serverWriteLocker(n)==p->iClient ) *)
            let '(e1, m1, old) :=
              sync_val_compare_and_swap (iClient p) e (aMap h) k v n in
            if negb (old =? v) then (e1, hma_set_aMap h m1, None)
            else (e1, hma_set_aMap h m1, Some (n, true))
          else (e, h, Some (v, bReserved)) in
        match try_reserved with
        | (e1, h1, None) =>
            (* v = *pSlot; continue; *)
            let '(e2, m2, v2) := read_word (iClient p) e1 (aMap h1) k in
            serverLockLoop fuel' e2 (hma_set_aMap h1 m2) p pgno bWrite bBlock v2 bReserved
        | (e1, h1, Some (v1, bReserved1)) =>
            match serverOvercomeLock fuel e1 h1 p bWrite bBlock v1 false with
            | None => None
            | Some (e2, h2, r, bRetry) =>
                if negb (bool_decide (r = SQLITE_OK)) then Some (e2, h2, r, bReserved1)
                else if negb bRetry then
                  (* There is a conflicting lock. Cannot obtain this lock. *)
                  let e3 := sqlite3_log e2 SQLITE_BUSY_DEADLOCK
                              "Conflict at page %d" (ArgInt pgno) in
                  Some (e3, h2, SQLITE_BUSY_DEADLOCK, bReserved1)
                else
                  (* v = *pSlot; *)
                  let '(e3, m3, v3) := read_word (iClient p) e2 (aMap h2) k in
                  serverLockLoop fuel' e3 (hma_set_aMap h2 m3) p pgno bWrite bBlock
                    v3 bReserved1
            end
        end
      else
        let n := serverLockWord (iClient p) bWrite v in
        let '(e1, m1, old) := sync_val_compare_and_swap (iClient p) e (aMap h) k v n in
        if old =? v then Some (e1, hma_set_aMap h m1, SQLITE_OK, bReserved)
        else
          (* v = *pSlot; *)
          let '(e2, m2, v2) := read_word (iClient p) e1 m1 k in
          serverLockLoop fuel' e2 (hma_set_aMap h m2) p pgno bWrite bBlock v2 bReserved
  end.

(** The [do ... while] that takes back a RESERVED lock. *)
Fixpoint serverUnreserve (fuel : nat) (iClient : Z) (e : Env) (m : gmap Z Z) (k : Z)
  : option (Env * gmap Z Z) :=
  match fuel with
  | O => None
  | S fuel' =>
      let '(e0, m0, v) := read_word iClient e m k in
      (* assert( serverWriteLocker(v)==p->iClient ) *)
      let n := Z.land v (Z.shiftl 1 HMA_CLIENT_SLOTS - 1) in
      let '(e1, m1, old) := sync_val_compare_and_swap iClient e0 m0 k v n in
      if negb (old =? v) then serverUnreserve fuel' iClient e1 m1 k
      else Some (e1, m1)
  end.

(** The code from the label [server_lock_out] to the end of the function. *)
Definition server_lock_out (fuel : nat) (e : Env) (h : ServerHMA) (p : Server)
    (pgno : Z) (r : rc) (bReserved : bool) : option (Env * ServerHMA * Server * rc) :=
  match
    (if negb (bool_decide (r = SQLITE_OK)) && bReserved then
       match serverUnreserve fuel (iClient p) e (aMap h) (serverPageLockSlot pgno) with
       | None => None
       | Some (e1, m1) => Some (e1, hma_set_aMap h m1)
       end
     else Some (e, h))
  with
  | None => None
  | Some (e1, h1) =>
      if pgno =? 0 then
        let '(e2, (tv_sec, tv_usec)) := gettimeofday e1 in
        Some (e2, h1,
              server_set_time p (nUsWrite p) (i64 (i64 (tv_sec * 1000000) + tv_usec)), r)
      else
        (* assert( rc!=SQLITE_OK || sqlite3ServerHasLock(p, pgno, bWrite) ) *)
        Some (e1, h1, p, r)
  end.

(** Is the lock asked for already held, according to the word [v]? *)
Definition serverLockHeld (iClient : Z) (bWrite : bool) (v : Z) : bool :=
  if bWrite then
    let iLock := Z.shiftr v HMA_CLIENT_SLOTS - 1 in
    iLock =? iClient
  else negb (Z.land v (Z.shiftl 1 iClient) =? 0).

(** The first block of sqlite3ServerLock: grow the aLock[] array, if required.
    The entries realloc adds are not initialised in C; they read 0 here. *)
Definition serverLockGrow (e : Env) (p : Server) : Env * Server * rc :=
  if nLock p =? nAlloc p then
    let nNew := if negb (nAlloc p =? 0) then nAlloc p * 2 else 128 in
    let '(e', aNew) := sqlite3_realloc e (aLock p) (4 * nNew) in
    if aNew =? 0 then (e', p, SQLITE_NOMEM)      (* SQLITE_NOMEM_BKPT *)
    else (e',
          server_set_lock p nNew (nLock p) aNew
            (aLock p ++ replicate (Z.to_nat (nNew - nAlloc p)) 0),
          SQLITE_OK)
  else (e, p, SQLITE_OK).

Definition sqlite3ServerLock (fuel : nat) (e : Env) (h : ServerHMA) (p : Server)
    (pgno : Z) (bWrite bBlock : bool) : option (Env * ServerHMA * Server * rc) :=
  let k := serverPageLockSlot pgno in
  let '(e1, p1, r1) := serverLockGrow e p in
  if bool_decide (r1 = SQLITE_OK) then
    let '(e1', m1, v) := read_word (iClient p1) e1 (aMap h) k in
    let h1 := hma_set_aMap h m1 in
    (* Check if the required lock is already held. If so, exit this function
       early. Otherwise, add an entry to the aLock[] array to record the fact
       that the lock may need to be released. *)
    if serverLockHeld (iClient p1) bWrite v then
      server_lock_out fuel e1' h1 p1 pgno r1 false
    else
      let p2 := server_set_lock p1 (nAlloc p1) (nLock p1 + 1) (aLockAddr p1)
                  (<[Z.to_nat (nLock p1) := pgno]> (aLock p1)) in
      match serverLockLoop fuel e1' h1 p2 pgno bWrite bBlock v false with
      | None => None
      | Some (e2, h2, r2, bReserved) => server_lock_out fuel e2 h2 p2 pgno r2 bReserved
      end
  else server_lock_out fuel e1 h p1 pgno r1 false.

(** The answer for the mapping as it is at the moment of the call. *)
Definition sqlite3ServerHasLock (h : ServerHMA) (p : Server) (pgno : Z) (bWrite : bool)
  : bool :=
  let v := word (aMap h) (serverPageLockSlot pgno) in
  if bWrite then Z.shiftr v HMA_CLIENT_SLOTS =? iClient p + 1
  else negb (Z.land v (Z.shiftl 1 (iClient p)) =? 0).

(** ** sqlite3ServerBegin *)

Definition sqlite3ServerBegin (fuel : nat) (e : Env) (h : ServerHMA) (p : Server)
  : option (Env * ServerHMA * Server * rc) :=
  let '(e1, r) := posixLock e (fd h) (iClient p + 1) SERVER_WRITE_LOCK true in
  if rc_nonzero r then Some (e1, h, p, r)
  else sqlite3ServerLock fuel e1 h p 1 false true.

(** ** sqlite3ServerEnd *)

Definition serverEndWord (iClient v : Z) : Z :=
  let n := v in
  let n := if Z.shiftr v HMA_CLIENT_SLOTS =? iClient + 1
           then Z.land n (Z.shiftl 1 HMA_CLIENT_SLOTS - 1) else n in
  Z.land n (Z.lnot (Z.shiftl 1 iClient)).

(** [while( 1 )] around the compare-and-swap that releases one slot. *)
Fixpoint serverEndSlot (fuel : nat) (e : Env) (m : gmap Z Z) (iClient k : Z)
  : option (Env * gmap Z Z) :=
  match fuel with
  | O => None
  | S fuel' =>
      let '(e0, m0, v) := read_word iClient e m k in
      let n := serverEndWord iClient v in
      let '(e1, m1, old) := sync_val_compare_and_swap iClient e0 m0 k v n in
      if old =? v then Some (e1, m1)
      else serverEndSlot fuel' e1 m1 iClient k
  end.

(** The WRITER-time accounting done when the page released is page 0. *)
Definition serverEndWriterTime (e : Env) (p : Server) : Env * Server :=
  let '(e1, (tv_sec, tv_usec)) := gettimeofday e in
  let nUs := i64 (i64 (i64 (tv_sec * 1000000) + tv_usec) - iUsWrite p) in
  let p1 := server_set_time p (i64 (nUsWrite p + nUs)) (iUsWrite p) in
  if negb (Z.quot (nUsWrite p1) 1000000 =? Z.quot (i64 (nUsWrite p1 + nUs)) 1000000) then
    (sqlite3_log e1 SQLITE_WARNING "Cumulative WRITER time: %lldms\n"
       (ArgInt (Z.quot (nUsWrite p1) 1000)), p1)
  else (e1, p1).

(** [for(i=0; i<p->nLock; i++)], with [cnt] entries still to release. *)
Fixpoint serverEndLocks (cnt : nat) (fuel : nat) (e : Env) (h : ServerHMA) (p : Server)
    (i : Z) : option (Env * ServerHMA * Server) :=
  match cnt with
  | O => Some (e, h, p)
  | S cnt' =>
      let pgno := nth (Z.to_nat i) (aLock p) 0 in
      match serverEndSlot fuel e (aMap h) (iClient p) (serverPageLockSlot pgno) with
      | None => None
      | Some (e1, m1) =>
          let '(e2, p2) := if pgno =? 0 then serverEndWriterTime e1 p else (e1, p) in
          serverEndLocks cnt' fuel e2 (hma_set_aMap h m1) p2 (i + 1)
      end
  end.

Definition sqlite3ServerEnd (fuel : nat) (e : Env) (h : ServerHMA) (p : Server)
  : option (Env * ServerHMA * Server * rc) :=
  match serverEndLocks (Z.to_nat (nLock p)) fuel e h p 0 with
  | None => None
  | Some (e1, h1, p1) =>
      let p2 := server_set_lock p1 (nAlloc p1) 0 (aLockAddr p1) (aLock p1) in
      let '(e2, r) := posixLock e1 (fd h1) (iClient p2 + 1) SERVER_READ_LOCK false in
      Some (e2, h1, p2, r)
  end.

(** ** sqlite3ServerReleaseWriteLocks *)

Definition sqlite3ServerReleaseWriteLocks (p : Server) : rc := SQLITE_OK.

(** ** The registry of HMA objects and the connection life cycle *)

Definition stat (e : Env) (zPath : string) : Env * (Z * Z * Z) :=
  ({| e_fcntl := e_fcntl e; e_time := e_time e; e_alloc := e_alloc e;
      e_pager := e_pager e; e_stat := tl (e_stat e); e_open := e_open e;
      e_ftruncate := e_ftruncate e; e_mmap := e_mmap e; e_oslock := e_oslock e;
      e_peers := e_peers e;
      e_trace := e_trace e ++ [EvStat zPath] |},
   hd (0, 0, 0) (e_stat e)).

Definition open (e : Env) (zName : string) : Env * Z :=
  ({| e_fcntl := e_fcntl e; e_time := e_time e; e_alloc := e_alloc e;
      e_pager := e_pager e; e_stat := e_stat e; e_open := tl (e_open e);
      e_ftruncate := e_ftruncate e; e_mmap := e_mmap e; e_oslock := e_oslock e;
      e_peers := e_peers e;
      e_trace := e_trace e ++ [EvOpen zName] |},
   hd 3 (e_open e)).

Definition ftruncate (e : Env) (fd size : Z) : Env * Z :=
  ({| e_fcntl := e_fcntl e; e_time := e_time e; e_alloc := e_alloc e;
      e_pager := e_pager e; e_stat := e_stat e; e_open := e_open e;
      e_ftruncate := tl (e_ftruncate e); e_mmap := e_mmap e; e_oslock := e_oslock e;
      e_peers := e_peers e;
      e_trace := e_trace e ++ [EvFtruncate fd size] |},
   hd 0 (e_ftruncate e)).

Definition mmap (e : Env) (fd size : Z) : Env * (Z * gmap Z Z) :=
  ({| e_fcntl := e_fcntl e; e_time := e_time e; e_alloc := e_alloc e;
      e_pager := e_pager e; e_stat := e_stat e; e_open := e_open e;
      e_ftruncate := e_ftruncate e; e_mmap := tl (e_mmap e); e_oslock := e_oslock e;
      e_peers := e_peers e;
      e_trace := e_trace e ++ [EvMmap fd size] |},
   hd (65536, ∅) (e_mmap e)).

Definition sqlite3OsLock (e : Env) (dbfd : Z) : Env * rc :=
  ({| e_fcntl := e_fcntl e; e_time := e_time e; e_alloc := e_alloc e;
      e_pager := e_pager e; e_stat := e_stat e; e_open := e_open e;
      e_ftruncate := e_ftruncate e; e_mmap := e_mmap e; e_oslock := tl (e_oslock e);
      e_peers := e_peers e;
      e_trace := e_trace e ++ [EvOsLock dbfd] |},
   hd SQLITE_OK (e_oslock e)).

(** [g_server.pHma]: the linked list of the HMA objects of this process, as the
    list of its nodes, each with its address; [pNext] is the tail. *)
Definition Registry : Type := list (Z * ServerHMA).

Fixpoint hma_lookup (g : Registry) (pHma : Z) : option ServerHMA :=
  match g with
  | [] => None
  | (a, h) :: g' => if a =? pHma then Some h else hma_lookup g' pHma
  end.

Fixpoint hma_update (g : Registry) (pHma : Z) (h' : ServerHMA) : Registry :=
  match g with
  | [] => []
  | (a, h) :: g' => if a =? pHma then (a, h') :: g' else (a, h) :: hma_update g' pHma h'
  end.

(** The [for] loop of serverDecrHmaRefcount that walks [pp] along the list up
    to the node [pHma], and the assignment that takes the node out. *)
Fixpoint hma_unlink (g : Registry) (pHma : Z) : Registry :=
  match g with
  | [] => []
  | (a, h) :: g' => if a =? pHma then g' else (a, h) :: hma_unlink g' pHma
  end.

(** [for(pHma=g_server.pHma; pHma; pHma=pHma->pNext)] comparing device and
    inode; [None] when the loop ends with [pHma==0]. *)
Fixpoint hma_find (g : Registry) (dev ino : Z) : option (Z * ServerHMA) :=
  match g with
  | [] => None
  | (a, h) :: g' =>
      if (dev =? st_dev h) && (ino =? st_ino h) then Some (a, h) else hma_find g' dev ino
  end.

Definition serverMapFile (e : Env) (h : ServerHMA) : Env * ServerHMA * rc :=
  (* assert( p->aMap==0 ) *)
  let '(e1, (addr, words)) := mmap e (fd h) HMA_FILE_SIZE in
  let h1 := {| zName := zName h; fd := fd h; nClient := nClient h; aClient := aClient h;
               aMapAddr := addr; aMap := words; st_dev := st_dev h; st_ino := st_ino h |} in
  if addr =? 0 then (e1, h1, SQLITE_ERROR) else (e1, h1, SQLITE_OK).

(** A null [pHma] and an address that is not in the registry leave everything
    as it is (the C code would follow a dangling pointer in the second case). *)
Definition serverDecrHmaRefcount (e : Env) (g : Registry) (pHma : Z) : Env * Registry :=
  if pHma =? 0 then (e, g)
  else
    match hma_lookup g pHma with
    | None => (e, g)
    | Some h =>
        let h1 := hma_set_nClient h (nClient h - 1) in
        if nClient h1 <=? 0 then
          let e1 := if negb (aMapAddr h1 =? 0) then env_log e (EvMunmap (aMapAddr h1)) else e in
          let e2 := if 0 <=? fd h1 then env_log e1 (EvClose (fd h1)) else e1 in
          (sqlite3_free e2 pHma, hma_unlink g pHma)
        else (e, hma_update g pHma h1)
    end.

(** [for(i=0; rc==SQLITE_OK && i<HMA_CLIENT_SLOTS; i++)] of serverOpenHma. *)
Fixpoint serverOpenRollback (cnt : nat) (e : Env) (pPager i : Z) (r : rc) : Env * rc :=
  match cnt with
  | O => (e, r)
  | S cnt' =>
      if bool_decide (r = SQLITE_OK) then
        let '(e1, r1) := sqlite3PagerRollbackJournal e pPager i in
        serverOpenRollback cnt' e1 pPager (i + 1) r1
      else (e, r)
  end.

(** [sizeof(ServerHMA)] and [sizeof(Server)] with 8-byte pointers. *)
Definition sizeof_ServerHMA : Z := 176.
Definition sizeof_Server : Z := 56.

(** The part of serverOpenHma that runs once the new object is linked into the
    registry and named: open the file, lock the DMS slot, map. *)
Definition serverOpenNew (e : Env) (h : ServerHMA) (pPager : Z) : Env * ServerHMA * rc :=
  let '(e1, fd1) := open e (zName h) in
  let h1 := {| zName := zName h; fd := fd1; nClient := nClient h; aClient := aClient h;
               aMapAddr := aMapAddr h; aMap := aMap h;
               st_dev := st_dev h; st_ino := st_ino h |} in
  let '(e2, r2) :=
    if fd1 <? 0 then
      (sqlite3_log e1 SQLITE_CANTOPEN "Failed to open(%s)" (ArgStr (zName h)), SQLITE_ERROR)
    else (e1, SQLITE_OK) in
  if bool_decide (r2 = SQLITE_OK) then
    (* Write-lock the DMS slot. If successful, initialize the hma file. *)
    let '(e3, r3) := posixLock e2 (fd h1) 0 SERVER_WRITE_LOCK false in
    let '(e4, h4, r4) :=
      if bool_decide (r3 = SQLITE_OK) then
        let '(ea, res) := ftruncate e3 (fd h1) HMA_FILE_SIZE in
        let '(eb, rb) :=
          if negb (res =? 0) then
            (sqlite3_log ea SQLITE_CANTOPEN "Failed to ftruncate(%s)" (ArgStr (zName h)),
             SQLITE_ERROR)
          else (ea, r3) in
        let '(ec, hc, rcc) :=
          if bool_decide (rb = SQLITE_OK) then serverMapFile eb h1 else (eb, h1, rb) in
        let '(hd, rd) :=
          if bool_decide (rcc = SQLITE_OK) then (hma_set_aMap hc ∅, rcc)  (* memset *)
          else (hc, SQLITE_ERROR) in
        let '(ee, re) := serverOpenRollback (Z.to_nat HMA_CLIENT_SLOTS) ec pPager 0 rd in
        (ee, hd, re)
      else serverMapFile e3 h1 in
    if bool_decide (r4 = SQLITE_OK) then
      let '(e5, r5) := posixLock e4 (fd h4) 0 SERVER_READ_LOCK true in
      (e5, h4, r5)
    else (e4, h4, r4)
  else (e2, h1, r2).

(** Returns the result code and [*ppHma]. *)
Definition serverOpenHma (e : Env) (g : Registry) (pPager : Z) (zPath : string)
  : Env * Registry * rc * Z :=
  let '(e1, (res, dev, ino)) := stat e zPath in
  if negb (res =? 0) then
    (sqlite3_log e1 SQLITE_CANTOPEN "Failed to stat(%s)" (ArgStr zPath), g, SQLITE_ERROR, 0)
  else
    match hma_find g dev ino with
    | Some (pHma, h) =>
        (e1, hma_update g pHma (hma_set_nClient h (nClient h + 1)), SQLITE_OK, pHma)
    | None =>
        let nPath := Z.of_nat (String.length zPath) in
        let nByte := sizeof_ServerHMA + nPath + 1 + 4 in
        let '(e2, pNew) := sqlite3_malloc e1 nByte in
        if pNew =? 0 then (e2, g, SQLITE_NOMEM, 0)
        else
          let h := {| zName := zPath +:+ "-hma"; fd := 0; nClient := 1; aClient := ∅;
                      aMapAddr := 0; aMap := ∅; st_dev := dev; st_ino := ino |} in
          let '(e3, h3, r3) := serverOpenNew e2 h pPager in
          let g3 := (pNew, h3) :: g in
          if negb (bool_decide (r3 = SQLITE_OK)) then
            let '(e4, g4) := serverDecrHmaRefcount e3 g3 pNew in
            (e4, g4, r3, 0)
          else (e3, g3, r3, pNew)
    end.

Definition server_set_hma (p : Server) (pHma' iClient' : Z) : Server :=
  {| pHma := pHma'; iClient := iClient'; pPager := pPager p;
     nUsWrite := nUsWrite p; iUsWrite := iUsWrite p;
     nAlloc := nAlloc p; nLock := nLock p; aLockAddr := aLockAddr p;
     aLock := aLock p |}.

(** [pAddr] is the address of the Server [p]; [dbfd] is 0 for a null file. *)
Definition sqlite3ServerDisconnect (e : Env) (g : Registry) (pAddr : Z) (p : Server)
    (dbfd : Z) : Env * Registry :=
  let '(e3, g3) :=
    if negb (pHma p =? 0) then
      match hma_lookup g (pHma p) with
      | None => (e, g)
      | Some h =>
          let '(e1, h1) :=
            if 0 <=? iClient p then
              let m := <[serverClientSlot (iClient p) := 0]> (aMap h) in
              (* assert( pHma->aClient[p->iClient]==p ) *)
              let a := <[iClient p := 0]> (aClient h) in
              let '(e', _) := posixLock e (fd h) (iClient p + 1) SERVER_NO_LOCK false in
              (e', hma_set_aClient (hma_set_aMap h m) a)
            else (e, h) in
          let e2 :=
            if negb (dbfd =? 0) && (nClient h1 =? 1) then
              let '(e', r) := sqlite3OsLock e1 dbfd in
              if bool_decide (r = SQLITE_OK) then env_log e' (EvUnlink (zName h1)) else e'
            else e1 in
          serverDecrHmaRefcount e2 (hma_update g (pHma p) h1) (pHma p)
      end
    else (e, g) in
  let e4 := sqlite3_free e3 (aLockAddr p) in
  (sqlite3_free e4 pAddr, g3).

(** [for(i=0; i<HMA_CLIENT_SLOTS; i++)] of sqlite3ServerConnect, with [cnt]
    indices still to try; the result carries [rc] and the final [i]. *)
Fixpoint serverConnectScan (cnt : nat) (fuel : nat) (e : Env) (h : ServerHMA)
    (p : Server) (i : Z) : option (Env * ServerHMA * rc * Z) :=
  match cnt with
  | O => Some (e, h, SQLITE_OK, i)
  | S cnt' =>
      if default 0 (aClient h !! i) =? 0 then
        let '(e1, res) := posixLock e (fd h) (i + 1) SERVER_WRITE_LOCK false in
        if bool_decide (res = SQLITE_OK) then
          let '(e1', m1, v) := read_word (iClient p) e1 (aMap h) (serverClientSlot i) in
          let h1 := hma_set_aMap h m1 in
          match
            (if negb (v =? 0)
             then serverRollbackClient fuel e1' h1 p i
             else Some (e1', h1, SQLITE_OK))
          with
          | None => None
          | Some (e2, h2, r) =>
              let '(e3, _) :=
                posixLock e2 (fd h2) (i + 1)
                  (if negb (rc_nonzero r) then SERVER_READ_LOCK else SERVER_NO_LOCK)
                  false in
              Some (e3, h2, r, i)      (* break *)
          end
        else serverConnectScan cnt' fuel e1 h p (i + 1)
      else serverConnectScan cnt' fuel e h p (i + 1)
  end.

(** The result of a connect call: the code returned, [*ppOut] as the address of
    the new Server (0 for none) with the object itself, and [*piClient]. *)
Record ConnectResult : Type := {
  cr_rc : rc;
  cr_ppOut : Z;
  cr_server : option Server;
  cr_piClient : Z
}.

(** [zPath] is what [sqlite3PagerFilename(pPager, 0)] returns and [piClient]
    the value found in [*piClient] when the call is made. *)
Definition sqlite3ServerConnect (fuel : nat) (e : Env) (g : Registry)
    (pPager : Z) (zPath : string) (piClient : Z)
  : option (Env * Registry * ConnectResult) :=
  let '(e1, pAddr) := sqlite3_malloc e sizeof_Server in
  if pAddr =? 0 then
    (* rc = SQLITE_NOMEM; the call sqlite3ServerDisconnect(p, 0) that follows
       reads p->pHma through the null pointer and is not modelled *)
    Some (e1, g, {| cr_rc := SQLITE_NOMEM; cr_ppOut := 0; cr_server := None;
                    cr_piClient := piClient |})
  else
    let p0 := {| pHma := 0; iClient := -1; pPager := pPager; nUsWrite := 0;
                 iUsWrite := 0; nAlloc := 0; nLock := 0; aLockAddr := 0; aLock := [] |} in
    let '(e2, g2, r2, pH) := serverOpenHma e1 g pPager zPath in
    let p1 := server_set_hma p0 pH (iClient p0) in
    (* File is now mapped. Find a free client slot. *)
    match
      (if bool_decide (r2 = SQLITE_OK) then
         match hma_lookup g2 pH with
         | None => None
         | Some h =>
             match serverConnectScan (Z.to_nat HMA_CLIENT_SLOTS) fuel e2 h p1 0 with
             | None => None
             | Some (e3, h3, r3, i) =>
                 if bool_decide (r3 = SQLITE_OK) then
                   if HMA_CLIENT_SLOTS <? i then
                     Some (e3, hma_update g2 pH h3, p1, SQLITE_BUSY, piClient)
                   else
                     let k := serverClientSlot i in
                     let p2 := server_set_hma p1 pH i in
                     let h4 := hma_set_aClient h3 (<[i := pAddr]> (aClient h3)) in
                     let h5 := hma_set_aMap h4 (<[k := 1]> (aMap h4)) in
                     Some (e3, hma_update g2 pH h5, p2, SQLITE_OK, i)
                 else Some (e3, hma_update g2 pH h3, p1, r3, piClient)
             end
         end
       else Some (e2, g2, p1, r2, piClient))
    with
    | None => None
    | Some (e4, g4, p4, r4, piClient4) =>
        if negb (bool_decide (r4 = SQLITE_OK)) then
          let '(e5, g5) := sqlite3ServerDisconnect e4 g4 pAddr p4 0 in
          Some (e5, g5, {| cr_rc := r4; cr_ppOut := 0; cr_server := None;
                           cr_piClient := piClient4 |})
        else
          Some (e4, g4, {| cr_rc := r4; cr_ppOut := pAddr; cr_server := Some p4;
                           cr_piClient := piClient4 |})
    end.

(** ** Notions used in the statements *)

(** Client [i] holds SHARED according to the word [v]. *)
Definition holds_shared (i v : Z) : Prop := Z.testbit v i = true.

(** The write field of [v] names client [i] (RESERVED or EXCLUSIVE). *)
Definition holds_write (i v : Z) : Prop := Z.shiftr v HMA_CLIENT_SLOTS = i + 1.

(** The word [v] carries nothing of client [i]. *)
Definition slot_free (i v : Z) : Prop :=
  Z.testbit v i = false ∧ Z.shiftr v HMA_CLIENT_SLOTS ≠ i + 1.

(** The indices of [aMap] that are page-lock slots. *)
Definition is_page_slot (k : Z) : Prop :=
  1 + HMA_CLIENT_SLOTS <= k < 1 + HMA_CLIENT_SLOTS + HMA_PAGELOCK_SLOTS.

(** The lock-history of [p] has an entry whose slot is [k]. *)
Definition history_has_slot (p : Server) (k : Z) : Prop :=
  ∃ (j : nat) (pgno : Z),
    (j < Z.to_nat (nLock p))%nat ∧ aLock p !! j = Some pgno ∧ serverPageLockSlot pgno = k.

(** The lock-history covers every page-lock slot that carries something of
    the connection. *)
Definition history_covers (p : Server) (m : gmap Z Z) : Prop :=
  ∀ k, is_page_slot k → ¬ slot_free (iClient p) (word m k) → history_has_slot p k.

(** The [aLock] buffer is as the C code keeps it: [nAlloc] entries, of which
    the first [nLock] are in use. *)
Definition buffer_ok (p : Server) : Prop :=
  0 <= nLock p <= nAlloc p ∧ Z.of_nat (length (aLock p)) = nAlloc p.

(** Invariant I1 of the specification for one word: a [u32] whose write field
    is at most [HMA_CLIENT_SLOTS]. *)
Definition word_ok (v : Z) : Prop := 0 <= v ∧ Z.shiftr v HMA_CLIENT_SLOTS <= HMA_CLIENT_SLOTS.

(** The word [v'] has of client [i] what [v] has, and is as well-formed. *)
Definition keeps (i v v' : Z) : Prop :=
  contribution i v' = contribution i v ∧ (word_ok v → word_ok v').

(** Every page-lock word of [m'] has of client [i] what the word of [m] has,
    and is as well-formed. *)
Definition mem_keeps (i : Z) (m m' : gmap Z Z) : Prop :=
  ∀ k, is_page_slot k → keeps i (word m k) (word m' k).

(** The same for the page-lock words other than the one at [k0]. *)
Definition others_keep (i k0 : Z) (m m' : gmap Z Z) : Prop :=
  ∀ k, is_page_slot k → k ≠ k0 → keeps i (word m k) (word m' k).

(** Where a call of sqlite3ServerLock by client [i] for the slot [k0] stands
    that found the mapping [m], has not taken the lock yet and has brought the
    mapping to [m']: the reader bit of [i] in the slot is as it was, and the
    write field names [i] because the call installed RESERVED ([bReserved]
    set, and then it did not name [i] before) or exactly when it did before. *)
Definition lock_attempt (i k0 : Z) (m m' : gmap Z Z) (bReserved : bool) : Prop :=
  others_keep i k0 m m'
  ∧ (word_ok (word m k0) → word_ok (word m' k0))
  ∧ Z.testbit (word m' k0) i = Z.testbit (word m k0) i
  ∧ (bReserved = true →
       holds_write i (word m' k0) ∧ ¬ holds_write i (word m k0))
  ∧ (bReserved = false →
       (holds_write i (word m' k0) ↔ holds_write i (word m k0))).

(** The event is an fcntl request that waits for the lock (F_SETLKW). *)
Definition is_blocking_fcntl (ev : event) : bool :=
  match ev with EvFcntl _ F_SETLKW _ => true | _ => false end.

(** [e'] is [e] after further outside calls: the trace has grown by events
    that all satisfy [P], and of the pager's script only a tail is left. *)
Definition env_steps (P : event → Prop) (e e' : Env) : Prop :=
  (∀ r, r ∈ e_pager e' → r ∈ e_pager e)
  ∧ ∃ t, e_trace e' = e_trace e ++ t ∧ Forall P t.

(** What is asked of the events of a request: when the request is
    non-blocking, none of them waits. *)
Definition no_wait (bBlock : bool) (ev : event) : Prop :=
  bBlock = false → is_blocking_fcntl ev = false.

(** The request that posixLock passes to fcntl: a lock of one byte at offset
    [iSlot*4]. *)
Definition slot_lock (t : flock_type) (iSlot : Z) : flock :=
  {| l_type := Some t; l_whence := SEEK_SET; l_start := iSlot * 4; l_len := 1 |}.

(** What the code relies on in the registry: the objects have distinct
    addresses, none of them null, and each is in use by at least one
    connection. *)
Definition registry_ok (g : Registry) : Prop :=
  NoDup (map fst g) ∧ (0 ∉ map fst g) ∧ Forall (λ ah, 1 <= nClient (snd ah)) g.

(** [h'] is the object [h] but for its mapping: the fields other than
    [aMapAddr] and [aMap] are the same. *)
Definition hma_same_object (h h' : ServerHMA) : Prop :=
  zName h' = zName h ∧ fd h' = fd h ∧ nClient h' = nClient h
  ∧ aClient h' = aClient h ∧ st_dev h' = st_dev h ∧ st_ino h' = st_ino h.

(** The mapping once the next batch of stores of the other clients has
    arrived. *)
Definition peers_next (i : Z) (e : Env) (m : gmap Z Z) : gmap Z Z :=
  foldl (peer_store i) m (hd [] (e_peers e)).

(** The growth step of sqlite3ServerLock does not fail: the buffer has room,
    or the allocator's next answer is a non-null address. *)
Definition grow_succeeds (e : Env) (p : Server) : Prop :=
  nLock p ≠ nAlloc p ∨ hd 4096 (e_alloc e) ≠ 0.

(** The time sqlite3ServerLock stores: the next answer of the clock. *)
Definition next_time (e : Env) : Z :=
  i64 (i64 ((hd (0, 0) (e_time e)).1 * 1000000) + (hd (0, 0) (e_time e)).2).

(** ** Concrete states used in the examples *)

Definition env0 : Env :=
  {| e_fcntl := []; e_time := []; e_alloc := []; e_pager := []; e_stat := [];
     e_open := []; e_ftruncate := []; e_mmap := []; e_oslock := [];
     e_peers := []; e_trace := [] |}.

Definition env_with_fcntl (l : list (Z * errno)) : Env :=
  {| e_fcntl := l; e_time := []; e_alloc := []; e_pager := []; e_stat := [];
     e_open := []; e_ftruncate := []; e_mmap := []; e_oslock := [];
     e_peers := []; e_trace := [] |}.

Definition env_with_time (l : list (Z * Z)) : Env :=
  {| e_fcntl := []; e_time := l; e_alloc := []; e_pager := []; e_stat := [];
     e_open := []; e_ftruncate := []; e_mmap := []; e_oslock := [];
     e_peers := []; e_trace := [] |}.

Definition env_with_alloc (l : list Z) : Env :=
  {| e_fcntl := []; e_time := []; e_alloc := l; e_pager := []; e_stat := [];
     e_open := []; e_ftruncate := []; e_mmap := []; e_oslock := [];
     e_peers := []; e_trace := [] |}.

(** Nothing scripted but the stores of the other clients: one batch for each
    access of the caller to the mapping. *)
Definition env_with_peers (l : list (list (Z * Z))) : Env :=
  {| e_fcntl := []; e_time := []; e_alloc := []; e_pager := []; e_stat := [];
     e_open := []; e_ftruncate := []; e_mmap := []; e_oslock := [];
     e_peers := l; e_trace := [] |}.

(** An HMA object with the local clients 0 and 1 and the page-lock words [m]. *)
Definition hma_two (m : gmap Z Z) : ServerHMA :=
  {| zName := "db-hma"; fd := 3; nClient := 2; aClient := {[0 := 8192; 1 := 8448]};
     aMapAddr := 65536; aMap := m; st_dev := 1; st_ino := 2 |}.

(** A connection with client id [i] and an empty lock-history. *)
Definition server_fresh (i : Z) : Server :=
  {| pHma := 4096; iClient := i; pPager := 7; nUsWrite := 0; iUsWrite := 0;
     nAlloc := 0; nLock := 0; aLockAddr := 0; aLock := [] |}.

(** Client 0 with the pages [pages] (at most 128 of them) in its lock-history,
    in the buffer of 128 entries that the first call of sqlite3ServerLock
    allocates, and the two time counters given. *)
Definition server_with (pages : list Z) (nUs iUs : Z) : Server :=
  {| pHma := 4096; iClient := 0; pPager := 7; nUsWrite := nUs; iUsWrite := iUs;
     nAlloc := 128; nLock := Z.of_nat (length pages);
     aLockAddr := 12288; aLock := pages ++ replicate (128 - length pages) 0 |}.

(** The pages 1..128, and the mapping in which client 0 holds SHARED on each of
    them. *)
Definition pages_1_128 : list Z := map Z.of_nat (seq 1 128).

Definition words_1_128 : gmap Z Z :=
  list_to_map (map (λ pgno, (serverPageLockSlot pgno, 1)) pages_1_128).

Definition is_log (ev : event) : bool :=
  match ev with EvLog _ _ _ => true | _ => false end.

Definition is_fcntl (ev : event) : bool :=
  match ev with EvFcntl _ _ _ => true | _ => false end.

(** The words of an HMA file whose 16 client slots are taken. *)
Definition words_all_clients : gmap Z Z :=
  list_to_map (map (λ i, (1 + Z.of_nat i, 1)) (seq 0 16)).

(** An HMA object all of whose 16 client slots are taken by connections of this
    process. *)
Definition hma_full : ServerHMA :=
  {| zName := "db-hma"; fd := 3; nClient := 16;
     aClient := list_to_map (map (λ i, (Z.of_nat i, 8192 + 256 * Z.of_nat i)) (seq 0 16));
     aMapAddr := 65536;
     aMap := words_all_clients;
     st_dev := 1; st_ino := 2 |}.

(** The environment of a connect call in a process that has [hma_full] in its
    registry: stat finds the database file, the allocator hands out 16384. *)
Definition env_connect_local : Env :=
  {| e_fcntl := []; e_time := []; e_alloc := [16384]; e_pager := [];
     e_stat := [(0, 1, 2)]; e_open := []; e_ftruncate := []; e_mmap := [];
     e_oslock := [];
     e_peers := []; e_trace := [] |}.

(** The environment of the first connect call of a process while 16 connections
    of other processes are alive: the allocator hands out 16384 for the Server
    and 20480 for the HMA object, open returns descriptor 3, the writer-lock on
    the DMS slot is refused, the file is mapped with all client slots taken,
    the blocking reader-lock on the DMS slot is granted, and each of the 16
    writer-lock attempts on a client slot is refused. *)
Definition env_connect_remote : Env :=
  {| e_fcntl := [(-1, EAGAIN); (0, ENONE)] ++ repeat (-1, EAGAIN) 16;
     e_time := []; e_alloc := [16384; 20480]; e_pager := [];
     e_stat := [(0, 1, 2)]; e_open := [3]; e_ftruncate := [];
     e_mmap := [(65536, words_all_clients)]; e_oslock := [];
     e_peers := []; e_trace := [] |}.

(** The begin operation as section 4.4 of the specification words it: the
    blocking writer-lock on the own client slot, then
    [lock(server, page=0, write=false, blocking=true)]. *)
Definition begin_as_specified (fuel : nat) (e : Env) (h : ServerHMA) (p : Server)
  : option (Env * ServerHMA * Server * rc) :=
  let '(e1, r) := posixLock e (fd h) (iClient p + 1) SERVER_WRITE_LOCK true in
  if rc_nonzero r then Some (e1, h, p, r)
  else sqlite3ServerLock fuel e1 h p 0 false true.

(** The environment of a call that opens the HMA file: stat finds the database
    file as inode 2 of device 1, the allocator hands out [al], open returns
    descriptor 3, fcntl answers with [fc], ftruncate succeeds, mmap maps
    [words] at 65536 and the journal rollbacks answer with [pg]. *)
Definition env_open (fc : list (Z * errno)) (al : list Z) (words : gmap Z Z)
    (pg : list rc) : Env :=
  {| e_fcntl := fc; e_time := []; e_alloc := al; e_pager := pg;
     e_stat := [(0, 1, 2)]; e_open := [3]; e_ftruncate := [];
     e_mmap := [(65536, words)]; e_oslock := [];
     e_peers := []; e_trace := [] |}.

Definition env_of (fc : list (Z * errno)) (tm : list (Z * Z)) (al : list Z) : Env :=
  {| e_fcntl := fc; e_time := tm; e_alloc := al; e_pager := []; e_stat := [];
     e_open := []; e_ftruncate := []; e_mmap := []; e_oslock := [];
     e_peers := []; e_trace := [] |}.

(** * Properties *)

(** ** posixLock *)

Lemma aType_lookup (eLock : Z) :
  default None (aType !! Z.to_nat eLock) =
    if eLock =? SERVER_WRITE_LOCK then Some F_WRLCK
    else if eLock =? SERVER_READ_LOCK then Some F_RDLCK
    else if eLock =? SERVER_NO_LOCK then Some F_UNLCK
    else None.
Proof.
  unfold SERVER_WRITE_LOCK, SERVER_READ_LOCK, SERVER_NO_LOCK.
  destruct (Z_le_gt_dec eLock 0) as [Hle|Hgt].
  - replace (Z.to_nat eLock) with 0%nat by lia.
    repeat (case_match; try lia); reflexivity.
  - destruct (Z_le_gt_dec 4 eLock) as [H4|H4].
    + rewrite (lookup_ge_None_2 aType (Z.to_nat eLock)) by (simpl; lia).
      repeat (case_match; try lia); reflexivity.
    + assert (eLock = 1 ∨ eLock = 2 ∨ eLock = 3) as [-> | [-> | ->]] by lia; reflexivity.
Qed.

Lemma posixLock_event (e : Env) (fd iSlot eLock : Z) (bBlock : bool) :
  e_trace (posixLock e fd iSlot eLock bBlock).1 =
    e_trace e ++
      [EvFcntl fd (if bBlock then F_SETLKW else F_SETLK)
         {| l_type := default None (aType !! Z.to_nat eLock);
            l_whence := SEEK_SET; l_start := iSlot * 4; l_len := 1 |}].
Proof.
  unfold posixLock, fcntl. destruct (hd (0, ENONE) (e_fcntl e)) as [res err].
  by case_match.
Qed.

Lemma posixLock_trace (e : Env) (fd iSlot eLock : Z) (bBlock : bool) :
  ∃ ev, e_trace (posixLock e fd iSlot eLock bBlock).1 = e_trace e ++ [ev].
Proof. eexists. apply posixLock_event. Qed.

(** C5, first half, and the second half as the code has it: posixLock makes one
    fcntl call, for a lock of one byte at offset [iSlot*4] from the start of
    the file, F_SETLKW when blocking and F_SETLK otherwise; it returns OK when
    fcntl returns 0, BUSY_DEADLOCK when a blocking call fails with EDEADLK,
    and BUSY for every other failure, whatever errno says. *)
Theorem posixLock_result (e : Env) (fd iSlot eLock : Z) (bBlock : bool) :
  let res := fst (hd (0, ENONE) (e_fcntl e)) in
  let err := snd (hd (0, ENONE) (e_fcntl e)) in
  e_trace (fst (posixLock e fd iSlot eLock bBlock)) =
    e_trace e ++
      [EvFcntl fd (if bBlock then F_SETLKW else F_SETLK)
         {| l_type := if eLock =? SERVER_WRITE_LOCK then Some F_WRLCK
                      else if eLock =? SERVER_READ_LOCK then Some F_RDLCK
                      else if eLock =? SERVER_NO_LOCK then Some F_UNLCK
                      else None;
            l_whence := SEEK_SET; l_start := iSlot * 4; l_len := 1 |}]
  ∧ snd (posixLock e fd iSlot eLock bBlock) =
      (if res =? 0 then SQLITE_OK
       else if bBlock && bool_decide (err = EDEADLK) then SQLITE_BUSY_DEADLOCK
       else SQLITE_BUSY)
  ∧ snd (posixLock e fd iSlot eLock bBlock) ≠ SQLITE_ERROR.
Proof.
  intros res err. unfold posixLock, fcntl. rewrite aType_lookup.
  subst res err. destruct (hd (0, ENONE) (e_fcntl e)) as [res err]. simpl.
  destruct (res =? 0), bBlock, (bool_decide (err = EDEADLK)); simpl; auto.
Qed.

(** C5 as stated fails: a non-blocking request on which fcntl fails with EBADF,
    and a blocking request interrupted by a signal, both come back as BUSY,
    not as ERROR. *)
Lemma posixLock_unexpected_failure_is_busy :
  snd (posixLock (env_with_fcntl [(-1, EBADF)]) 3 1 SERVER_WRITE_LOCK false) = SQLITE_BUSY
  ∧ snd (posixLock (env_with_fcntl [(-1, EINTR)]) 3 1 SERVER_READ_LOCK true) = SQLITE_BUSY
  ∧ SQLITE_BUSY ≠ SQLITE_ERROR.
Proof. repeat split; discriminate. Qed.

(** ** sqlite3ServerEnd: the WRITER-time notice *)

(** C8 at two inputs.  The code adds the elapsed time to [nUsWrite] first and
    then compares the seconds of the new total with the seconds of the new
    total plus the elapsed time once more.  With a total of 0 and 600000 us
    elapsed the total stays within second 0 and a line is logged all the same;
    with a total of 900000 us and 200000 us elapsed the total passes one second
    and nothing is logged. *)
Theorem sqlite3ServerEnd_writer_notice_misplaced :
  (∃ e h p r,
      sqlite3ServerEnd 1 (env_with_time [(5, 600000)]) (hma_two {[17 := 1]})
        (server_with [0] 0 5000000) = Some (e, h, p, r)
      ∧ nUsWrite p = 600000
      ∧ Z.quot 0 1000000 = Z.quot 600000 1000000
      ∧ filter is_log (e_trace e) =
          [EvLog SQLITE_WARNING "Cumulative WRITER time: %lldms\n" (ArgInt 600)])
  ∧ (∃ e h p r,
      sqlite3ServerEnd 1 (env_with_time [(5, 200000)]) (hma_two {[17 := 1]})
        (server_with [0] 900000 5000000) = Some (e, h, p, r)
      ∧ nUsWrite p = 1100000
      ∧ Z.quot 900000 1000000 ≠ Z.quot 1100000 1000000
      ∧ filter is_log (e_trace e) = []).
Proof.
  split.
  - do 4 eexists. split; [vm_compute; reflexivity|]. vm_compute. repeat split; congruence.
  - do 4 eexists. split; [vm_compute; reflexivity|]. vm_compute. repeat split; congruence.
Qed.

(** ** sqlite3ServerConnect: no slot can be claimed *)

(** When every entry of [aClient] is taken, the scan for a free slot runs
    through all 16 indices without a single fcntl call and ends with [rc] still
    OK and [i = 16]. *)
Lemma serverConnectScan_all_local (cnt : nat) :
  ∀ (fuel : nat) (e : Env) (h : ServerHMA) (p : Server) (i : Z),
    (∀ j, i <= j < i + Z.of_nat cnt → default 0 (aClient h !! j) ≠ 0) →
    serverConnectScan cnt fuel e h p i = Some (e, h, SQLITE_OK, i + Z.of_nat cnt).
Proof.
  induction cnt as [|cnt IH]; intros fuel e h p i Hall; cbn [serverConnectScan].
  - replace (i + Z.of_nat 0) with i by lia. reflexivity.
  - destruct (Z.eqb_spec (default 0 (aClient h !! i)) 0) as [Hnull|_].
    + exfalso. apply (Hall i); [lia | done].
    + rewrite IH by (intros j Hj; apply Hall; lia).
      replace (i + 1 + Z.of_nat cnt) with (i + Z.of_nat (S cnt)) by lia. reflexivity.
Qed.

(** C1: the scan of a full [aClient] ends with [i = 16], which the test
    [i>HMA_CLIENT_SLOTS] lets pass; and the whole call at two inputs: all 16
    entries of [aClient] are taken by connections of this process, or the
    process connects for the first time and each of the 16 writer-lock
    attempts fails because the slots are taken by other processes.  In both
    the call returns OK with client id 16, having stored 1 in word 17 of the
    mapping (the page-lock slot of page 0) and the new connection under index
    16 of [aClient], one past the end of the array. *)
Theorem sqlite3ServerConnect_full_returns_ok :
  (∀ (fuel : nat) (e : Env) (h : ServerHMA) (p : Server),
     (∀ j, 0 <= j < HMA_CLIENT_SLOTS → default 0 (aClient h !! j) ≠ 0) →
     serverConnectScan (Z.to_nat HMA_CLIENT_SLOTS) fuel e h p 0
       = Some (e, h, SQLITE_OK, HMA_CLIENT_SLOTS)
     ∧ (HMA_CLIENT_SLOTS <? HMA_CLIENT_SLOTS) = false)
  ∧ (∃ e h c,
      sqlite3ServerConnect 1 env_connect_local [(4096, hma_full)] 7 "db" (-1)
        = Some (e, [(4096, h)], c)
      ∧ cr_rc c = SQLITE_OK ∧ cr_piClient c = 16 ∧ cr_ppOut c = 16384
      ∧ word (aMap hma_full) (serverPageLockSlot 0) = 0
      ∧ word (aMap h) (serverPageLockSlot 0) = 1
      ∧ aClient h !! 16 = Some 16384)
  ∧ (∃ e h c,
      sqlite3ServerConnect 1 env_connect_remote [] 7 "db" (-1)
        = Some (e, [(20480, h)], c)
      ∧ cr_rc c = SQLITE_OK ∧ cr_piClient c = 16 ∧ cr_ppOut c = 16384
      ∧ word words_all_clients (serverPageLockSlot 0) = 0
      ∧ word (aMap h) (serverPageLockSlot 0) = 1
      ∧ aClient h !! 16 = Some 16384
      ∧ length (filter is_fcntl (e_trace e)) = 18%nat
      ∧ e_fcntl e = []).
Proof.
  split_and!.
  - intros fuel e h p Hall. split; [|reflexivity].
    by rewrite serverConnectScan_all_local.
  - do 3 eexists. split; [vm_compute; reflexivity|]. vm_compute. repeat split; congruence.
  - do 3 eexists. split; [vm_compute; reflexivity|]. vm_compute. repeat split; congruence.
Qed.

(** ** sqlite3ServerBegin *)

(** C2 as stated fails: on a mapping of zeros, client 0's begin leaves the
    slot of page 0 untouched and takes SHARED on page 1; the history records
    page 1, and the result differs from that of the operation the
    specification describes. *)
Lemma sqlite3ServerBegin_locks_page_1 :
  (∃ e h p,
      sqlite3ServerBegin 1 env0 (hma_two ∅) (server_fresh 0) = Some (e, h, p, SQLITE_OK)
      ∧ sqlite3ServerHasLock h p 0 false = false
      ∧ sqlite3ServerHasLock h p 1 false = true
      ∧ word (aMap h) (serverPageLockSlot 0) = 0
      ∧ nLock p = 1 ∧ aLock p !! 0%nat = Some 1)
  ∧ sqlite3ServerBegin 1 env0 (hma_two ∅) (server_fresh 0)
      ≠ begin_as_specified 1 env0 (hma_two ∅) (server_fresh 0).
Proof.
  split.
  - do 3 eexists. split; [vm_compute; reflexivity|]. vm_compute. repeat split; congruence.
  - vm_compute. congruence.
Qed.

(** ** Words and bits *)

Lemma word_insert_eq (m : gmap Z Z) (k v : Z) : word (<[k := v]> m) k = v.
Proof. unfold word. by rewrite lookup_insert_eq. Qed.

Lemma word_insert_ne (m : gmap Z Z) (k k' v : Z) :
  k ≠ k' → word (<[k := v]> m) k' = word m k'.
Proof. intros. unfold word. by rewrite lookup_insert_ne. Qed.

Lemma ones_client_slots : Z.shiftl 1 HMA_CLIENT_SLOTS - 1 = Z.ones 16.
Proof. reflexivity. Qed.

Lemma testbit_pow2 (i j : Z) : 0 <= i → Z.testbit (Z.shiftl 1 i) j = (i =? j).
Proof.
  intros Hi. rewrite Z.shiftl_1_l. rewrite Z.pow2_bits_eqb by done. done.
Qed.

Lemma testbit_clear (v i j : Z) :
  0 <= i → 0 <= j →
  Z.testbit (Z.land v (Z.lnot (Z.shiftl 1 i))) j = Z.testbit v j && negb (i =? j).
Proof.
  intros Hi Hj. rewrite Z.land_spec, Z.lnot_spec by done. by rewrite testbit_pow2.
Qed.

Lemma shiftr_clear_low (v i : Z) :
  0 <= i < HMA_CLIENT_SLOTS →
  Z.shiftr (Z.land v (Z.lnot (Z.shiftl 1 i))) HMA_CLIENT_SLOTS = Z.shiftr v HMA_CLIENT_SLOTS.
Proof.
  unfold HMA_CLIENT_SLOTS. intros Hi. apply Z.bits_inj'. intros j Hj.
  rewrite !Z.shiftr_spec by done. rewrite testbit_clear by lia.
  destruct (Z.eqb_spec i (j + 16)); [lia|]. by rewrite andb_true_r.
Qed.

Lemma shiftr_low_half (v : Z) :
  Z.shiftr (Z.land v (Z.shiftl 1 HMA_CLIENT_SLOTS - 1)) HMA_CLIENT_SLOTS = 0.
Proof.
  rewrite ones_client_slots. unfold HMA_CLIENT_SLOTS. apply Z.bits_inj'. intros j Hj.
  rewrite Z.shiftr_spec, Z.land_spec by done.
  rewrite Z.ones_spec_high by lia. rewrite Z.bits_0. apply andb_false_r.
Qed.

Lemma testbit_low_half (v j : Z) :
  0 <= j < HMA_CLIENT_SLOTS →
  Z.testbit (Z.land v (Z.shiftl 1 HMA_CLIENT_SLOTS - 1)) j = Z.testbit v j.
Proof.
  rewrite ones_client_slots. unfold HMA_CLIENT_SLOTS. intros Hj.
  rewrite Z.land_spec, Z.ones_spec_low by lia. apply andb_true_r.
Qed.

Lemma land_pow2_testbit (v i : Z) :
  0 <= i → negb (Z.land v (Z.shiftl 1 i) =? 0) = Z.testbit v i.
Proof.
  intros Hi. destruct (Z.testbit v i) eqn:Hb.
  - apply negb_true_iff, Z.eqb_neq. intros H0.
    assert (Z.testbit (Z.land v (Z.shiftl 1 i)) i = true) as Ht.
    { rewrite Z.land_spec, Hb, testbit_pow2, Z.eqb_refl by done. done. }
    rewrite H0, Z.bits_0 in Ht. done.
  - apply negb_false_iff, Z.eqb_eq. apply Z.bits_inj'. intros j Hj.
    rewrite Z.land_spec, testbit_pow2, Z.bits_0 by done.
    destruct (Z.eqb_spec i j) as [->|]; [by rewrite Hb | apply andb_false_r].
Qed.

(** The word sqlite3ServerEnd stores carries nothing of the client.  This
    holds for the client ids 0..15 and also for 16, the id that
    sqlite3ServerConnect hands out when all slots are taken. *)
Lemma serverEndWord_free (i v : Z) :
  0 <= i <= HMA_CLIENT_SLOTS → slot_free i (serverEndWord i v).
Proof.
  intros Hi. unfold slot_free, serverEndWord.
  set (n := if Z.shiftr v HMA_CLIENT_SLOTS =? i + 1
            then Z.land v (Z.shiftl 1 HMA_CLIENT_SLOTS - 1) else v).
  assert (Z.testbit (Z.land n (Z.lnot (Z.shiftl 1 i))) i = false) as Hbit.
  { rewrite testbit_clear by lia. rewrite Z.eqb_refl. apply andb_false_r. }
  split; [done|].
  destruct (Z.eq_dec i HMA_CLIENT_SLOTS) as [->|Hne].
  - (* bit 16 of the word is bit 0 of the write field, and 17 is odd *)
    intros Hf.
    assert (Z.testbit (Z.shiftr (Z.land n (Z.lnot (Z.shiftl 1 HMA_CLIENT_SLOTS)))
                         HMA_CLIENT_SLOTS) 0 = true) as Hodd by (by rewrite Hf).
    rewrite Z.shiftr_spec in Hodd by done.
    change (0 + HMA_CLIENT_SLOTS) with HMA_CLIENT_SLOTS in Hodd. congruence.
  - rewrite shiftr_clear_low by lia. subst n.
    destruct (Z.eqb_spec (Z.shiftr v HMA_CLIENT_SLOTS) (i + 1)) as [Heq|Hneq].
    + rewrite shiftr_low_half. lia.
    + done.
Qed.

Lemma u32_land (a b : Z) : 0 <= a < 2 ^ 32 → 0 <= Z.land a b < 2 ^ 32.
Proof.
  intros Ha.
  assert (Z.land a b = (Z.land a b) mod 2 ^ 32) as ->.
  { rewrite <- Z.land_ones by lia.
    rewrite <- (Z.mod_small a (2 ^ 32)) at 1 by lia.
    rewrite <- Z.land_ones by lia.
    rewrite <- !Z.land_assoc. f_equal. apply Z.land_comm. }
  apply Z.mod_pos_bound. lia.
Qed.

Lemma u32_lor (a b : Z) : 0 <= a < 2 ^ 32 → 0 <= b < 2 ^ 32 → 0 <= Z.lor a b < 2 ^ 32.
Proof.
  intros Ha Hb.
  assert (Z.lor a b = (Z.lor a b) mod 2 ^ 32) as ->.
  { rewrite <- Z.land_ones by lia. rewrite Z.land_lor_distr_l.
    rewrite !Z.land_ones by lia. by rewrite !Z.mod_small by lia. }
  apply Z.mod_pos_bound. lia.
Qed.

(** No wrap-around: the words sqlite3ServerEnd, serverRollbackClient and
    sqlite3ServerLock compute from a [u32] are [u32]. *)
Lemma serverEndWord_range (i v : Z) :
  0 <= v < 2 ^ 32 → 0 <= serverEndWord i v < 2 ^ 32.
Proof.
  intros Hv. unfold serverEndWord.
  destruct (Z.shiftr v HMA_CLIENT_SLOTS =? i + 1); auto using u32_land.
Qed.

Lemma serverRollbackWord_range (i v : Z) :
  0 <= v < 2 ^ 32 → 0 <= serverRollbackWord i v < 2 ^ 32.
Proof.
  intros Hv. unfold serverRollbackWord.
  destruct (Z.shiftr v HMA_CLIENT_SLOTS =? i + 1); auto using u32_land.
Qed.

Lemma serverLockWord_range (i v : Z) (bWrite : bool) :
  0 <= i < HMA_CLIENT_SLOTS → 0 <= v < 2 ^ 32 →
  0 <= serverLockWord i bWrite v < 2 ^ 32
  ∧ 0 <= serverReservedWord i v < 2 ^ 32.
Proof.
  unfold HMA_CLIENT_SLOTS. intros Hi Hv. unfold serverLockWord, serverReservedWord.
  unfold HMA_CLIENT_SLOTS.
  assert (0 <= Z.shiftl 1 i < 2 ^ 32) as H1.
  { rewrite Z.shiftl_1_l. split; [lia|]. apply Z.pow_lt_mono_r; lia. }
  assert (0 <= Z.shiftl (i + 1) 16 < 2 ^ 32) as H2.
  { rewrite Z.shiftl_mul_pow2 by lia. lia. }
  destruct bWrite; auto using u32_lor.
Qed.


(** ** The stores of the other clients *)

Lemma word_okb_spec (v : Z) : word_okb v = true ↔ word_ok v.
Proof.
  unfold word_okb, word_ok. rewrite andb_true_iff, Z.leb_le, Z.leb_le. done.
Qed.

Lemma is_page_slotb_spec (k : Z) : is_page_slotb k = true ↔ is_page_slot k.
Proof.
  unfold is_page_slotb, is_page_slot. rewrite andb_true_iff, Z.leb_le, Z.ltb_lt. done.
Qed.

Lemma keeps_refl (i v : Z) : keeps i v v.
Proof. by split. Qed.

Lemma keeps_trans (i v1 v2 v3 : Z) : keeps i v1 v2 → keeps i v2 v3 → keeps i v1 v3.
Proof. intros [H1 H1'] [H2 H2']. split; [congruence | auto]. Qed.

Lemma mem_keeps_refl (i : Z) (m : gmap Z Z) : mem_keeps i m m.
Proof. intros k _. apply keeps_refl. Qed.

Lemma mem_keeps_trans (i : Z) (m1 m2 m3 : gmap Z Z) :
  mem_keeps i m1 m2 → mem_keeps i m2 m3 → mem_keeps i m1 m3.
Proof. intros H1 H2 k Hk. eapply keeps_trans; [by apply H1 | by apply H2]. Qed.

Lemma peer_respects_keeps (i old new : Z) :
  0 <= i → peer_respects i old new = true → keeps i old new.
Proof.
  intros Hi. unfold peer_respects. rewrite andb_true_iff, orb_true_iff.
  intros [[Hneg|Hc] Hok].
  - apply Z.ltb_lt in Hneg. lia.
  - apply bool_decide_eq_true in Hc. split; [done|].
    intros Hold. apply word_okb_spec in Hold. rewrite Hold in Hok.
    by apply word_okb_spec.
Qed.

Lemma peer_store_keeps (i : Z) (m : gmap Z Z) (s : Z * Z) :
  0 <= i → mem_keeps i m (peer_store i m s).
Proof.
  intros Hi k Hk. unfold peer_store.
  destruct (is_page_slotb s.1) eqn:Hpage; simpl.
  - destruct (peer_respects i (word m s.1) s.2) eqn:Hresp; simpl; [|apply keeps_refl].
    destruct (Z.eq_dec s.1 k) as [<-|Hne].
    + rewrite word_insert_eq. by apply peer_respects_keeps.
    + rewrite word_insert_ne by done. apply keeps_refl.
  - destruct (Z.eq_dec s.1 k) as [<-|Hne].
    + apply is_page_slotb_spec in Hk. congruence.
    + rewrite word_insert_ne by done. apply keeps_refl.
Qed.

Lemma peers_next_keeps (i : Z) (e : Env) (m : gmap Z Z) :
  0 <= i → mem_keeps i m (peers_next i e m).
Proof.
  intros Hi. unfold peers_next. generalize (hd [] (e_peers e)). intros l.
  revert m. induction l as [|s l IH]; intros m; simpl.
  - apply mem_keeps_refl.
  - eapply mem_keeps_trans; [by apply peer_store_keeps | apply IH].
Qed.

Lemma peers_next_quiet (i : Z) (e : Env) (m : gmap Z Z) :
  e_peers e = [] → peers_next i e m = m.
Proof. unfold peers_next. by intros ->. Qed.

(** A read: the batch arrives, the word is the one then found. *)
Lemma read_word_spec (i : Z) (e : Env) (m : gmap Z Z) (k : Z) :
  ∃ e', read_word i e m k = (e', peers_next i e m, word (peers_next i e m) k)
        ∧ e_peers e' = tl (e_peers e) ∧ e_time e' = e_time e
        ∧ e_trace e' = e_trace e ∧ e_alloc e' = e_alloc e.
Proof. eexists. by split. Qed.

(** A compare-and-swap: the batch arrives, then the word is compared and,
    when equal, replaced. *)
Lemma cas_spec (i : Z) (e : Env) (m : gmap Z Z) (k v n : Z) :
  ∃ e',
    sync_val_compare_and_swap i e m k v n =
      (e',
       if word (peers_next i e m) k =? v then <[k := n]> (peers_next i e m)
       else peers_next i e m,
       word (peers_next i e m) k)
    ∧ e_peers e' = tl (e_peers e) ∧ e_time e' = e_time e
    ∧ e_trace e' = e_trace e ++ [EvCas k v n] ∧ e_alloc e' = e_alloc e.
Proof. eexists. by split. Qed.

Lemma length_tl_le {A : Type} (l : list A) : (length (tl l) <= length l)%nat.
Proof. destruct l; simpl; lia. Qed.

Lemma length_tl_lt {A : Type} (l : list A) : l ≠ [] → (length (tl l) < length l)%nat.
Proof. destruct l; simpl; [done | lia]. Qed.

(** What the page-lock words have of client [i] decides whether they are free
    of it. *)
Lemma slot_free_contribution (i v : Z) :
  slot_free i v ↔ contribution i v = (false, false).
Proof.
  unfold slot_free, contribution. split.
  - intros [Hbit Hf]. rewrite Hbit. f_equal. by apply Z.eqb_neq.
  - intros [= Hbit Hf]. split; [done|]. by apply Z.eqb_neq.
Qed.

Lemma keeps_slot_free (i v v' : Z) : keeps i v v' → slot_free i v → slot_free i v'.
Proof. intros [Hc _]. rewrite !slot_free_contribution. congruence. Qed.

(** ** sqlite3ServerEnd releases what the history records *)

Lemma serverPageLockSlot_is_page_slot (pgno : Z) : is_page_slot (serverPageLockSlot pgno).
Proof.
  unfold is_page_slot, serverPageLockSlot.
  assert (0 <= pgno mod HMA_PAGELOCK_SLOTS < HMA_PAGELOCK_SLOTS)
    by (apply Z.mod_pos_bound; reflexivity).
  lia.
Qed.


(** The loop around the compare-and-swap of sqlite3ServerEnd: when it ends,
    the slot is free of the client, the other page-lock words have of the
    client what they had, and the trace has the successful swap. *)
Lemma serverEndSlot_spec (i k : Z) (fuel : nat) :
  0 <= i <= HMA_CLIENT_SLOTS →
  ∀ (e : Env) (m : gmap Z Z) (e' : Env) (m' : gmap Z Z),
    serverEndSlot fuel e m i k = Some (e', m') →
    slot_free i (word m' k)
    ∧ (∀ k', k' ≠ k → is_page_slot k' → keeps i (word m k') (word m' k'))
    ∧ (length (e_peers e') <= length (e_peers e))%nat
    ∧ ∃ t v n, e_trace e' = e_trace e ++ t ∧ EvCas k v n ∈ t.
Proof.
  intros Hi. induction fuel as [|fuel IH]; intros e m e' m' Hrun; [done|].
  cbn [serverEndSlot] in Hrun.
  destruct (read_word_spec i e m k) as (e0 & Hread & Hp0 & _ & Ht0 & _).
  rewrite Hread in Hrun. clear Hread.
  set (m0 := peers_next i e m) in *. set (v := word m0 k) in *.
  destruct (cas_spec i e0 m0 k v (serverEndWord i v)) as (e1 & Hcas & Hp1 & _ & Ht1 & _).
  rewrite Hcas in Hrun. clear Hcas.
  set (m1 := peers_next i e0 m0) in *.
  assert (mem_keeps i m m1) as Hk1.
  { eapply mem_keeps_trans; apply peers_next_keeps; lia. }
  assert (length (e_peers e1) <= length (e_peers e))%nat as Hlen.
  { rewrite Hp1, Hp0. etrans; apply length_tl_le. }
  destruct (Z.eqb_spec (word m1 k) v) as [Heq|Hne].
  - inversion Hrun; subst e' m'. split_and!.
    + rewrite word_insert_eq. by apply serverEndWord_free.
    + intros k' Hk' Hpage. rewrite word_insert_ne by done. by apply Hk1.
    + done.
    + exists [EvCas k v (serverEndWord i v)], v, (serverEndWord i v).
      rewrite Ht1, Ht0. split; [done | apply list_elem_of_here].
  - apply IH in Hrun as (Hfree & Hoth & Hlen' & t & v' & n' & Ht & Hin).
    split_and!.
    + done.
    + intros k' Hk' Hpage. eapply keeps_trans; [by apply Hk1 | by apply Hoth].
    + lia.
    + exists (EvCas k v (serverEndWord i v) :: t), v', n'.
      rewrite Ht, Ht1, Ht0, <- app_assoc. split; [done|]. by apply list_elem_of_further.
Qed.

(** The loop ends as soon as no store of another client arrives between the
    read and the swap: more fuel than there are batches of stores is enough. *)
Lemma serverEndSlot_returns (i k : Z) (fuel : nat) :
  ∀ (e : Env) (m : gmap Z Z),
    (length (e_peers e) < fuel)%nat →
    ∃ e' m', serverEndSlot fuel e m i k = Some (e', m').
Proof.
  induction fuel as [|fuel IH]; intros e m Hfuel; [lia|].
  cbn [serverEndSlot].
  destruct (read_word_spec i e m k) as (e0 & Hread & Hp0 & _).
  rewrite Hread. clear Hread.
  set (m0 := peers_next i e m) in *. set (v := word m0 k) in *.
  destruct (cas_spec i e0 m0 k v (serverEndWord i v)) as (e1 & Hcas & Hp1 & _).
  rewrite Hcas. clear Hcas.
  destruct (Z.eqb_spec (word (peers_next i e0 m0) k) v) as [Heq|Hne]; [by eexists _, _|].
  apply IH. rewrite Hp1.
  assert (e_peers e0 ≠ []) as Hbusy.
  { intros Hquiet. apply Hne. by rewrite peers_next_quiet. }
  pose proof (length_tl_lt _ Hbusy). pose proof (length_tl_le (e_peers e)).
  rewrite Hp0 in *. lia.
Qed.

Lemma serverEndWriterTime_fields (e : Env) (p : Server) :
  let e' := (serverEndWriterTime e p).1 in
  let p' := (serverEndWriterTime e p).2 in
  iClient p' = iClient p ∧ aLock p' = aLock p ∧ nLock p' = nLock p
  ∧ nAlloc p' = nAlloc p ∧ aLockAddr p' = aLockAddr p
  ∧ e_peers e' = e_peers e ∧ ∃ t, e_trace e' = e_trace e ++ t.
Proof.
  unfold serverEndWriterTime, gettimeofday. destruct (hd (0, 0) (e_time e)) as [s u].
  case_match; simpl; split_and!; auto.
  - eexists [_; _]. by rewrite <- app_assoc.
  - by eexists [_].
Qed.

(** The loop of sqlite3ServerEnd over the entries [i0 .. i0+cnt-1] returns
    when it has more fuel than there are batches of stores; it leaves every
    page-lock word with what it had of the client, or free of the client; it
    leaves the slot of every entry visited free of the client; and the trace
    has a compare-and-swap on each of these slots. *)
Lemma serverEndLocks_spec (cnt : nat) :
  ∀ (fuel : nat) (e : Env) (h : ServerHMA) (p : Server) (i0 : Z),
    0 <= i0 → 0 <= iClient p <= HMA_CLIENT_SLOTS →
    (length (e_peers e) < fuel)%nat →
    ∃ e' h' p' t,
      serverEndLocks cnt fuel e h p i0 = Some (e', h', p')
      ∧ iClient p' = iClient p ∧ aLock p' = aLock p ∧ nLock p' = nLock p
      ∧ nAlloc p' = nAlloc p ∧ aLockAddr p' = aLockAddr p ∧ fd h' = fd h
      ∧ aClient h' = aClient h
      ∧ (length (e_peers e') <= length (e_peers e))%nat
      ∧ e_trace e' = e_trace e ++ t
      ∧ (∀ k, is_page_slot k →
              contribution (iClient p) (word (aMap h') k)
              = contribution (iClient p) (word (aMap h) k)
              ∨ slot_free (iClient p) (word (aMap h') k))
      ∧ (∀ j, i0 <= j < i0 + Z.of_nat cnt →
              slot_free (iClient p)
                (word (aMap h') (serverPageLockSlot (nth (Z.to_nat j) (aLock p) 0)))
              ∧ ∃ v n,
                  EvCas (serverPageLockSlot (nth (Z.to_nat j) (aLock p) 0)) v n ∈ t).
Proof.
  induction cnt as [|cnt IH]; intros fuel e h p i0 Hi0 Hi Hfuel.
  - exists e, h, p, []. cbn [serverEndLocks]. rewrite app_nil_r.
    split_and!; auto. intros j Hj. lia.
  - cbn [serverEndLocks].
    set (pgno := nth (Z.to_nat i0) (aLock p) 0).
    set (k0 := serverPageLockSlot pgno).
    destruct (serverEndSlot_returns (iClient p) k0 fuel e (aMap h) Hfuel)
      as (e1 & m1 & Hslot).
    rewrite Hslot.
    destruct (serverEndSlot_spec _ _ _ Hi _ _ _ _ Hslot)
      as (Hfree1 & Hoth1 & Hlen1 & t1 & v1 & n1 & Ht1 & Hin1).
    pose proof (serverEndWriterTime_fields e1 p) as Hf. cbv zeta in Hf.
    destruct (if pgno =? 0 then serverEndWriterTime e1 p else (e1, p)) as [e2 p2] eqn:Hstep.
    assert (iClient p2 = iClient p ∧ aLock p2 = aLock p ∧ nLock p2 = nLock p
            ∧ nAlloc p2 = nAlloc p ∧ aLockAddr p2 = aLockAddr p
            ∧ e_peers e2 = e_peers e1 ∧ ∃ t, e_trace e2 = e_trace e1 ++ t)
      as (Hc & Ha & Hn & Hal & Had & Hp2 & t2 & Ht2).
    { destruct (pgno =? 0).
      - rewrite Hstep in Hf. exact Hf.
      - inversion Hstep; subst. split_and!; auto. exists []. by rewrite app_nil_r. }
    destruct (IH fuel e2 (hma_set_aMap h m1) p2 (i0 + 1)) as
      (e' & h' & p' & t & Hrun & Hc' & Ha' & Hn' & Hal' & Had' & Hfd & Hac & Hlen
       & Ht & Hw & Hj);
      [lia | by rewrite Hc | rewrite Hp2; lia |].
    exists e', h', p', (t1 ++ t2 ++ t). rewrite Hrun. rewrite Hc, Ha in *.
    simpl in Hfd, Hac, Hw.
    assert (∀ k, is_page_slot k →
                 contribution (iClient p) (word m1 k)
                 = contribution (iClient p) (word (aMap h) k)
                 ∨ slot_free (iClient p) (word m1 k)) as Hw1.
    { intros k Hk. destruct (Z.eq_dec k k0) as [->|Hne]; [by right|].
      left. by apply Hoth1. }
    split_and!; try congruence.
    + rewrite Hp2 in Hlen. lia.
    + rewrite Ht, Ht2, Ht1. by rewrite <- !app_assoc.
    + intros k Hk. destruct (Hw k Hk) as [Heq|Hfree]; [|by right].
      destruct (Hw1 k Hk) as [Heq1|Hfree1']; [left; congruence|].
      right. apply slot_free_contribution. rewrite Heq.
      by apply slot_free_contribution.
    + intros j Hjr.
      destruct (Z.eq_dec j i0) as [->|Hne].
      * fold pgno. fold k0. split.
        -- destruct (Hw k0 (serverPageLockSlot_is_page_slot pgno)) as [Heq|Hfree]; [|done].
           apply slot_free_contribution. rewrite Heq.
           by apply slot_free_contribution.
        -- exists v1, n1. apply elem_of_app. by left.
      * destruct (Hj j) as [Hfree (v & n & Hin)]; [lia|]. split; [done|].
        exists v, n. rewrite !elem_of_app. right. by right.
Qed.

Lemma sqlite3ServerEnd_spec (fuel : nat) (e : Env) (h : ServerHMA) (p : Server) :
  0 <= iClient p <= HMA_CLIENT_SLOTS →
  (length (e_peers e) < fuel)%nat →
  ∃ e' h' p' r t,
    sqlite3ServerEnd fuel e h p = Some (e', h', p', r)
    ∧ iClient p' = iClient p ∧ nLock p' = 0
    ∧ e_trace e' = e_trace e ++ t
    ∧ (∀ k, is_page_slot k →
            contribution (iClient p) (word (aMap h') k)
            = contribution (iClient p) (word (aMap h) k)
            ∨ slot_free (iClient p) (word (aMap h') k))
    ∧ (∀ k, history_has_slot p k →
            slot_free (iClient p) (word (aMap h') k) ∧ ∃ v n, EvCas k v n ∈ t).
Proof.
  intros Hi Hfuel. unfold sqlite3ServerEnd.
  destruct (serverEndLocks_spec (Z.to_nat (nLock p)) fuel e h p 0) as
    (e1 & h1 & p1 & t & Hrun & Hc & Ha & Hn & Hal & Had & Hfd & Hac & Hlen & Ht & Hw & Hj);
    [lia | done | done |].
  rewrite Hrun. cbn [iClient server_set_lock].
  destruct (posixLock_trace e1 (fd h1) (iClient p1 + 1) SERVER_READ_LOCK false)
    as [ev Hev].
  destruct (posixLock e1 (fd h1) (iClient p1 + 1) SERVER_READ_LOCK false) as [e2 r].
  simpl in Hev.
  eexists e2, h1, _, r, (t ++ [ev]). split_and!; [reflexivity | auto ..].
  - rewrite Hev, Ht. by rewrite <- app_assoc.
  - intros k (j & pgno & Hlt & Hlook & Hk). subst k.
    specialize (Hj (Z.of_nat j)). rewrite Nat2Z.id in Hj.
    rewrite (nth_lookup_Some _ _ 0 _ Hlook) in Hj.
    destruct Hj as [Hfree (v & n & Hin)]; [lia|]. split; [done|].
    exists v, n. apply elem_of_app. by left.
Qed.

(** ** The clock is read by nobody but sqlite3ServerLock and sqlite3ServerEnd *)

Lemma posixLock_time (e : Env) (fd iSlot eLock : Z) (bBlock : bool) :
  e_time (posixLock e fd iSlot eLock bBlock).1 = e_time e.
Proof.
  unfold posixLock, fcntl. destruct (hd (0, ENONE) (e_fcntl e)) as [res err].
  by case_match.
Qed.

Lemma serverRollbackSlot_time (fuel : nat) :
  ∀ (i : Z) (e : Env) (m : gmap Z Z) (iBlock k v : Z) (e' : Env) (m' : gmap Z Z),
    serverRollbackSlot fuel i e m iBlock k v = Some (e', m') → e_time e' = e_time e.
Proof.
  induction fuel as [|fuel IH]; intros i e m iBlock k v e' m' Hrun; [done|].
  cbn [serverRollbackSlot] in Hrun.
  destruct (cas_spec i e m k v (serverRollbackWord iBlock v)) as (e1 & Hcas & _ & Ht1 & _).
  rewrite Hcas in Hrun. clear Hcas.
  destruct (_ =? v).
  - inversion Hrun; subst. done.
  - destruct (read_word_spec i e1
                (if false then <[k:=serverRollbackWord iBlock v]> (peers_next i e m)
                 else peers_next i e m) k) as (e2 & Hread & _ & Ht2 & _).
    simpl in Hread. rewrite Hread in Hrun. apply IH in Hrun. congruence.
Qed.

Lemma serverRollbackSlots_time (cnt : nat) :
  ∀ (fuel : nat) (i : Z) (e : Env) (m : gmap Z Z) (iBlock j : Z) (e' : Env)
    (m' : gmap Z Z),
    serverRollbackSlots cnt fuel i e m iBlock j = Some (e', m') → e_time e' = e_time e.
Proof.
  induction cnt as [|cnt IH]; intros fuel i e m iBlock j e' m' Hrun.
  - inversion Hrun; subst. done.
  - cbn [serverRollbackSlots] in Hrun.
    destruct (read_word_spec i e m (serverPageLockSlot j)) as (e0 & Hread & _ & Ht0 & _).
    rewrite Hread in Hrun. clear Hread.
    destruct (serverRollbackSlot fuel i e0 _ iBlock _ _) as [[e1 m1]|] eqn:Hs; [|done].
    apply serverRollbackSlot_time in Hs. apply IH in Hrun. congruence.
Qed.

Lemma serverRollbackClient_time (fuel : nat) (e : Env) (h : ServerHMA) (p : Server)
    (iBlock : Z) (e' : Env) (h' : ServerHMA) (r : rc) :
  serverRollbackClient fuel e h p iBlock = Some (e', h', r) → e_time e' = e_time e.
Proof.
  unfold serverRollbackClient, sqlite3PagerRollbackJournal, sqlite3_log. intros Hrun.
  case_bool_decide.
  - destruct (serverRollbackSlots _ _ _ _ _ _ _) as [[e3 m3]|] eqn:Hs; [|done].
    apply serverRollbackSlots_time in Hs. inversion Hrun; subst. done.
  - inversion Hrun; subst. done.
Qed.

Lemma serverOvercomeLock_time (fuel : nat) (e : Env) (h : ServerHMA) (p : Server)
    (bWrite bBlock : bool) (v : Z) (b : bool) (e' : Env) (h' : ServerHMA) (r : rc)
    (b' : bool) :
  serverOvercomeLock fuel e h p bWrite bBlock v b = Some (e', h', r, b') →
  e_time e' = e_time e.
Proof.
  unfold serverOvercomeLock. intros Hrun.
  set (iB := serverBlocker (iClient p) v) in *.
  destruct (default 0 (aClient h !! iB) =? 0); [|by inversion Hrun; subst].
  pose proof (posixLock_time e (fd h) (iB + 1) SERVER_WRITE_LOCK false) as T1.
  destruct (posixLock e (fd h) (iB + 1) SERVER_WRITE_LOCK false) as [e1 r1].
  simpl in T1. case_bool_decide.
  - destruct (serverRollbackClient fuel e1 h p iB) as [[[e2 h2] r2]|] eqn:Hrb; [|done].
    apply serverRollbackClient_time in Hrb.
    pose proof (posixLock_time e2 (fd h2) (iB + 1) SERVER_NO_LOCK false) as T3.
    destruct (posixLock e2 (fd h2) (iB + 1) SERVER_NO_LOCK false) as [e3 r3].
    simpl in T3. inversion Hrun; subst. congruence.
  - case_bool_decide; [|inversion Hrun; subst; congruence].
    destruct bBlock; [|inversion Hrun; subst; congruence].
    pose proof (posixLock_time e1 (fd h) (iB + 1) SERVER_READ_LOCK true) as T2.
    destruct (posixLock e1 (fd h) (iB + 1) SERVER_READ_LOCK true) as [e2 r2].
    simpl in T2. case_bool_decide.
    + pose proof (posixLock_time e2 (fd h) (iB + 1) SERVER_NO_LOCK false) as T3.
      destruct (posixLock e2 (fd h) (iB + 1) SERVER_NO_LOCK false) as [e3 r3].
      simpl in T3. inversion Hrun; subst. congruence.
    + inversion Hrun; subst. congruence.
Qed.

(** One turn of the loops of sqlite3ServerLock, with the two accesses to the
    mapping written out. *)
Lemma serverLockLoop_unfold (fuel : nat) (e : Env) (h : ServerHMA) (p : Server)
    (pgno : Z) (bWrite bBlock : bool) (v : Z) (bR : bool) :
  let i := iClient p in
  let k := serverPageLockSlot pgno in
  serverLockLoop (S fuel) e h p pgno bWrite bBlock v bR =
    if serverConflict i bWrite v then
      if (serverWriteLocker v <? 0) && bWrite && bBlock then
        let n := serverReservedWord i v in
        let '(e1, m1, old) := sync_val_compare_and_swap i e (aMap h) k v n in
        if old =? v then
          match serverOvercomeLock (S fuel) e1 (hma_set_aMap h m1) p bWrite bBlock n false
          with
          | None => None
          | Some (e2, h2, r, bRetry) =>
              if negb (bool_decide (r = SQLITE_OK)) then Some (e2, h2, r, true)
              else if negb bRetry then
                Some (sqlite3_log e2 SQLITE_BUSY_DEADLOCK "Conflict at page %d"
                        (ArgInt pgno), h2, SQLITE_BUSY_DEADLOCK, true)
              else
                let '(e3, m3, v3) := read_word i e2 (aMap h2) k in
                serverLockLoop fuel e3 (hma_set_aMap h2 m3) p pgno bWrite bBlock v3 true
          end
        else
          let '(e2, m2, v2) := read_word i e1 m1 k in
          serverLockLoop fuel e2 (hma_set_aMap h m2) p pgno bWrite bBlock v2 bR
      else
        match serverOvercomeLock (S fuel) e h p bWrite bBlock v false with
        | None => None
        | Some (e2, h2, r, bRetry) =>
            if negb (bool_decide (r = SQLITE_OK)) then Some (e2, h2, r, bR)
            else if negb bRetry then
              Some (sqlite3_log e2 SQLITE_BUSY_DEADLOCK "Conflict at page %d"
                      (ArgInt pgno), h2, SQLITE_BUSY_DEADLOCK, bR)
            else
              let '(e3, m3, v3) := read_word i e2 (aMap h2) k in
              serverLockLoop fuel e3 (hma_set_aMap h2 m3) p pgno bWrite bBlock v3 bR
        end
    else
      let n := serverLockWord i bWrite v in
      let '(e1, m1, old) := sync_val_compare_and_swap i e (aMap h) k v n in
      if old =? v then Some (e1, hma_set_aMap h m1, SQLITE_OK, bR)
      else
        let '(e2, m2, v2) := read_word i e1 m1 k in
        serverLockLoop fuel e2 (hma_set_aMap h m2) p pgno bWrite bBlock v2 bR.
Proof.
  intros i k. cbn [serverLockLoop]. fold i. fold k.
  destruct (serverConflict i bWrite v); [|reflexivity].
  destruct ((serverWriteLocker v <? 0) && bWrite && bBlock); [|reflexivity].
  destruct (sync_val_compare_and_swap i e (aMap h) k v (serverReservedWord i v))
    as [[e1 m1] old].
  destruct (old =? v); reflexivity.
Qed.

Lemma serverLockLoop_time (fuel : nat) :
  ∀ (e : Env) (h : ServerHMA) (p : Server) (pgno : Z) (bWrite bBlock : bool) (v : Z)
    (bR : bool) (e' : Env) (h' : ServerHMA) (r : rc) (bR' : bool),
    serverLockLoop fuel e h p pgno bWrite bBlock v bR = Some (e', h', r, bR') →
    e_time e' = e_time e.
Proof.
  induction fuel as [|fuel IH]; intros e h p pgno bWrite bBlock v bR e' h' r bR' Hrun;
    [done|].
  rewrite serverLockLoop_unfold in Hrun. cbv zeta in Hrun.
  set (i := iClient p) in *. set (k := serverPageLockSlot pgno) in *.
  assert (∀ (e1 : Env) (h1 : ServerHMA) (bR1 : bool),
            e_time e1 = e_time e →
            match serverOvercomeLock (S fuel) e1 h1 p bWrite bBlock
                    (if bR1 then serverReservedWord i v else v) false with
            | None => None
            | Some (e2, h2, r, bRetry) =>
                if negb (bool_decide (r = SQLITE_OK)) then Some (e2, h2, r, bR1 || bR)
                else if negb bRetry then
                  Some (sqlite3_log e2 SQLITE_BUSY_DEADLOCK "Conflict at page %d"
                          (ArgInt pgno), h2, SQLITE_BUSY_DEADLOCK, bR1 || bR)
                else
                  let '(e3, m3, v3) := read_word i e2 (aMap h2) k in
                  serverLockLoop fuel e3 (hma_set_aMap h2 m3) p pgno bWrite bBlock v3
                    (bR1 || bR)
            end = Some (e', h', r, bR') → e_time e' = e_time e) as Hover.
  { clear Hrun. intros e1 h1 bR1 Ht1 Hrun1.
    destruct (serverOvercomeLock _ _ _ _ _ _ _ _) as [[[[e2 h2] r2] b2]|] eqn:Ho; [|done].
    apply serverOvercomeLock_time in Ho.
    destruct (negb (bool_decide (r2 = SQLITE_OK))); [inversion Hrun1; subst; congruence|].
    destruct (negb b2); [inversion Hrun1; subst; simpl; congruence|].
    destruct (read_word_spec i e2 (aMap h2) k) as (e3 & Hread & _ & Ht3 & _).
    rewrite Hread in Hrun1. apply IH in Hrun1. congruence. }
  assert (∀ (e1 : Env) (m1 : gmap Z Z), e_time e1 = e_time e →
            (let '(e2, m2, v2) := read_word i e1 m1 k in
             serverLockLoop fuel e2 (hma_set_aMap h m2) p pgno bWrite bBlock v2 bR)
            = Some (e', h', r, bR') → e_time e' = e_time e) as Hagain.
  { clear Hrun Hover. intros e1 m1 Ht1 Hrun1.
    destruct (read_word_spec i e1 m1 k) as (e2 & Hread & _ & Ht2 & _).
    rewrite Hread in Hrun1. apply IH in Hrun1. congruence. }
  destruct (serverConflict i bWrite v).
  - destruct ((serverWriteLocker v <? 0) && bWrite && bBlock).
    + destruct (cas_spec i e (aMap h) k v (serverReservedWord i v))
        as (e1 & Hcas & _ & Ht1 & _).
      rewrite Hcas in Hrun. clear Hcas.
      destruct (_ =? v).
      * exact (Hover e1 _ true Ht1 Hrun).
      * by eapply Hagain.
    + exact (Hover e h false eq_refl Hrun).
  - destruct (cas_spec i e (aMap h) k v (serverLockWord i bWrite v))
      as (e1 & Hcas & _ & Ht1 & _).
    rewrite Hcas in Hrun. clear Hcas.
    destruct (_ =? v); [inversion Hrun; subst; congruence|].
    by eapply Hagain.
Qed.

Lemma serverUnreserve_time (fuel : nat) :
  ∀ (i : Z) (e : Env) (m : gmap Z Z) (k : Z) (e' : Env) (m' : gmap Z Z),
    serverUnreserve fuel i e m k = Some (e', m') → e_time e' = e_time e.
Proof.
  induction fuel as [|fuel IH]; intros i e m k e' m' Hrun; [done|].
  cbn [serverUnreserve] in Hrun.
  destruct (read_word_spec i e m k) as (e0 & Hread & _ & Ht0 & _).
  rewrite Hread in Hrun. clear Hread.
  destruct (cas_spec i e0 (peers_next i e m) k (word (peers_next i e m) k)
              (Z.land (word (peers_next i e m) k) (Z.shiftl 1 HMA_CLIENT_SLOTS - 1)))
    as (e1 & Hcas & _ & Ht1 & _).
  rewrite Hcas in Hrun. clear Hcas.
  destruct (negb _).
  - apply IH in Hrun. congruence.
  - inversion Hrun; subst. congruence.
Qed.

(** ** sqlite3ServerLock: the code after [server_lock_out] *)

Lemma server_lock_out_spec (fuel : nat) (e : Env) (h : ServerHMA) (p : Server)
    (pgno : Z) (r : rc) (bR : bool) (e' : Env) (h' : ServerHMA) (p' : Server) (r' : rc) :
  server_lock_out fuel e h p pgno r bR = Some (e', h', p', r') →
  r' = r ∧ iClient p' = iClient p ∧ nLock p' = nLock p ∧ nAlloc p' = nAlloc p
  ∧ aLock p' = aLock p ∧ nUsWrite p' = nUsWrite p
  ∧ iUsWrite p' = (if pgno =? 0 then next_time e else iUsWrite p)
  ∧ e_time e' = (if pgno =? 0 then tl (e_time e) else e_time e)
  ∧ fd h' = fd h ∧ aClient h' = aClient h
  ∧ (negb (bool_decide (r = SQLITE_OK)) && bR = false → h' = h).
Proof.
  unfold server_lock_out, next_time. intros Hrun.
  destruct (negb (bool_decide (r = SQLITE_OK)) && bR) eqn:Hb.
  - destruct (serverUnreserve fuel (iClient p) e (aMap h) (serverPageLockSlot pgno))
      as [[e1 m1]|] eqn:Hu; [|done].
    apply serverUnreserve_time in Hu.
    destruct (pgno =? 0).
    + unfold gettimeofday in Hrun. destruct (hd (0, 0) (e_time e1)) as [s u] eqn:Hhd.
      inversion Hrun; subst. simpl. rewrite <- Hu, Hhd. simpl. split_and!; done.
    + inversion Hrun; subst. simpl. split_and!; done.
  - destruct (pgno =? 0).
    + unfold gettimeofday in Hrun. destruct (hd (0, 0) (e_time e)) as [s u] eqn:Hhd.
      inversion Hrun; subst. simpl. split_and!; done.
    + inversion Hrun; subst. simpl. split_and!; done.
Qed.

Lemma serverLockGrow_spec (e : Env) (p : Server) :
  let '(e1, p1, r1) := serverLockGrow e p in
  e_time e1 = e_time e ∧ iClient p1 = iClient p ∧ nLock p1 = nLock p
  ∧ iUsWrite p1 = iUsWrite p ∧ nUsWrite p1 = nUsWrite p
  ∧ (r1 = SQLITE_OK ∨ (r1 = SQLITE_NOMEM ∧ p1 = p ∧ nLock p = nAlloc p
                        ∧ hd 4096 (e_alloc e) = 0))
  ∧ (∀ j x, aLock p !! j = Some x → aLock p1 !! j = Some x)
  ∧ (buffer_ok p → r1 = SQLITE_OK →
       0 <= nLock p1 < nAlloc p1 ∧ Z.of_nat (length (aLock p1)) = nAlloc p1)
  ∧ (grow_succeeds e p ↔ r1 = SQLITE_OK).
Proof.
  unfold serverLockGrow, sqlite3_realloc, sqlite3_malloc, buffer_ok, grow_succeeds.
  destruct (Z.eqb_spec (nLock p) (nAlloc p)) as [Hfull|Hroom].
  - destruct (Z.eqb_spec (hd 4096 (e_alloc e)) 0) as [Hnull|Hptr].
    + simpl. split_and!; auto.
      * intros _ ?. done.
      * split; [intros [?|?]; done | done].
    + simpl. split_and!; auto.
      * intros j x Hj. by apply lookup_app_l_Some.
      * intros [Hn Hlen] _. rewrite length_app, length_replicate.
        destruct (Z.eqb_spec (nAlloc p) 0); simpl; lia.
      * split; auto.
  - simpl. split_and!; auto; [intros [Hn Hlen] _; lia | split; auto].
Qed.

Lemma serverLockGrow_peers (e : Env) (p : Server) :
  e_peers (serverLockGrow e p).1.1 = e_peers e.
Proof.
  unfold serverLockGrow, sqlite3_realloc, sqlite3_malloc.
  destruct (nLock p =? nAlloc p); [|done].
  by destruct (hd 4096 (e_alloc e) =? 0).
Qed.

(** ** sqlite3ServerLock and the WRITER-start timestamp *)

Lemma next_time_ext (e e' : Env) : e_time e' = e_time e → next_time e' = next_time e.
Proof. unfold next_time. by intros ->. Qed.

(** C9: a call of sqlite3ServerLock that returns, with whatever code and on
    whatever path, has read the clock exactly once and stored that time in
    [iUsWrite] when [pgno] is 0, and has neither read the clock nor touched
    [iUsWrite] when [pgno] is not 0. *)
Theorem sqlite3ServerLock_writer_timestamp (fuel : nat) (e : Env) (h : ServerHMA)
    (p : Server) (pgno : Z) (bWrite bBlock : bool)
    (e' : Env) (h' : ServerHMA) (p' : Server) (r : rc) :
  sqlite3ServerLock fuel e h p pgno bWrite bBlock = Some (e', h', p', r) →
  (pgno = 0 → iUsWrite p' = next_time e ∧ e_time e' = tl (e_time e))
  ∧ (pgno ≠ 0 → iUsWrite p' = iUsWrite p ∧ e_time e' = e_time e).
Proof.
  unfold sqlite3ServerLock. intros Hrun.
  pose proof (serverLockGrow_spec e p) as Hg.
  destruct (serverLockGrow e p) as [[e1 p1] r1].
  destruct Hg as (Ht1 & _ & _ & Hi1 & _).
  assert (∀ (e2 : Env) (h2 : ServerHMA) (p2 : Server) (r2 : rc) (bR : bool),
            e_time e2 = e_time e → iUsWrite p2 = iUsWrite p →
            server_lock_out fuel e2 h2 p2 pgno r2 bR = Some (e', h', p', r) →
            (pgno = 0 → iUsWrite p' = next_time e ∧ e_time e' = tl (e_time e))
            ∧ (pgno ≠ 0 → iUsWrite p' = iUsWrite p ∧ e_time e' = e_time e)) as Hout.
  { intros e2 h2 p2 r2 bR Ht2 Hi2 Ho.
    apply server_lock_out_spec in Ho as (_ & _ & _ & _ & _ & _ & Hi & Ht & _).
    rewrite (next_time_ext _ _ Ht2), Ht2, Hi2 in *.
    split; intros Hp.
    - subst pgno. done.
    - apply Z.eqb_neq in Hp. rewrite Hp in *. done. }
  cbv zeta in Hrun. case_bool_decide.
  - destruct (read_word_spec (iClient p1) e1 (aMap h) (serverPageLockSlot pgno))
      as (e0 & Hread & _ & Ht0 & _).
    rewrite Hread in Hrun. clear Hread.
    destruct (serverLockHeld _ _ _).
    + eapply Hout; [| |exact Hrun]; [congruence | done].
    + destruct (serverLockLoop _ _ _ _ _ _ _ _ _) as [[[[e2 h2] r2] bR]|] eqn:Hl; [|done].
      apply serverLockLoop_time in Hl.
      eapply Hout; [| |exact Hrun]; [congruence | done].
  - by eapply Hout.
Qed.

Lemma sqlite3ServerLock_writer_timestamp_witness :
  (* page 0 newly locked for writing *)
  (∃ e' h' p',
      sqlite3ServerLock 1 (env_of [] [(5, 123)] []) (hma_two ∅) (server_fresh 0)
        0 true false = Some (e', h', p', SQLITE_OK)
      ∧ iUsWrite p' = 5000123)
  (* page 0 already held: the fast path *)
  ∧ (∃ e' h' p',
      sqlite3ServerLock 0 (env_of [] [(5, 123)] []) (hma_two {[17 := 1]})
        (server_with [0] 0 77) 0 false false = Some (e', h', p', SQLITE_OK)
      ∧ iUsWrite p' = 5000123)
  (* the history buffer cannot grow *)
  ∧ (∃ e' h' p',
      sqlite3ServerLock 0 (env_of [] [(5, 123)] [0]) (hma_two ∅) (server_fresh 0)
        0 false false = Some (e', h', p', SQLITE_NOMEM)
      ∧ iUsWrite p' = 5000123)
  (* client 1 is refused page 0, on which the local client 0 holds SHARED *)
  ∧ (∃ e' h' p',
      sqlite3ServerLock 1 (env_of [] [(5, 123)] []) (hma_two {[17 := 1]})
        (server_fresh 1) 0 true false = Some (e', h', p', SQLITE_BUSY_DEADLOCK)
      ∧ iUsWrite p' = 5000123)
  (* another page *)
  ∧ (∃ e' h' p',
      sqlite3ServerLock 1 (env_of [] [(5, 123)] []) (hma_two ∅) (server_with [] 0 77)
        42 false false = Some (e', h', p', SQLITE_OK)
      ∧ iUsWrite p' = 77).
Proof.
  split_and!.
  - eexists _, _, _. split; [vm_compute; reflexivity|].
    refine (proj1 (proj1 (sqlite3ServerLock_writer_timestamp 1 (env_of [] [(5, 123)] [])
              (hma_two ∅) (server_fresh 0) 0 true false _ _ _ _ _) eq_refl)).
    vm_compute; reflexivity.
  - eexists _, _, _. split; [vm_compute; reflexivity|].
    refine (proj1 (proj1 (sqlite3ServerLock_writer_timestamp 0 (env_of [] [(5, 123)] [])
              (hma_two {[17 := 1]}) (server_with [0] 0 77) 0 false false _ _ _ _ _)
              eq_refl)).
    vm_compute; reflexivity.
  - eexists _, _, _. split; [vm_compute; reflexivity|].
    refine (proj1 (proj1 (sqlite3ServerLock_writer_timestamp 0 (env_of [] [(5, 123)] [0])
              (hma_two ∅) (server_fresh 0) 0 false false _ _ _ _ _) eq_refl)).
    vm_compute; reflexivity.
  - eexists _, _, _. split; [vm_compute; reflexivity|].
    refine (proj1 (proj1 (sqlite3ServerLock_writer_timestamp 1 (env_of [] [(5, 123)] [])
              (hma_two {[17 := 1]}) (server_fresh 1) 0 true false _ _ _ _ _) eq_refl)).
    vm_compute; reflexivity.
  - eexists _, _, _. split; [vm_compute; reflexivity|].
    refine (proj1 (proj2 (sqlite3ServerLock_writer_timestamp 1 (env_of [] [(5, 123)] [])
              (hma_two ∅) (server_with [] 0 77) 42 false false _ _ _ _ _) _));
      [vm_compute; reflexivity | discriminate].
Defined.


(** ** Bits of the words sqlite3ServerLock and serverRollbackClient store *)

Lemma reserved_testbit (i v j : Z) :
  0 <= i → 0 <= j < HMA_CLIENT_SLOTS →
  Z.testbit (serverReservedWord i v) j = Z.testbit v j.
Proof.
  unfold serverReservedWord, HMA_CLIENT_SLOTS. intros Hi Hj.
  rewrite Z.lor_spec, Z.shiftl_spec_low by lia. apply orb_false_r.
Qed.

Lemma reserved_field (i v : Z) :
  Z.shiftr (serverReservedWord i v) HMA_CLIENT_SLOTS =
    Z.lor (Z.shiftr v HMA_CLIENT_SLOTS) (i + 1).
Proof.
  unfold serverReservedWord, HMA_CLIENT_SLOTS.
  rewrite Z.shiftr_lor. f_equal.
  rewrite Z.shiftr_shiftl_l by lia. apply Z.shiftl_0_r.
Qed.

Lemma set_bit_testbit (i v : Z) : 0 <= i → Z.testbit (Z.lor v (Z.shiftl 1 i)) i = true.
Proof.
  intros Hi. rewrite Z.lor_spec, testbit_pow2, Z.eqb_refl by done. apply orb_true_r.
Qed.

Lemma serverLockWord_shared (i v : Z) (bWrite : bool) :
  0 <= i → holds_shared i (serverLockWord i bWrite v).
Proof.
  intros Hi. unfold holds_shared, serverLockWord. destruct bWrite.
  - rewrite Z.lor_spec, set_bit_testbit by done. done.
  - by apply set_bit_testbit.
Qed.

(** Scrubbing client [b] leaves what any other client has in the word. *)
Lemma serverRollbackWord_keeps (i b v : Z) :
  0 <= i < HMA_CLIENT_SLOTS → 0 <= b < HMA_CLIENT_SLOTS → b ≠ i →
  keeps i v (serverRollbackWord b v).
Proof.
  intros Hi Hb Hne. unfold keeps, contribution, word_ok, serverRollbackWord. split.
  - destruct (Z.eqb_spec (Z.shiftr v HMA_CLIENT_SLOTS) (b + 1)) as [Heq|Hneq].
    + rewrite shiftr_low_half, testbit_low_half, testbit_clear by lia.
      rewrite Heq. f_equal.
      * destruct (Z.eqb_spec b i); [done | apply andb_true_r].
      * destruct (Z.eqb_spec 0 (i + 1)), (Z.eqb_spec (b + 1) (i + 1)); lia || done.
    + rewrite shiftr_clear_low, testbit_clear by lia. f_equal.
      destruct (Z.eqb_spec b i); [done | apply andb_true_r].
  - intros [Hv Hf].
    destruct (Z.eqb_spec (Z.shiftr v HMA_CLIENT_SLOTS) (b + 1)) as [Heq|Hneq].
    + rewrite shiftr_low_half. split; [|unfold HMA_CLIENT_SLOTS; lia].
      apply Z.land_nonneg. left. apply Z.land_nonneg. by left.
    + rewrite shiftr_clear_low by done. split; [|done].
      apply Z.land_nonneg. by left.
Qed.

(** ** serverRollbackClient and serverOvercomeLock spare the caller *)

Lemma mem_keeps_insert (i : Z) (m : gmap Z Z) (k n : Z) :
  keeps i (word m k) n → mem_keeps i m (<[k := n]> m).
Proof.
  intros Hk k' _. destruct (Z.eq_dec k k') as [<-|Hne].
  - by rewrite word_insert_eq.
  - rewrite word_insert_ne by done. apply keeps_refl.
Qed.

Lemma serverRollbackSlot_keeps (i b : Z) (fuel : nat) :
  0 <= i < HMA_CLIENT_SLOTS → 0 <= b < HMA_CLIENT_SLOTS → b ≠ i →
  ∀ (e : Env) (m : gmap Z Z) (k v : Z) (e' : Env) (m' : gmap Z Z),
    serverRollbackSlot fuel i e m b k v = Some (e', m') → mem_keeps i m m'.
Proof.
  intros Hi Hb Hne.
  induction fuel as [|fuel IH]; intros e m k v e' m' Hrun; [done|].
  cbn [serverRollbackSlot] in Hrun.
  destruct (cas_spec i e m k v (serverRollbackWord b v)) as (e1 & Hcas & _).
  rewrite Hcas in Hrun. clear Hcas.
  pose proof (peers_next_keeps i e m ltac:(lia)) as Hpeers.
  destruct (Z.eqb_spec (word (peers_next i e m) k) v) as [Heq|Hneq].
  - inversion Hrun; subst e' m'.
    eapply mem_keeps_trans; [exact Hpeers|].
    apply mem_keeps_insert. rewrite Heq. by apply serverRollbackWord_keeps.
  - destruct (read_word_spec i e1 (peers_next i e m) k) as (e2 & Hread & _).
    rewrite Hread in Hrun. clear Hread. apply IH in Hrun.
    eapply mem_keeps_trans; [exact Hpeers|].
    eapply mem_keeps_trans; [|exact Hrun].
    apply peers_next_keeps; lia.
Qed.

Lemma serverRollbackSlots_keeps (i b : Z) (cnt : nat) :
  0 <= i < HMA_CLIENT_SLOTS → 0 <= b < HMA_CLIENT_SLOTS → b ≠ i →
  ∀ (fuel : nat) (e : Env) (m : gmap Z Z) (j : Z) (e' : Env) (m' : gmap Z Z),
    serverRollbackSlots cnt fuel i e m b j = Some (e', m') → mem_keeps i m m'.
Proof.
  intros Hi Hb Hne.
  induction cnt as [|cnt IH]; intros fuel e m j e' m' Hrun.
  - inversion Hrun; subst. apply mem_keeps_refl.
  - cbn [serverRollbackSlots] in Hrun.
    destruct (read_word_spec i e m (serverPageLockSlot j)) as (e0 & Hread & _).
    rewrite Hread in Hrun. clear Hread.
    destruct (serverRollbackSlot fuel i e0 _ b _ _) as [[e1 m1]|] eqn:Hs; [|done].
    eapply mem_keeps_trans; [apply peers_next_keeps; lia|].
    eapply mem_keeps_trans.
    + eapply serverRollbackSlot_keeps; eauto.
    + eapply IH; eauto.
Qed.

Lemma serverRollbackClient_keeps (i b : Z) (fuel : nat) (e : Env) (h : ServerHMA)
    (p : Server) (e' : Env) (h' : ServerHMA) (r : rc) :
  i = iClient p →
  0 <= i < HMA_CLIENT_SLOTS → 0 <= b < HMA_CLIENT_SLOTS → b ≠ i →
  serverRollbackClient fuel e h p b = Some (e', h', r) →
  fd h' = fd h ∧ aClient h' = aClient h ∧ mem_keeps i (aMap h) (aMap h').
Proof.
  intros -> Hi Hb Hne. unfold serverRollbackClient.
  destruct (sqlite3PagerRollbackJournal _ _ _) as [e2 r2].
  case_bool_decide.
  - destruct (serverRollbackSlots _ _ _ _ _ _ _) as [[e3 m3]|] eqn:Hs; [|done].
    intros Hrun. inversion Hrun; subst. simpl. split_and!; auto.
    eapply serverRollbackSlots_keeps; eauto.
  - intros Hrun. inversion Hrun; subst. split_and!; auto. apply mem_keeps_refl.
Qed.

Lemma serverFindReader_spec (cnt : nat) :
  ∀ (b0 i v : Z), 0 <= b0 →
    let r := serverFindReader cnt b0 i v in
    b0 <= r <= b0 + Z.of_nat cnt
    ∧ (r < b0 + Z.of_nat cnt → r ≠ i ∧ Z.testbit v r = true)
    ∧ (r = b0 + Z.of_nat cnt →
         ∀ j, b0 <= j < b0 + Z.of_nat cnt → j ≠ i → Z.testbit v j = false).
Proof.
  induction cnt as [|cnt IH]; intros b0 i v Hb0; cbn [serverFindReader].
  - cbv zeta. split_and!; lia.
  - rewrite land_pow2_testbit by done.
    destruct (Z.eqb_spec b0 i) as [Heq|Hneq]; simpl.
    + specialize (IH (b0 + 1) i v ltac:(lia)) as (Hr & Hfound & Hnone).
      cbv zeta. split; [lia|]. split; [intros; apply Hfound; lia|].
      intros Hall j Hj Hji. apply Hnone; lia.
    + destruct (Z.testbit v b0) eqn:Hbit; simpl.
      * split; [lia|]. split; [done | lia].
      * specialize (IH (b0 + 1) i v ltac:(lia)) as (Hr & Hfound & Hnone).
        cbv zeta. split; [lia|]. split; [intros; apply Hfound; lia|].
        intros Hall j Hj Hji.
        destruct (Z.eq_dec j b0) as [->|]; [done|]. apply Hnone; lia.
Qed.

Lemma serverFindReader_ext (cnt : nat) :
  ∀ (b0 i v v' : Z), 0 <= b0 →
    (∀ j, b0 <= j < b0 + Z.of_nat cnt → Z.testbit v' j = Z.testbit v j) →
    serverFindReader cnt b0 i v' = serverFindReader cnt b0 i v.
Proof.
  induction cnt as [|cnt IH]; intros b0 i v v' Hb0 Hbits; cbn [serverFindReader]; [done|].
  rewrite !land_pow2_testbit by done. rewrite Hbits by lia.
  rewrite (IH (b0 + 1) i v v') by (try lia; intros; apply Hbits; lia). done.
Qed.

(** A write request that conflicts although no other client owns the write
    field is held up by a reader other than the caller. *)
Lemma conflict_reader (i v : Z) (bWrite : bool) :
  0 <= i < HMA_CLIENT_SLOTS →
  serverConflict i bWrite v = true →
  (serverWriteLocker v <? 0) || (serverWriteLocker v =? i) = true →
  bWrite = true
  ∧ 0 <= serverFindReader (Z.to_nat HMA_CLIENT_SLOTS) 0 i v < HMA_CLIENT_SLOTS
  ∧ serverFindReader (Z.to_nat HMA_CLIENT_SLOTS) 0 i v ≠ i.
Proof.
  intros Hi Hc Hw. unfold serverConflict in Hc.
  assert ((0 <=? serverWriteLocker v) && negb (serverWriteLocker v =? i) = false) as Hno.
  { destruct (Z.ltb_spec (serverWriteLocker v) 0), (Z.eqb_spec (serverWriteLocker v) i),
      (Z.leb_spec 0 (serverWriteLocker v)); simpl in *; done || lia. }
  rewrite Hno in Hc. simpl in Hc.
  destruct bWrite; [|by rewrite Z.land_0_r in Hc].
  split; [done|].
  pose proof (serverFindReader_spec (Z.to_nat HMA_CLIENT_SLOTS) 0 i v ltac:(lia))
    as (Hr & Hfound & Hnone).
  cbv zeta in *.
  set (r := serverFindReader (Z.to_nat HMA_CLIENT_SLOTS) 0 i v) in *.
  change (Z.of_nat (Z.to_nat HMA_CLIENT_SLOTS)) with 16 in *.
  unfold HMA_CLIENT_SLOTS in *.
  destruct (Z.eq_dec r 16) as [Hr16|Hr16].
  - exfalso. apply negb_true_iff, Z.eqb_neq in Hc. apply Hc.
    apply Z.bits_inj'. intros j Hj. rewrite Z.bits_0.
    change (Z.shiftl 1 16 - 1) with (Z.ones 16).
    rewrite !Z.land_spec, Z.lnot_spec, testbit_pow2 by lia.
    destruct (Z_lt_ge_dec j 16) as [Hlt|Hge].
    + destruct (Z.eqb_spec i j) as [->|Hij].
      * simpl. by rewrite !andb_false_r.
      * rewrite (Hnone Hr16 j) by lia. done.
    + rewrite Z.ones_spec_high by lia. simpl. by rewrite andb_false_r.
  - split; [lia|]. apply Hfound. lia.
Qed.

(** In a well-formed word the client serverOvercomeLock picks for a conflict
    is one of the 16 clients, and not the caller. *)
Lemma serverBlocker_other (i v : Z) (bWrite : bool) :
  0 <= i < HMA_CLIENT_SLOTS → word_ok v →
  serverConflict i bWrite v = true →
  0 <= serverBlocker i v < HMA_CLIENT_SLOTS ∧ serverBlocker i v ≠ i.
Proof.
  intros Hi [Hv Hf] Hc. unfold serverBlocker.
  fold (serverWriteLocker v).
  destruct ((serverWriteLocker v <? 0) || (serverWriteLocker v =? i)) eqn:Hw.
  - by destruct (conflict_reader i v bWrite Hi Hc Hw) as (_ & ? & ?).
  - apply orb_false_iff in Hw as [Hlt Hne].
    apply Z.ltb_ge in Hlt. apply Z.eqb_neq in Hne.
    unfold serverWriteLocker in *. unfold HMA_CLIENT_SLOTS in *. lia.
Qed.

(** The same after the caller has installed RESERVED on top of [v]. *)
Lemma serverBlocker_reserved (i v : Z) (bWrite : bool) :
  0 <= i < HMA_CLIENT_SLOTS → word_ok v →
  serverConflict i bWrite v = true → (serverWriteLocker v <? 0) = true →
  0 <= serverBlocker i (serverReservedWord i v) < HMA_CLIENT_SLOTS
  ∧ serverBlocker i (serverReservedWord i v) ≠ i
  ∧ Z.shiftr v HMA_CLIENT_SLOTS = 0.
Proof.
  intros Hi [Hv Hf] Hc Hw.
  assert (Z.shiftr v HMA_CLIENT_SLOTS = 0) as Hf0.
  { apply Z.ltb_lt in Hw. unfold serverWriteLocker in Hw.
    pose proof (Z.shiftr_nonneg v HMA_CLIENT_SLOTS) as [_ Hnn]. specialize (Hnn Hv). lia. }
  unfold serverBlocker. rewrite reserved_field, Hf0, Z.lor_0_l.
  replace (i + 1 - 1) with i by lia. rewrite Z.eqb_refl, orb_true_r.
  rewrite (serverFindReader_ext _ 0 i v) by
    (try lia; intros j Hj; apply reserved_testbit;
     change (Z.of_nat (Z.to_nat HMA_CLIENT_SLOTS)) with HMA_CLIENT_SLOTS in Hj; lia).
  destruct (conflict_reader i v bWrite Hi Hc) as (_ & ? & ?); [by rewrite Hw|done].
Qed.

Lemma serverOvercomeLock_keeps (fuel : nat) (e : Env) (h : ServerHMA) (p : Server)
    (bWrite bBlock : bool) (v : Z) (b0 : bool) (e' : Env) (h' : ServerHMA) (r : rc)
    (b' : bool) :
  0 <= iClient p < HMA_CLIENT_SLOTS →
  0 <= serverBlocker (iClient p) v < HMA_CLIENT_SLOTS →
  serverBlocker (iClient p) v ≠ iClient p →
  serverOvercomeLock fuel e h p bWrite bBlock v b0 = Some (e', h', r, b') →
  fd h' = fd h ∧ aClient h' = aClient h
  ∧ mem_keeps (iClient p) (aMap h) (aMap h').
Proof.
  intros Hi Hb Hne. unfold serverOvercomeLock.
  set (iB := serverBlocker (iClient p) v) in *.
  pose proof (mem_keeps_refl (iClient p) (aMap h)) as Hrefl.
  destruct (default 0 (aClient h !! iB) =? 0); [|by intros [= <- <- <- <-]].
  destruct (posixLock e (fd h) (iB + 1) SERVER_WRITE_LOCK false) as [e1 r1].
  case_bool_decide.
  - destruct (serverRollbackClient fuel e1 h p iB) as [[[e2 h2] r2]|] eqn:Hrb; [|done].
    destruct (posixLock e2 (fd h2) (iB + 1) SERVER_NO_LOCK false) as [e3 r3].
    intros [= <- <- <- <-]. by eapply serverRollbackClient_keeps.
  - case_bool_decide; [|by intros [= <- <- <- <-]].
    destruct bBlock; [|by intros [= <- <- <- <-]].
    destruct (posixLock e1 (fd h) (iB + 1) SERVER_READ_LOCK true) as [e2 r2].
    case_bool_decide.
    + destruct (posixLock e2 (fd h) (iB + 1) SERVER_NO_LOCK false) as [e3 r3].
      by intros [= <- <- <- <-].
    + by intros [= <- <- <- <-].
Qed.


(** ** The loops of sqlite3ServerLock *)

Lemma contribution_eq (i a b : Z) :
  contribution i a = contribution i b →
  Z.testbit a i = Z.testbit b i ∧ (holds_write i a ↔ holds_write i b).
Proof.
  unfold contribution, holds_write. intros [= Hbit Hf]. split; [done|].
  destruct (Z.eqb_spec (Z.shiftr a HMA_CLIENT_SLOTS) (i + 1)),
    (Z.eqb_spec (Z.shiftr b HMA_CLIENT_SLOTS) (i + 1)); done.
Qed.

Lemma reserved_word_ok (i v : Z) :
  0 <= i < HMA_CLIENT_SLOTS → word_ok v → Z.shiftr v HMA_CLIENT_SLOTS = 0 →
  word_ok (serverReservedWord i v) ∧ holds_write i (serverReservedWord i v).
Proof.
  intros Hi [Hv _] Hf0. unfold word_ok, holds_write.
  rewrite reserved_field, Hf0, Z.lor_0_l. split_and!; [|lia|done].
  unfold serverReservedWord. apply Z.lor_nonneg. split; [done|].
  apply Z.shiftl_nonneg. lia.
Qed.

Lemma mem_keeps_others (i k0 : Z) (m m' : gmap Z Z) :
  mem_keeps i m m' → others_keep i k0 m m'.
Proof. intros Hk k Hpage _. by apply Hk. Qed.

Lemma others_keep_trans (i k0 : Z) (m1 m2 m3 : gmap Z Z) :
  others_keep i k0 m1 m2 → others_keep i k0 m2 m3 → others_keep i k0 m1 m3.
Proof. intros H1 H2 k Hk Hne. eapply keeps_trans; [by apply H1 | by apply H2]. Qed.

Lemma others_keep_insert (i k0 : Z) (m : gmap Z Z) (n : Z) :
  others_keep i k0 m (<[k0 := n]> m).
Proof. intros k _ Hne. rewrite word_insert_ne by done. apply keeps_refl. Qed.

Lemma lock_attempt_start (i k0 : Z) (m : gmap Z Z) : lock_attempt i k0 m m false.
Proof.
  split_and!; try done; intros k _ _; apply keeps_refl.
Qed.

(** Whatever keeps the caller's bits keeps the attempt where it stands. *)
Lemma lock_attempt_keeps (i k0 : Z) (m m1 m2 : gmap Z Z) (bR : bool) :
  is_page_slot k0 → lock_attempt i k0 m m1 bR → mem_keeps i m1 m2 →
  lock_attempt i k0 m m2 bR.
Proof.
  intros Hk0 (Hoth & Hok & Hbit & Hres & Hnot) Hkeeps.
  destruct (Hkeeps k0 Hk0) as [Hc Hok2].
  apply contribution_eq in Hc as [Hbit2 Hw2].
  split_and!.
  - eapply others_keep_trans; [exact Hoth | by apply mem_keeps_others].
  - auto.
  - congruence.
  - intros HbR. destruct (Hres HbR). split; [by apply Hw2 | done].
  - intros HbR. rewrite Hw2. auto.
Qed.

(** The successful compare-and-swap that installs RESERVED. *)
Lemma lock_attempt_reserve (i k0 : Z) (m m1 : gmap Z Z) (bR : bool) :
  0 <= i < HMA_CLIENT_SLOTS → lock_attempt i k0 m m1 bR →
  word_ok (word m1 k0) → Z.shiftr (word m1 k0) HMA_CLIENT_SLOTS = 0 →
  lock_attempt i k0 m (<[k0 := serverReservedWord i (word m1 k0)]> m1) true.
Proof.
  intros Hi (Hoth & Hok & Hbit & Hres & Hnot) Hok1 Hf0.
  destruct (reserved_word_ok i _ Hi Hok1 Hf0) as [Hokn Hwn].
  assert (¬ holds_write i (word m1 k0)) as Hfree.
  { unfold holds_write. rewrite Hf0. lia. }
  assert (bR = false) as -> by (destruct bR; [by destruct (Hres eq_refl) | done]).
  assert (¬ holds_write i (word m k0)) as Hfree0 by (by rewrite <- (Hnot eq_refl)).
  unfold lock_attempt. rewrite word_insert_eq.
  split_and!; try done.
  - eapply others_keep_trans; [exact Hoth | apply others_keep_insert].
  - rewrite reserved_testbit by lia. done.
Qed.

(** The loops, seen from the caller's own bits.  They leave the other
    page-lock words with what the caller had in them; a return of OK leaves
    the caller's reader bit set in the page's slot; and a failure leaves that
    bit as the call found it, and the write field naming the caller exactly
    when [bReserved] says so or it did before. *)
Lemma serverLockLoop_spec (p : Server) (pgno : Z) (bWrite bBlock : bool)
    (m0 : gmap Z Z) (fuel : nat) :
  0 <= iClient p < HMA_CLIENT_SLOTS →
  word_ok (word m0 (serverPageLockSlot pgno)) →
  ∀ (e : Env) (h : ServerHMA) (v : Z) (bR : bool)
    (e' : Env) (h' : ServerHMA) (r : rc) (bR' : bool),
    word_ok v →
    lock_attempt (iClient p) (serverPageLockSlot pgno) m0 (aMap h) bR →
    serverLockLoop fuel e h p pgno bWrite bBlock v bR = Some (e', h', r, bR') →
    fd h' = fd h ∧ aClient h' = aClient h
    ∧ others_keep (iClient p) (serverPageLockSlot pgno) m0 (aMap h')
    ∧ (r = SQLITE_OK →
         holds_shared (iClient p) (word (aMap h') (serverPageLockSlot pgno)))
    ∧ (r ≠ SQLITE_OK →
         lock_attempt (iClient p) (serverPageLockSlot pgno) m0 (aMap h') bR').
Proof.
  intros Hi Hok0.
  pose proof (serverPageLockSlot_is_page_slot pgno) as Hk0.
  set (i := iClient p) in *. set (k0 := serverPageLockSlot pgno) in *.
  induction fuel as [|fuel IH]; intros e h v bR e' h' r bR' Hv Hrel Hrun; [done|].
  rewrite serverLockLoop_unfold in Hrun. cbv zeta in Hrun. fold i k0 in Hrun.
  pose proof (peers_next_keeps i e (aMap h) ltac:(lia)) as Hpeers.
  pose proof (lock_attempt_keeps _ _ _ _ _ _ Hk0 Hrel Hpeers) as Hrel_pn.
  set (pn := peers_next i e (aMap h)) in *.
  (* reading the word again and going round *)
  assert (∀ (e1 : Env) (h1 : ServerHMA) (m1 : gmap Z Z) (bR1 : bool),
            fd h1 = fd h → aClient h1 = aClient h →
            lock_attempt i k0 m0 m1 bR1 →
            (let '(e2, m2, v2) := read_word i e1 m1 k0 in
             serverLockLoop fuel e2 (hma_set_aMap h1 m2) p pgno bWrite bBlock v2 bR1)
            = Some (e', h', r, bR') →
            fd h' = fd h ∧ aClient h' = aClient h
            ∧ others_keep i k0 m0 (aMap h')
            ∧ (r = SQLITE_OK → holds_shared i (word (aMap h') k0))
            ∧ (r ≠ SQLITE_OK → lock_attempt i k0 m0 (aMap h') bR')) as Hagain.
  { clear Hrun. intros e1 h1 m1 bR1 Hfd1 Hac1 Hrel1 Hrun1.
    destruct (read_word_spec i e1 m1 k0) as (e2 & Hread & _).
    rewrite Hread in Hrun1. clear Hread.
    pose proof (lock_attempt_keeps _ _ _ _ _ _ Hk0 Hrel1
                  (peers_next_keeps i e1 m1 ltac:(lia))) as Hrel2.
    apply IH in Hrun1 as (Hfd' & Hac' & Hpo & Hpok & Hpfail); simpl in *.
    - split_and!; [congruence | congruence | done..].
    - destruct Hrel2 as (_ & Hok2 & _). by apply Hok2.
    - exact Hrel2. }
  (* serverOvercomeLock and what follows it *)
  assert (∀ (e1 : Env) (h1 : ServerHMA) (v1 : Z) (bR1 : bool),
            fd h1 = fd h → aClient h1 = aClient h →
            lock_attempt i k0 m0 (aMap h1) bR1 →
            0 <= serverBlocker i v1 < HMA_CLIENT_SLOTS → serverBlocker i v1 ≠ i →
            match serverOvercomeLock (S fuel) e1 h1 p bWrite bBlock v1 false with
            | None => None
            | Some (e2, h2, r, bRetry) =>
                if negb (bool_decide (r = SQLITE_OK)) then Some (e2, h2, r, bR1)
                else if negb bRetry then
                  Some (sqlite3_log e2 SQLITE_BUSY_DEADLOCK "Conflict at page %d"
                          (ArgInt pgno), h2, SQLITE_BUSY_DEADLOCK, bR1)
                else
                  let '(e3, m3, v3) := read_word i e2 (aMap h2) k0 in
                  serverLockLoop fuel e3 (hma_set_aMap h2 m3) p pgno bWrite bBlock v3 bR1
            end = Some (e', h', r, bR') →
            fd h' = fd h ∧ aClient h' = aClient h
            ∧ others_keep i k0 m0 (aMap h')
            ∧ (r = SQLITE_OK → holds_shared i (word (aMap h') k0))
            ∧ (r ≠ SQLITE_OK → lock_attempt i k0 m0 (aMap h') bR')) as Hover.
  { clear Hrun. intros e1 h1 v1 bR1 Hfd1 Hac1 Hrel1 Hb Hb' Hrun1.
    destruct (serverOvercomeLock (S fuel) e1 h1 p bWrite bBlock v1 false)
      as [[[[e2 h2] r2] b2]|] eqn:Hov; [|done].
    destruct (serverOvercomeLock_keeps _ _ _ _ _ _ _ _ _ _ _ _ Hi Hb Hb' Hov)
      as (Hfd2 & Hac2 & Hk2).
    fold i in Hk2.
    pose proof (lock_attempt_keeps _ _ _ _ _ _ Hk0 Hrel1 Hk2) as Hrel2.
    case_bool_decide as Hr2; simpl in Hrun1.
    - destruct b2; simpl in Hrun1.
      + apply (Hagain e2 h2 (aMap h2) bR1); [congruence | congruence | done | done].
      + inversion Hrun1; subst e' h' r bR'.
        split_and!; [congruence | congruence | apply Hrel2 | done | done].
    - inversion Hrun1; subst e' h' r bR'.
      split_and!; [congruence | congruence | apply Hrel2 | done | done]. }
  destruct (serverConflict i bWrite v) eqn:Hconf.
  - destruct ((serverWriteLocker v <? 0) && bWrite && bBlock) eqn:Hcond.
    + apply andb_true_iff in Hcond as [Hcond _]. apply andb_true_iff in Hcond as [Hw _].
      destruct (serverBlocker_reserved i v bWrite Hi Hv Hconf Hw) as (Hb & Hb' & Hf0).
      destruct (cas_spec i e (aMap h) k0 v (serverReservedWord i v)) as (e1 & Hcas & _).
      rewrite Hcas in Hrun. clear Hcas. fold pn in Hrun.
      destruct (Z.eqb_spec (word pn k0) v) as [Heq|Hneq].
      * refine (Hover e1 (hma_set_aMap h (<[k0 := serverReservedWord i v]> pn))
                  (serverReservedWord i v) true eq_refl eq_refl _ Hb Hb' Hrun).
        simpl. rewrite <- Heq. apply (lock_attempt_reserve i k0 m0 pn bR); try done.
        -- by rewrite Heq.
        -- by rewrite Heq.
      * by apply (Hagain e1 h pn bR).
    + destruct (serverBlocker_other i v bWrite Hi Hv Hconf) as [Hb Hb'].
      by apply (Hover e h v bR).
  - destruct (cas_spec i e (aMap h) k0 v (serverLockWord i bWrite v)) as (e1 & Hcas & _).
    rewrite Hcas in Hrun. clear Hcas. fold pn in Hrun.
    destruct (Z.eqb_spec (word pn k0) v) as [Heq|Hneq].
    + inversion Hrun; subst e' h' r bR'. simpl. split_and!; try done.
      * eapply others_keep_trans; [apply Hrel_pn | apply others_keep_insert].
      * intros _. rewrite word_insert_eq. apply serverLockWord_shared. lia.
    + by apply (Hagain e1 h pn bR).
Qed.

(** The loop that takes RESERVED away again: the write field of the slot is
    cleared, the caller's reader bit is as it was. *)
Lemma serverUnreserve_spec (i k0 : Z) (fuel : nat) :
  0 <= i < HMA_CLIENT_SLOTS → is_page_slot k0 →
  ∀ (e : Env) (m : gmap Z Z) (e' : Env) (m' : gmap Z Z),
    serverUnreserve fuel i e m k0 = Some (e', m') →
    others_keep i k0 m m'
    ∧ Z.testbit (word m' k0) i = Z.testbit (word m k0) i
    ∧ Z.shiftr (word m' k0) HMA_CLIENT_SLOTS = 0.
Proof.
  intros Hi Hk0.
  induction fuel as [|fuel IH]; intros e m e' m' Hrun; [done|].
  cbn [serverUnreserve] in Hrun.
  destruct (read_word_spec i e m k0) as (e0 & Hread & _).
  rewrite Hread in Hrun. clear Hread.
  pose proof (peers_next_keeps i e m ltac:(lia)) as Hk1.
  set (m1 := peers_next i e m) in *. set (v := word m1 k0) in *.
  destruct (cas_spec i e0 m1 k0 v (Z.land v (Z.shiftl 1 HMA_CLIENT_SLOTS - 1)))
    as (e1 & Hcas & _).
  rewrite Hcas in Hrun. clear Hcas.
  pose proof (peers_next_keeps i e0 m1 ltac:(lia)) as Hk2.
  set (m2 := peers_next i e0 m1) in *.
  pose proof (mem_keeps_trans _ _ _ _ Hk1 Hk2) as Hk12.
  destruct (Z.eqb_spec (word m2 k0) v) as [Heq|Hneq]; simpl in Hrun.
  - inversion Hrun; subst e' m'. rewrite word_insert_eq. split_and!.
    + eapply others_keep_trans; [by apply mem_keeps_others | apply others_keep_insert].
    + rewrite testbit_low_half by done. rewrite <- Heq.
      destruct (Hk12 k0 Hk0) as [Hc _]. by apply contribution_eq in Hc as [-> _].
    + apply shiftr_low_half.
  - apply IH in Hrun as (Hoth & Hbit & Hf0). split_and!.
    + eapply others_keep_trans; [by apply mem_keeps_others | exact Hoth].
    + rewrite Hbit. destruct (Hk12 k0 Hk0) as [Hc _].
      by apply contribution_eq in Hc as [-> _].
    + done.
Qed.

Lemma server_lock_out_unreserve (fuel : nat) (e : Env) (h : ServerHMA) (p : Server)
    (pgno : Z) (r : rc) (e' : Env) (h' : ServerHMA) (p' : Server) (r' : rc) :
  0 <= iClient p < HMA_CLIENT_SLOTS → r ≠ SQLITE_OK →
  server_lock_out fuel e h p pgno r true = Some (e', h', p', r') →
  others_keep (iClient p) (serverPageLockSlot pgno) (aMap h) (aMap h')
  ∧ Z.testbit (word (aMap h') (serverPageLockSlot pgno)) (iClient p)
    = Z.testbit (word (aMap h) (serverPageLockSlot pgno)) (iClient p)
  ∧ Z.shiftr (word (aMap h') (serverPageLockSlot pgno)) HMA_CLIENT_SLOTS = 0.
Proof.
  intros Hi Hr. unfold server_lock_out.
  rewrite bool_decide_eq_false_2 by done. cbn [negb andb]. intros Hrun.
  destruct (serverUnreserve fuel (iClient p) e (aMap h) (serverPageLockSlot pgno))
    as [[e1 m1]|] eqn:Hu; [|done].
  apply serverUnreserve_spec in Hu; [|done|apply serverPageLockSlot_is_page_slot].
  destruct (pgno =? 0).
  - destruct (gettimeofday e1) as [e2 [s u]]. by inversion Hrun; subst.
  - by inversion Hrun; subst.
Qed.

(** ** sqlite3ServerLock: a failed call leaves nothing of the caller *)

(** The core of C4: after a failed call every page-lock word has of the caller
    what it had before. *)
Lemma sqlite3ServerLock_failure_contribution (fuel : nat) (e : Env) (h : ServerHMA)
    (p : Server) (pgno : Z) (bWrite bBlock : bool)
    (e' : Env) (h' : ServerHMA) (p' : Server) (r : rc) :
  0 <= iClient p < HMA_CLIENT_SLOTS →
  word_ok (word (aMap h) (serverPageLockSlot pgno)) →
  sqlite3ServerLock fuel e h p pgno bWrite bBlock = Some (e', h', p', r) →
  r ≠ SQLITE_OK →
  ∀ k, is_page_slot k →
       contribution (iClient p) (word (aMap h') k)
       = contribution (iClient p) (word (aMap h) k).
Proof.
  intros Hi Hok Hrun Hr.
  unfold sqlite3ServerLock in Hrun.
  pose proof (serverLockGrow_spec e p) as Hg.
  destruct (serverLockGrow e p) as [[e1 p1] r1].
  destruct Hg as (_ & Hi1 & _). cbv zeta in Hrun.
  pose proof (serverPageLockSlot_is_page_slot pgno) as Hk0.
  set (i := iClient p) in *. set (k0 := serverPageLockSlot pgno) in *.
  case_bool_decide as Hr1.
  2:{ apply server_lock_out_spec in Hrun as (_ & _ & _ & _ & _ & _ & _ & _ & _ & _ & Hh).
      rewrite Hh by apply andb_false_r. done. }
  destruct (read_word_spec (iClient p1) e1 (aMap h) k0) as (e0 & Hread & _).
  rewrite Hread in Hrun. clear Hread. rewrite Hi1 in Hrun.
  pose proof (peers_next_keeps i e1 (aMap h) ltac:(lia)) as Hk1.
  set (m1 := peers_next i e1 (aMap h)) in *.
  destruct (serverLockHeld _ _ _).
  { apply server_lock_out_spec in Hrun as (Heq & _). congruence. }
  set (p2 := server_set_lock _ _ _ _ _) in Hrun.
  destruct (serverLockLoop _ _ _ _ _ _ _ _ _) as [[[[e2 h2] r2] bR]|] eqn:Hloop; [|done].
  assert (iClient p2 = i) as Hi2 by (subst p2; simpl; congruence).
  apply (serverLockLoop_spec p2 pgno bWrite bBlock (aMap h)) in Hloop
    as (_ & _ & _ & _ & Hpost); rewrite ?Hi2; fold k0; try done.
  2:{ destruct (Hk1 k0 Hk0) as [_ Hok1]. by apply Hok1. }
  2:{ simpl. apply (lock_attempt_keeps i k0 (aMap h) (aMap h));
        [done | apply lock_attempt_start | done]. }
  rewrite Hi2 in Hpost. fold k0 in Hpost.
  pose proof (server_lock_out_spec _ _ _ _ _ _ _ _ _ _ _ Hrun) as (Heq & Hrest).
  subst r2. destruct (Hpost Hr) as (Hoth & _ & Hbit & Hres & Hnot).
  intros k Hk. destruct bR.
  - apply server_lock_out_unreserve in Hrun as (Hoth' & Hbit' & Hf0); [|by rewrite Hi2|done].
    rewrite Hi2 in Hoth', Hbit'. fold k0 in Hoth', Hbit', Hf0.
    destruct (Z.eq_dec k k0) as [->|Hne].
    + unfold contribution. rewrite Hbit', Hbit, Hf0. f_equal.
      destruct (Hres eq_refl) as [_ Hfree]. unfold holds_write in Hfree.
      destruct (Z.eqb_spec 0 (i + 1)),
        (Z.eqb_spec (Z.shiftr (word (aMap h) k0) HMA_CLIENT_SLOTS) (i + 1));
        done || lia.
    + by destruct (others_keep_trans _ _ _ _ _ Hoth Hoth' k Hk Hne).
  - destruct Hrest as (_ & _ & _ & _ & _ & _ & _ & _ & _ & Hh).
    rewrite Hh by apply andb_false_r.
    destruct (Z.eq_dec k k0) as [->|Hne].
    + unfold contribution. rewrite Hbit. f_equal.
      specialize (Hnot eq_refl). unfold holds_write in Hnot.
      destruct (Z.eqb_spec (Z.shiftr (word (aMap h2) k0) HMA_CLIENT_SLOTS) (i + 1)),
        (Z.eqb_spec (Z.shiftr (word (aMap h) k0) HMA_CLIENT_SLOTS) (i + 1));
        done || tauto.
    + by destruct (Hoth k Hk Hne).
Qed.

(** C4: when sqlite3ServerLock returns a code other than OK, every page-lock
    word of the mapping has of the caller exactly what it had before the
    call: the same reader bit, and a write field that names the caller only
    if it did before.  A RESERVED lock installed during the call is therefore
    gone, whatever the other clients stored in between.  The page's slot word
    is required to satisfy invariant I1 (a write field of at most 16), so
    that the client blamed for a conflict is a client. *)
Theorem sqlite3ServerLock_failure_rolls_back (fuel : nat) (e : Env) (h : ServerHMA)
    (p : Server) (pgno : Z) (bWrite bBlock : bool)
    (e' : Env) (h' : ServerHMA) (p' : Server) (r : rc) :
  0 <= iClient p < HMA_CLIENT_SLOTS →
  word_ok (word (aMap h) (serverPageLockSlot pgno)) →
  sqlite3ServerLock fuel e h p pgno bWrite bBlock = Some (e', h', p', r) →
  r ≠ SQLITE_OK →
  (∀ k, is_page_slot k →
        contribution (iClient p) (word (aMap h') k)
        = contribution (iClient p) (word (aMap h) k))
  ∧ (¬ holds_write (iClient p) (word (aMap h) (serverPageLockSlot pgno)) →
     ¬ holds_write (iClient p) (word (aMap h') (serverPageLockSlot pgno)))
  ∧ (¬ holds_shared (iClient p) (word (aMap h) (serverPageLockSlot pgno)) →
     ¬ holds_shared (iClient p) (word (aMap h') (serverPageLockSlot pgno))).
Proof.
  intros Hi Hok Hrun Hr.
  pose proof (sqlite3ServerLock_failure_contribution _ _ _ _ _ _ _ _ _ _ _
                Hi Hok Hrun Hr) as Hall.
  split; [done|].
  specialize (Hall (serverPageLockSlot pgno) (serverPageLockSlot_is_page_slot pgno)).
  apply contribution_eq in Hall as [Hbit Hw]. unfold holds_shared.
  split; [by rewrite Hw | by rewrite Hbit].
Qed.

(** ** sqlite3ServerLock and the lock-history *)

(** What a call of sqlite3ServerLock does to the history: nothing, and then
    the call has stored nothing in the mapping either (the lock was held, or
    the buffer could not grow); or the page is appended after the entries
    there were. *)
Lemma sqlite3ServerLock_history (fuel : nat) (e : Env) (h : ServerHMA) (p : Server)
    (pgno : Z) (bWrite bBlock : bool)
    (e' : Env) (h' : ServerHMA) (p' : Server) (r : rc) :
  buffer_ok p → 0 <= iClient p →
  sqlite3ServerLock fuel e h p pgno bWrite bBlock = Some (e', h', p', r) →
  iClient p' = iClient p
  ∧ ((mem_keeps (iClient p) (aMap h) (aMap h') ∧ nLock p' = nLock p
      ∧ (∀ j x, aLock p !! j = Some x → aLock p' !! j = Some x)
      ∧ (r = SQLITE_OK ∨ (r = SQLITE_NOMEM ∧ ¬ grow_succeeds e p)))
     ∨ (nLock p' = nLock p + 1
        ∧ aLock p' !! Z.to_nat (nLock p) = Some pgno
        ∧ (∀ j x, (j < Z.to_nat (nLock p))%nat →
                  aLock p !! j = Some x → aLock p' !! j = Some x))).
Proof.
  intros Hbuf Hi0 Hrun. unfold sqlite3ServerLock in Hrun.
  pose proof (serverLockGrow_spec e p) as Hg.
  destruct (serverLockGrow e p) as [[e1 p1] r1].
  destruct Hg as (_ & Hi1 & Hn1 & _ & _ & Hr1 & Hent1 & Hbuf1 & Hgs).
  cbv zeta in Hrun. case_bool_decide as Hok.
  - destruct (read_word_spec (iClient p1) e1 (aMap h) (serverPageLockSlot pgno))
      as (e0 & Hread & _).
    rewrite Hread in Hrun. clear Hread.
    destruct (serverLockHeld _ _ _) eqn:Hheld.
    + apply server_lock_out_spec in Hrun
        as (-> & Hi & Hn & _ & Ha & _ & _ & _ & _ & _ & Hh).
      rewrite Hh by apply andb_false_r.
      split; [congruence|]. left. split_and!; auto; try congruence.
      * simpl. rewrite Hi1. by apply peers_next_keeps.
      * intros j x Hj. rewrite Ha. by apply Hent1.
    + set (p2 := server_set_lock _ _ _ _ _) in Hrun.
      destruct (serverLockLoop _ _ _ _ _ _ _ _ _) as [[[[e2 h2] r2] bR]|]; [|done].
      apply server_lock_out_spec in Hrun as (-> & Hi & Hn & _ & Ha & _).
      specialize (Hbuf1 Hbuf Hok) as [Hn1' Hlen1].
      split; [subst p2; simpl in *; congruence|]. right.
      rewrite Hn, Ha. subst p2. simpl. rewrite Hn1. split_and!.
      * done.
      * rewrite <- Hn1. apply list_lookup_insert_eq. lia.
      * intros j x Hj Hx. rewrite list_lookup_insert_ne by lia. by apply Hent1.
  - destruct Hr1 as [Hr1|(-> & -> & Hfull & Hnull)]; [done|].
    apply server_lock_out_spec in Hrun
      as (-> & Hi & Hn & _ & Ha & _ & _ & _ & _ & _ & Hh).
    rewrite Hh by apply andb_false_r.
    split; [done|]. left. split_and!; auto; try done.
    + intros j x Hj. by rewrite Ha.
    + right. split; [done|]. intros Hgr. by apply Hgs in Hgr.
Qed.

(** ** C3 *)

Lemma covered_slot_free (p : Server) (m m' : gmap Z Z) (k : Z) :
  is_page_slot k → history_covers p m →
  (history_has_slot p k → slot_free (iClient p) (word m' k)) →
  (contribution (iClient p) (word m' k) = contribution (iClient p) (word m k)
   ∨ slot_free (iClient p) (word m' k)) →
  slot_free (iClient p) (word m' k).
Proof.
  intros Hk Hcov Hhist [Heq|Hfree]; [|done].
  destruct (decide (contribution (iClient p) (word m k) = (false, false))) as [Hc|Hc].
  - apply slot_free_contribution. congruence.
  - apply Hhist, Hcov; [done|]. by rewrite slot_free_contribution.
Qed.

(** C3: for a connection with a client id in 0..16 whose history covers every
    page-lock slot that carries its reader bit or names it in the write
    field, sqlite3ServerEnd returns (given fuel for the retries that the
    stores of the other clients force) and leaves no page-lock slot with that
    bit or that write field.  And when such a connection calls
    sqlite3ServerLock for a page and then sqlite3ServerEnd, the slot of that
    page carries nothing of the connection, however the lock call ended. *)
Theorem sqlite3ServerEnd_releases_everything (fuel : nat) (e : Env) (h : ServerHMA)
    (p : Server) :
  0 <= iClient p <= HMA_CLIENT_SLOTS →
  history_covers p (aMap h) →
  ((length (e_peers e) < fuel)%nat →
   ∃ e' h' p' r,
      sqlite3ServerEnd fuel e h p = Some (e', h', p', r)
      ∧ ∀ k, is_page_slot k → slot_free (iClient p) (word (aMap h') k))
  ∧ (buffer_ok p →
     ∀ (fuel1 : nat) (pgno : Z) (bWrite bBlock : bool) e1 h1 p1 r1,
       sqlite3ServerLock fuel1 e h p pgno bWrite bBlock = Some (e1, h1, p1, r1) →
       (length (e_peers e1) < fuel)%nat →
       ∃ e2 h2 p2 r2,
         sqlite3ServerEnd fuel e1 h1 p1 = Some (e2, h2, p2, r2)
         ∧ slot_free (iClient p) (word (aMap h2) (serverPageLockSlot pgno))).
Proof.
  intros Hi Hcov. split.
  - intros Hfuel.
    destruct (sqlite3ServerEnd_spec fuel e h p Hi Hfuel) as
      (e' & h' & p' & r & t & Hrun & _ & _ & _ & Hw & Hhist).
    exists e', h', p', r. split; [done|]. intros k Hk.
    apply (covered_slot_free p (aMap h)); auto.
    intros Hhas. by apply Hhist.
  - intros Hbuf fuel1 pgno bWrite bBlock e1 h1 p1 r1 Hlock Hfuel.
    destruct (sqlite3ServerLock_history _ _ _ _ _ _ _ _ _ _ _ Hbuf (proj1 Hi) Hlock)
      as [Hi1 Hcase].
    destruct (sqlite3ServerEnd_spec fuel e1 h1 p1) as
      (e2 & h2 & p2 & r2 & t & Hrun & _ & _ & _ & Hw & Hhist); [by rewrite Hi1|done|].
    exists e2, h2, p2, r2. split; [done|]. rewrite Hi1 in Hw, Hhist.
    set (k0 := serverPageLockSlot pgno) in *.
    pose proof (serverPageLockSlot_is_page_slot pgno) as Hps. fold k0 in Hps.
    destruct Hcase as [(Hm & Hn & Hent & _)|(Hn & Hnew & _)].
    + apply (covered_slot_free p (aMap h)); auto.
      * intros (j & pg & Hj & Hlook & Hk). apply Hhist.
        exists j, pg. rewrite Hn. split_and!; [lia | by apply Hent | done].
      * destruct (Hw k0 Hps) as [Heq|Hfree]; [|by right]. left.
        destruct (Hm k0 Hps) as [Hc _]. congruence.
    + apply Hhist. exists (Z.to_nat (nLock p)), pgno. rewrite Hn.
      destruct Hbuf as [Hbuf _]. split_and!; [lia | done | done].
Qed.

(** ** C6: asking again for a SHARED lock that is held *)

Lemma serverLockHeld_shared (i v : Z) :
  0 <= i → serverLockHeld i false v = Z.testbit v i.
Proof. intros Hi. unfold serverLockHeld. by apply land_pow2_testbit. Qed.

Lemma peers_next_ext (i : Z) (e e' : Env) (m : gmap Z Z) :
  e_peers e' = e_peers e → peers_next i e' m = peers_next i e m.
Proof. unfold peers_next. by intros ->. Qed.

(** A successful return of the loops leaves the caller's reader bit set. *)
Lemma serverLockLoop_ok_shared (fuel : nat) :
  ∀ (e : Env) (h : ServerHMA) (p : Server) (pgno : Z) (bWrite bBlock : bool) (v : Z)
    (bR : bool) (e' : Env) (h' : ServerHMA) (bR' : bool),
    0 <= iClient p →
    serverLockLoop fuel e h p pgno bWrite bBlock v bR = Some (e', h', SQLITE_OK, bR') →
    holds_shared (iClient p) (word (aMap h') (serverPageLockSlot pgno)).
Proof.
  induction fuel as [|fuel IH]; intros e h p pgno bWrite bBlock v bR e' h' bR' Hi Hrun;
    [done|].
  rewrite serverLockLoop_unfold in Hrun. cbv zeta in Hrun.
  set (i := iClient p) in *. set (k0 := serverPageLockSlot pgno) in *.
  assert (∀ (e1 : Env) (h1 : ServerHMA) (m1 : gmap Z Z) (bR1 : bool),
            (let '(e2, m2, v2) := read_word i e1 m1 k0 in
             serverLockLoop fuel e2 (hma_set_aMap h1 m2) p pgno bWrite bBlock v2 bR1)
            = Some (e', h', SQLITE_OK, bR') →
            holds_shared i (word (aMap h') k0)) as Hagain.
  { clear Hrun. intros e1 h1 m1 bR1 Hrun1.
    destruct (read_word i e1 m1 k0) as [[e2 m2] v2]. by eapply IH. }
  assert (∀ (e1 : Env) (h1 : ServerHMA) (v1 : Z) (bR1 : bool),
            match serverOvercomeLock (S fuel) e1 h1 p bWrite bBlock v1 false with
            | None => None
            | Some (e2, h2, r, bRetry) =>
                if negb (bool_decide (r = SQLITE_OK)) then Some (e2, h2, r, bR1)
                else if negb bRetry then
                  Some (sqlite3_log e2 SQLITE_BUSY_DEADLOCK "Conflict at page %d"
                          (ArgInt pgno), h2, SQLITE_BUSY_DEADLOCK, bR1)
                else
                  let '(e3, m3, v3) := read_word i e2 (aMap h2) k0 in
                  serverLockLoop fuel e3 (hma_set_aMap h2 m3) p pgno bWrite bBlock v3 bR1
            end = Some (e', h', SQLITE_OK, bR') →
            holds_shared i (word (aMap h') k0)) as Hover.
  { clear Hrun. intros e1 h1 v1 bR1 Hrun1.
    destruct (serverOvercomeLock (S fuel) e1 h1 p bWrite bBlock v1 false)
      as [[[[e2 h2] r2] b2]|]; [|done].
    case_bool_decide as Hr2; cbn [negb] in Hrun1; [|congruence].
    destruct b2; cbn [negb] in Hrun1; [|done]. by eapply Hagain. }
  destruct (serverConflict i bWrite v).
  - destruct ((serverWriteLocker v <? 0) && bWrite && bBlock).
    + destruct (sync_val_compare_and_swap i e (aMap h) k0 v (serverReservedWord i v))
        as [[e1 m1] old].
      destruct (old =? v); [by eapply Hover | by eapply Hagain].
    + by eapply Hover.
  - destruct (cas_spec i e (aMap h) k0 v (serverLockWord i bWrite v)) as (e1 & Hcas & _).
    rewrite Hcas in Hrun. clear Hcas.
    destruct (Z.eqb_spec (word (peers_next i e (aMap h)) k0) v) as [Heq|Hneq].
    + inversion Hrun; subst. simpl. rewrite word_insert_eq.
      by apply serverLockWord_shared.
    + by eapply Hagain.
Qed.

(** A read request that returns OK leaves the caller's reader bit set: the
    assertion at the end of sqlite3ServerLock, for [bWrite==0]. *)
Lemma sqlite3ServerLock_ok_shared (fuel1 : nat) (e : Env) (h : ServerHMA) (p : Server)
    (pgno : Z) (bBlock1 : bool) (e1 : Env) (h1 : ServerHMA) (p1 : Server) :
  0 <= iClient p →
  sqlite3ServerLock fuel1 e h p pgno false bBlock1 = Some (e1, h1, p1, SQLITE_OK) →
  iClient p1 = iClient p
  ∧ holds_shared (iClient p) (word (aMap h1) (serverPageLockSlot pgno)).
Proof.
  intros Hi Hfirst.
  unfold sqlite3ServerLock in Hfirst.
  pose proof (serverLockGrow_spec e p) as Hg.
  destruct (serverLockGrow e p) as [[e0 p0] r0].
  destruct Hg as (_ & Hi0 & _). cbv zeta in Hfirst.
  case_bool_decide as Hr0.
  - destruct (read_word_spec (iClient p0) e0 (aMap h) (serverPageLockSlot pgno))
      as (e0' & Hread & _).
    rewrite Hread in Hfirst. clear Hread.
    rewrite serverLockHeld_shared in Hfirst by (by rewrite Hi0).
    destruct (Z.testbit _ _) eqn:Hbit.
    + apply server_lock_out_spec in Hfirst
        as (_ & Hi' & _ & _ & _ & _ & _ & _ & _ & _ & Hh).
      rewrite Hh by apply andb_false_r.
      split; [congruence|]. simpl. unfold holds_shared. by rewrite <- Hi0.
    + set (p2 := server_set_lock _ _ _ _ _) in Hfirst.
      destruct (serverLockLoop _ _ _ _ _ _ _ _ _) as [[[[e2 h2] r2] bR]|] eqn:Hloop;
        [|done].
      apply server_lock_out_spec in Hfirst
        as (Hr2 & Hi' & _ & _ & _ & _ & _ & _ & _ & _ & Hh). subst r2.
      rewrite Hh by done.
      apply serverLockLoop_ok_shared in Hloop; [|subst p2; simpl; lia].
      split; [subst p2; simpl in *; congruence|].
      subst p2. simpl in Hloop. by rewrite <- Hi0.
  - apply server_lock_out_spec in Hfirst as (Hr & _). done.
Qed.

(** C6 as stated fails: client 0 holds SHARED on the pages 1..128, which fill
    its history buffer; the call for page 42 again first tries to grow the
    buffer, the allocator fails, and the call returns NOMEM instead of OK. *)
Lemma sqlite3ServerLock_shared_again_nomem :
  holds_shared 0 (word (aMap (hma_two words_1_128)) (serverPageLockSlot 42))
  ∧ nLock (server_with pages_1_128 0 0) = nAlloc (server_with pages_1_128 0 0)
  ∧ ∃ e' p',
      sqlite3ServerLock 1 (env_of [] [] [0]) (hma_two words_1_128)
        (server_with pages_1_128 0 0) 42 false false
      = Some (e', hma_two words_1_128, p', SQLITE_NOMEM).
Proof.
  split; [vm_compute; reflexivity|]. split; [reflexivity|].
  eexists _, _. vm_compute. reflexivity.
Qed.

(** C6, amended.  When the connection holds SHARED on the page, a further read
    request returns (for any fuel, so without entering a loop) and stores
    nothing: the mapping afterwards is the one the call read the slot word
    from, the connection still holds SHARED, and the number of history
    entries and the entries themselves are as they were.  It returns OK,
    unless the history buffer is full and cannot grow; then it returns NOMEM
    without having read the mapping.  In particular a second read request
    after a first one that returned OK behaves in this way. *)
Theorem sqlite3ServerLock_shared_again (fuel : nat) (e : Env) (h : ServerHMA)
    (p : Server) (pgno : Z) (bBlock : bool) :
  0 <= iClient p →
  (holds_shared (iClient p) (word (aMap h) (serverPageLockSlot pgno)) →
   ∃ e' h' p' r,
     sqlite3ServerLock fuel e h p pgno false bBlock = Some (e', h', p', r)
     ∧ (grow_succeeds e p →
          r = SQLITE_OK ∧ h' = hma_set_aMap h (peers_next (iClient p) e (aMap h)))
     ∧ (¬ grow_succeeds e p → r = SQLITE_NOMEM ∧ h' = h)
     ∧ holds_shared (iClient p) (word (aMap h') (serverPageLockSlot pgno))
     ∧ nLock p' = nLock p
     ∧ (∀ j x, aLock p !! j = Some x → aLock p' !! j = Some x))
  ∧ (∀ (fuel1 : nat) (bBlock1 : bool) e1 h1 p1,
       sqlite3ServerLock fuel1 e h p pgno false bBlock1 = Some (e1, h1, p1, SQLITE_OK) →
       ∃ e2 h2 p2 r2,
         sqlite3ServerLock fuel e1 h1 p1 pgno false bBlock = Some (e2, h2, p2, r2)
         ∧ (grow_succeeds e1 p1 →
              r2 = SQLITE_OK
              ∧ h2 = hma_set_aMap h1 (peers_next (iClient p1) e1 (aMap h1)))
         ∧ (¬ grow_succeeds e1 p1 → r2 = SQLITE_NOMEM ∧ h2 = h1)
         ∧ holds_shared (iClient p1) (word (aMap h2) (serverPageLockSlot pgno))
         ∧ nLock p2 = nLock p1
         ∧ (∀ j x, aLock p1 !! j = Some x → aLock p2 !! j = Some x)).
Proof.
  intros Hi.
  assert (∀ (e : Env) (h : ServerHMA) (p : Server),
            0 <= iClient p →
            holds_shared (iClient p) (word (aMap h) (serverPageLockSlot pgno)) →
            ∃ e' h' p' r,
              sqlite3ServerLock fuel e h p pgno false bBlock = Some (e', h', p', r)
              ∧ (grow_succeeds e p →
                   r = SQLITE_OK
                   ∧ h' = hma_set_aMap h (peers_next (iClient p) e (aMap h)))
              ∧ (¬ grow_succeeds e p → r = SQLITE_NOMEM ∧ h' = h)
              ∧ holds_shared (iClient p) (word (aMap h') (serverPageLockSlot pgno))
              ∧ nLock p' = nLock p
              ∧ (∀ j x, aLock p !! j = Some x → aLock p' !! j = Some x)) as Hagain.
  { clear. intros e h p Hi Hheld. unfold sqlite3ServerLock.
    pose proof (serverLockGrow_spec e p) as Hg.
    pose proof (serverLockGrow_peers e p) as Hpeers.
    destruct (serverLockGrow e p) as [[e1 p1] r1].
    destruct Hg as (_ & Hi1 & Hn1 & _ & _ & Hr1 & Hent1 & _ & Hgs).
    simpl in Hpeers. cbv zeta.
    assert (∀ (e0 : Env) (h0 : ServerHMA),
              ∃ e' p', server_lock_out fuel e0 h0 p1 pgno r1 false = Some (e', h0, p', r1)
                       ∧ nLock p' = nLock p1 ∧ aLock p' = aLock p1) as Hout.
    { intros e0 h0. unfold server_lock_out. rewrite andb_false_r. destruct (pgno =? 0).
      - destruct (gettimeofday e0) as [e2 [s u]]. by eexists _, _.
      - by eexists _, _. }
    pose proof (serverPageLockSlot_is_page_slot pgno) as Hk0.
    pose proof (peers_next_keeps (iClient p) e (aMap h) Hi _ Hk0) as [Hc _].
    apply contribution_eq in Hc as [Hbit _].
    unfold holds_shared in Hheld. rewrite Hheld in Hbit.
    case_bool_decide as Hok.
    - destruct (read_word_spec (iClient p1) e1 (aMap h) (serverPageLockSlot pgno))
        as (e0 & Hread & _).
      rewrite Hread. clear Hread.
      rewrite Hi1, (peers_next_ext _ e e1) by done.
      rewrite serverLockHeld_shared, Hbit by done.
      destruct (Hout e0 (hma_set_aMap h (peers_next (iClient p) e (aMap h))))
        as (e' & p' & Ho & Hn & Ha).
      exists e', (hma_set_aMap h (peers_next (iClient p) e (aMap h))), p', r1.
      split_and!; [exact Ho | done | | done | congruence |].
      + intros Hno. exfalso. by apply Hno, Hgs.
      + intros j x Hj. rewrite Ha. by apply Hent1.
    - destruct (Hout e1 h) as (e' & p' & Ho & Hn & Ha).
      exists e', h, p', r1. split_and!; [exact Ho | | | done | congruence |].
      + intros Hyes. by apply Hgs in Hyes.
      + intros _. by destruct Hr1 as [->|(-> & _)].
      + intros j x Hj. rewrite Ha. by apply Hent1. }
  split; [by apply Hagain|].
  intros fuel1 bBlock1 e1 h1 p1 Hfirst.
  destruct (sqlite3ServerLock_ok_shared _ _ _ _ _ _ _ _ _ Hi Hfirst) as [Hi1 Hheld1].
  destruct (Hagain e1 h1 p1) as (e2 & h2 & p2 & r2 & Hrun); [lia | by rewrite Hi1 |].
  by exists e2, h2, p2, r2.
Qed.

(** ** C7: a conflict with a connection of this process *)

(** C7: when the client serverOvercomeLock blames for the slot word [v] has an
    entry in [aClient], serverOvercomeLock returns OK and leaves [*pbRetry] at
    0 without doing anything; a turn of the loops of a non-blocking request
    on this word logs the conflict and leaves the loops with BUSY_DEADLOCK;
    and a non-blocking request that reads this word from the slot and gets as
    far as the conflict (the history buffer can take the page and the lock is
    not held yet) returns BUSY_DEADLOCK and has stored nothing in the
    mapping. *)
Theorem sqlite3ServerLock_local_peer_deadlock (fuel : nat) (e : Env) (h : ServerHMA)
    (p : Server) (pgno : Z) (bWrite : bool) (v : Z) :
  serverConflict (iClient p) bWrite v = true →
  default 0 (aClient h !! serverBlocker (iClient p) v) ≠ 0 →
  (∀ (fuel' : nat) (e0 : Env) (bBlock : bool),
     serverOvercomeLock fuel' e0 h p bWrite bBlock v false = Some (e0, h, SQLITE_OK, false))
  ∧ (∀ (e0 : Env) (bReserved : bool),
       serverLockLoop (S fuel) e0 h p pgno bWrite false v bReserved
       = Some (sqlite3_log e0 SQLITE_BUSY_DEADLOCK "Conflict at page %d" (ArgInt pgno),
               h, SQLITE_BUSY_DEADLOCK, bReserved))
  ∧ (grow_succeeds e p →
     word (peers_next (iClient p) e (aMap h)) (serverPageLockSlot pgno) = v →
     serverLockHeld (iClient p) bWrite v = false →
     ∃ e' p',
       sqlite3ServerLock (S fuel) e h p pgno bWrite false
         = Some (e', hma_set_aMap h (peers_next (iClient p) e (aMap h)), p',
                 SQLITE_BUSY_DEADLOCK)
       ∧ EvLog SQLITE_BUSY_DEADLOCK "Conflict at page %d" (ArgInt pgno) ∈ e_trace e').
Proof.
  intros Hconf Hlocal.
  assert (∀ (fuel' : nat) (e0 : Env) (h0 : ServerHMA) (p0 : Server) (bBlock : bool),
            iClient p0 = iClient p → aClient h0 = aClient h →
            serverOvercomeLock fuel' e0 h0 p0 bWrite bBlock v false
            = Some (e0, h0, SQLITE_OK, false)) as Hov.
  { intros fuel' e0 h0 p0 bBlock Hp0 Hh0. unfold serverOvercomeLock. rewrite Hp0, Hh0.
    apply Z.eqb_neq in Hlocal. by rewrite Hlocal. }
  assert (∀ (e0 : Env) (h0 : ServerHMA) (p0 : Server) (bReserved : bool),
            iClient p0 = iClient p → aClient h0 = aClient h →
            serverLockLoop (S fuel) e0 h0 p0 pgno bWrite false v bReserved
            = Some (sqlite3_log e0 SQLITE_BUSY_DEADLOCK "Conflict at page %d" (ArgInt pgno),
                    h0, SQLITE_BUSY_DEADLOCK, bReserved)) as Hloop.
  { intros e0 h0 p0 bReserved Hp0 Hh0. rewrite serverLockLoop_unfold. cbv zeta.
    by rewrite Hp0, Hconf, andb_false_r, (Hov _ _ h0 p0 _ Hp0 Hh0). }
  split; [intros; by apply Hov|]. split; [intros; by apply Hloop|].
  intros Hgrow Hv Hheld.
  unfold sqlite3ServerLock.
  pose proof (serverLockGrow_spec e p) as Hg.
  pose proof (serverLockGrow_peers e p) as Hpeers.
  destruct (serverLockGrow e p) as [[e1 p1] r1].
  destruct Hg as (_ & Hi1 & _ & _ & _ & _ & _ & _ & Hgs).
  apply Hgs in Hgrow. subst r1. simpl in Hpeers. cbv zeta.
  rewrite bool_decide_eq_true_2 by done.
  destruct (read_word_spec (iClient p1) e1 (aMap h) (serverPageLockSlot pgno))
    as (e0 & Hread & _ & _ & Htr0 & _).
  rewrite Hread. clear Hread.
  rewrite Hi1, (peers_next_ext _ e e1), Hv, Hheld by done.
  set (p2 := server_set_lock _ _ _ _ _).
  assert (iClient p2 = iClient p) as Hi2 by (subst p2; simpl; congruence).
  rewrite (Hloop e0 (hma_set_aMap h (peers_next (iClient p) e (aMap h))) p2 false
             Hi2 eq_refl).
  unfold server_lock_out. cbn [negb andb bool_decide decide_rel].
  rewrite bool_decide_eq_false_2 by done. cbn [negb andb].
  destruct (pgno =? 0).
  - unfold gettimeofday. destruct (hd (0, 0) _) as [s u]. eexists _, _.
    split; [reflexivity|]. simpl. rewrite !elem_of_app. left. right. apply list_elem_of_here.
  - eexists _, _. split; [reflexivity|]. simpl. rewrite elem_of_app. right.
    apply list_elem_of_here.
Qed.

(** ** C10: the page of a failed call stays in the history *)

(** C10: when a call of sqlite3ServerLock that got past the growth of the
    buffer returns a code other than OK, the history has one entry more than
    before and that entry is the page; the next sqlite3ServerEnd returns and
    has made a compare-and-swap on the slot of that page.  This is so although
    (for a client id in 0..15 and a slot word satisfying I1) the slot word has
    of the connection only what it had before the failed call. *)
Theorem sqlite3ServerLock_failed_page_stays_recorded (fuel : nat) (e : Env)
    (h : ServerHMA) (p : Server) (pgno : Z) (bWrite bBlock : bool)
    (e' : Env) (h' : ServerHMA) (p' : Server) (r : rc) :
  buffer_ok p →
  0 <= iClient p <= HMA_CLIENT_SLOTS →
  grow_succeeds e p →
  sqlite3ServerLock fuel e h p pgno bWrite bBlock = Some (e', h', p', r) →
  r ≠ SQLITE_OK →
  nLock p' = nLock p + 1
  ∧ aLock p' !! Z.to_nat (nLock p) = Some pgno
  ∧ (∀ fuel2, (length (e_peers e') < fuel2)%nat →
       ∃ e2 h2 p2 r2 t v n,
         sqlite3ServerEnd fuel2 e' h' p' = Some (e2, h2, p2, r2)
         ∧ e_trace e2 = e_trace e' ++ t
         ∧ EvCas (serverPageLockSlot pgno) v n ∈ t)
  ∧ (iClient p < HMA_CLIENT_SLOTS →
     word_ok (word (aMap h) (serverPageLockSlot pgno)) →
     contribution (iClient p) (word (aMap h') (serverPageLockSlot pgno))
     = contribution (iClient p) (word (aMap h) (serverPageLockSlot pgno))).
Proof.
  intros Hbuf Hi Hgrow Hrun Hr.
  destruct (sqlite3ServerLock_history _ _ _ _ _ _ _ _ _ _ _ Hbuf (proj1 Hi) Hrun)
    as [Hi' Hcase].
  destruct Hcase as [(_ & _ & _ & [Hok|[_ Hno]])|(Hn & Hnew & _)]; [done..|].
  split_and!; [done | done | |].
  - intros fuel2 Hfuel.
    destruct (sqlite3ServerEnd_spec fuel2 e' h' p') as
      (e2 & h2 & p2 & r2 & t & Hend & _ & _ & Ht & _ & Hhist); [by rewrite Hi'|done|].
    destruct (Hhist (serverPageLockSlot pgno)) as [_ (v & n & Hin)].
    { exists (Z.to_nat (nLock p)), pgno. rewrite Hn.
      destruct Hbuf as [Hbuf _]. split_and!; [lia | done | done]. }
    by exists e2, h2, p2, r2, t, v, n.
  - intros Hlt Hok.
    eapply sqlite3ServerLock_failure_contribution; eauto; [lia|].
    apply serverPageLockSlot_is_page_slot.
Qed.

(** ** C2: sqlite3ServerBegin *)

(** C2, amended: sqlite3ServerBegin first asks for a blocking writer-lock on
    the byte of its own client slot, at offset [4*(iClient+1)]; when that fails
    it returns the failure without touching anything else, and when it
    succeeds it goes on as sqlite3ServerLock does for page 1 (not page 0),
    reading, blocking.  It returns OK exactly when both steps do, and then the
    connection holds SHARED on page 1. *)
Theorem sqlite3ServerBegin_steps (fuel : nat) (e : Env) (h : ServerHMA) (p : Server) :
  let step1 := posixLock e (fd h) (iClient p + 1) SERVER_WRITE_LOCK true in
  e_trace step1.1 =
    e_trace e ++
      [EvFcntl (fd h) F_SETLKW
         {| l_type := Some F_WRLCK; l_whence := SEEK_SET;
            l_start := (iClient p + 1) * 4; l_len := 1 |}]
  ∧ (step1.2 ≠ SQLITE_OK →
     sqlite3ServerBegin fuel e h p = Some (step1.1, h, p, step1.2))
  ∧ (step1.2 = SQLITE_OK →
     sqlite3ServerBegin fuel e h p = sqlite3ServerLock fuel step1.1 h p 1 false true)
  ∧ (∀ e' h' p',
       sqlite3ServerBegin fuel e h p = Some (e', h', p', SQLITE_OK)
       ↔ step1.2 = SQLITE_OK
         ∧ sqlite3ServerLock fuel step1.1 h p 1 false true = Some (e', h', p', SQLITE_OK))
  ∧ (0 <= iClient p →
     ∀ e' h' p',
       sqlite3ServerBegin fuel e h p = Some (e', h', p', SQLITE_OK) →
       sqlite3ServerHasLock h' p' 1 false = true).
Proof.
  intros step1.
  assert (sqlite3ServerBegin fuel e h p =
            if rc_nonzero step1.2 then Some (step1.1, h, p, step1.2)
            else sqlite3ServerLock fuel step1.1 h p 1 false true) as Hdef.
  { unfold sqlite3ServerBegin. fold step1. by destruct step1. }
  assert (∀ e' h' p',
            sqlite3ServerBegin fuel e h p = Some (e', h', p', SQLITE_OK)
            ↔ step1.2 = SQLITE_OK
              ∧ sqlite3ServerLock fuel step1.1 h p 1 false true
                = Some (e', h', p', SQLITE_OK)) as Hiff.
  { intros e' h' p'. rewrite Hdef.
    destruct (step1.2) eqn:Hr; simpl; try tauto;
      (split; [by inversion 1 | by intros [? _]]). }
  split_and!.
  - subst step1. by rewrite posixLock_event.
  - intros Hne. rewrite Hdef. by destruct (step1.2).
  - intros Heq. rewrite Hdef. by rewrite Heq.
  - exact Hiff.
  - intros Hi e' h' p' Hrun. apply Hiff in Hrun as [_ Hlock].
    apply sqlite3ServerLock_ok_shared in Hlock as [Hi1 Hheld]; [|done].
    unfold sqlite3ServerHasLock. rewrite land_pow2_testbit, Hi1 by lia. exact Hheld.
Qed.


(** ** The theorems at concrete states *)

(** Client 0 holds SHARED and the write field on page 42 and SHARED on page
    100, and has both pages in its history.  Between its read of the slot of
    page 42 and its compare-and-swap, client 1 takes SHARED on that page. *)
Lemma sqlite3ServerEnd_releases_everything_witness :
  ((length (e_peers (env_with_peers [[]; [(59, 65539)]%Z])) < 3)%nat →
   ∃ e' h' p' r,
      sqlite3ServerEnd 3 (env_with_peers [[]; [(59, 65539)]])
        (hma_two {[59 := 65537; 117 := 1]})
        (server_with [42; 100] 0 0) = Some (e', h', p', r)
      ∧ ∀ k, is_page_slot k → slot_free 0 (word (aMap h') k))
  ∧ (buffer_ok (server_with [42; 100] 0 0) →
     ∀ (fuel1 : nat) (pgno : Z) (bWrite bBlock : bool) e1 h1 p1 r1,
       sqlite3ServerLock fuel1 (env_with_peers [[]; [(59, 65539)]])
         (hma_two {[59 := 65537; 117 := 1]})
         (server_with [42; 100] 0 0) pgno bWrite bBlock = Some (e1, h1, p1, r1) →
       (length (e_peers e1) < 3)%nat →
       ∃ e2 h2 p2 r2,
         sqlite3ServerEnd 3 e1 h1 p1 = Some (e2, h2, p2, r2)
         ∧ slot_free 0 (word (aMap h2) (serverPageLockSlot pgno))).
Proof.
  apply (sqlite3ServerEnd_releases_everything 3 (env_with_peers [[]; [(59, 65539)]])
           (hma_two {[59 := 65537; 117 := 1]}) (server_with [42; 100] 0 0)).
  - simpl. unfold HMA_CLIENT_SLOTS. lia.
  - intros k Hk Hnf.
    destruct (decide (k = 59)) as [->|H59].
    { exists 0%nat, 42. split_and!; [simpl; lia | reflexivity | reflexivity]. }
    destruct (decide (k = 117)) as [->|H117].
    { exists 1%nat, 100. split_and!; [simpl; lia | reflexivity | reflexivity]. }
    exfalso. apply Hnf. simpl. unfold word.
    rewrite lookup_insert_ne, lookup_singleton_ne by done.
    split; [reflexivity | discriminate].
Defined.

(** Client 1 asks for a blocking write lock on page 100, on which the local
    client 0 holds SHARED: RESERVED is installed (word 1 becomes 131073) and
    the conflict cannot be overcome.  While client 1 takes RESERVED back,
    client 2 takes SHARED on the page (word 131077), so that the first
    compare-and-swap fails and the second leaves the readers 0 and 2. *)
Lemma sqlite3ServerLock_failure_rolls_back_witness :
  ∃ e' h' p',
    sqlite3ServerLock 2 (env_with_peers [[]; []; []; [(117, 131077)]])
      (hma_two {[117 := 1]}) (server_fresh 1) 100 true true
      = Some (e', h', p', SQLITE_BUSY_DEADLOCK)
    ∧ e_trace e' =
        [EvAlloc 512; EvCas 117 1 131073;
         EvLog SQLITE_BUSY_DEADLOCK "Conflict at page %d" (ArgInt 100);
         EvCas 117 131073 1; EvCas 117 131077 5]
    ∧ word (aMap h') 117 = 5
    ∧ ((∀ k, is_page_slot k →
             contribution (iClient (server_fresh 1)) (word (aMap h') k)
             = contribution (iClient (server_fresh 1))
                 (word (aMap (hma_two {[117 := 1]})) k))
       ∧ (¬ holds_write (iClient (server_fresh 1))
              (word (aMap (hma_two {[117 := 1]})) (serverPageLockSlot 100)) →
          ¬ holds_write (iClient (server_fresh 1))
              (word (aMap h') (serverPageLockSlot 100)))
       ∧ (¬ holds_shared (iClient (server_fresh 1))
              (word (aMap (hma_two {[117 := 1]})) (serverPageLockSlot 100)) →
          ¬ holds_shared (iClient (server_fresh 1))
              (word (aMap h') (serverPageLockSlot 100)))).
Proof.
  eexists _, _, _. split; [vm_compute; reflexivity|]. split; [vm_compute; reflexivity|].
  split; [vm_compute; reflexivity|].
  refine (sqlite3ServerLock_failure_rolls_back 2
            (env_with_peers [[]; []; []; [(117, 131077)]]) (hma_two {[117 := 1]})
            (server_fresh 1) 100 true true _ _ _ _ _ _ _ _).
  - simpl. unfold HMA_CLIENT_SLOTS. lia.
  - split; vm_compute; discriminate.
  - vm_compute. reflexivity.
  - discriminate.
Defined.

(** Client 0 holds SHARED on page 42 and asks for it again, while client 1
    takes SHARED on the same page; and client 0 asks twice in a row on a
    mapping of zeros. *)
Lemma sqlite3ServerLock_shared_again_witness :
  (∃ e' h' p' r,
      sqlite3ServerLock 0 (env_with_peers [[(59, 3)]]) (hma_two {[59 := 1]})
        (server_with [42] 0 0) 42 false true = Some (e', h', p', r)
      ∧ (grow_succeeds (env_with_peers [[(59, 3)]]) (server_with [42] 0 0) →
           r = SQLITE_OK
           ∧ h' = hma_set_aMap (hma_two {[59 := 1]})
                    (peers_next (iClient (server_with [42] 0 0))
                       (env_with_peers [[(59, 3)]]) (aMap (hma_two {[59 := 1]}))))
      ∧ (¬ grow_succeeds (env_with_peers [[(59, 3)]]) (server_with [42] 0 0) →
           r = SQLITE_NOMEM ∧ h' = hma_two {[59 := 1]})
      ∧ holds_shared (iClient (server_with [42] 0 0))
          (word (aMap h') (serverPageLockSlot 42))
      ∧ nLock p' = nLock (server_with [42] 0 0)
      ∧ (∀ j x, aLock (server_with [42] 0 0) !! j = Some x → aLock p' !! j = Some x))
  ∧ (∃ e1 h1 p1 e2 h2 p2 r2,
      sqlite3ServerLock 1 env0 (hma_two ∅) (server_fresh 0) 42 false false
        = Some (e1, h1, p1, SQLITE_OK)
      ∧ sqlite3ServerLock 0 e1 h1 p1 42 false true = Some (e2, h2, p2, r2)
      ∧ (grow_succeeds e1 p1 →
           r2 = SQLITE_OK
           ∧ h2 = hma_set_aMap h1 (peers_next (iClient p1) e1 (aMap h1)))
      ∧ (¬ grow_succeeds e1 p1 → r2 = SQLITE_NOMEM ∧ h2 = h1)
      ∧ holds_shared (iClient p1) (word (aMap h2) (serverPageLockSlot 42))
      ∧ nLock p2 = nLock p1
      ∧ (∀ j x, aLock p1 !! j = Some x → aLock p2 !! j = Some x)).
Proof.
  split.
  - apply (sqlite3ServerLock_shared_again 0 (env_with_peers [[(59, 3)]])
             (hma_two {[59 := 1]}) (server_with [42] 0 0) 42 true);
      [simpl; lia | reflexivity].
  - destruct (sqlite3ServerLock 1 env0 (hma_two ∅) (server_fresh 0) 42 false false)
      as [[[[e1 h1] p1] r1]|] eqn:Hfirst; [|vm_compute in Hfirst; discriminate].
    assert (r1 = SQLITE_OK) as -> by (vm_compute in Hfirst; congruence).
    destruct (proj2 (sqlite3ServerLock_shared_again 0 env0 (hma_two ∅) (server_fresh 0)
                       42 true ltac:(simpl; lia)) 1%nat false e1 h1 p1 Hfirst)
      as (e2 & h2 & p2 & r2 & Hsecond).
    by exists e1, h1, p1, e2, h2, p2, r2.
Defined.

(** Client 1 asks without blocking for a write lock on page 100, on which the
    local client 0 holds SHARED. *)
Lemma sqlite3ServerLock_local_peer_deadlock_witness :
  (∀ (fuel' : nat) (e0 : Env) (bBlock : bool),
     serverOvercomeLock fuel' e0 (hma_two {[117 := 1]}) (server_fresh 1) true bBlock
       1 false
     = Some (e0, hma_two {[117 := 1]}, SQLITE_OK, false))
  ∧ ∃ e' p',
      sqlite3ServerLock 1 env0 (hma_two {[117 := 1]}) (server_fresh 1) 100 true false
        = Some (e', hma_set_aMap (hma_two {[117 := 1]})
                      (peers_next (iClient (server_fresh 1)) env0
                         (aMap (hma_two {[117 := 1]}))),
                p', SQLITE_BUSY_DEADLOCK)
      ∧ EvLog SQLITE_BUSY_DEADLOCK "Conflict at page %d" (ArgInt 100) ∈ e_trace e'.
Proof.
  destruct (sqlite3ServerLock_local_peer_deadlock 0 env0 (hma_two {[117 := 1]})
              (server_fresh 1) 100 true 1) as (Hov & _ & Hlock).
  - reflexivity.
  - vm_compute. discriminate.
  - split; [exact Hov|]. apply Hlock.
    + right. simpl. lia.
    + reflexivity.
    + reflexivity.
Defined.

(** The same refused request: page 100 is in the history afterwards, and
    sqlite3ServerEnd makes a compare-and-swap on its slot. *)
Lemma sqlite3ServerLock_failed_page_stays_recorded_witness :
  ∃ e' h' p',
    sqlite3ServerLock 1 env0 (hma_two {[117 := 1]}) (server_fresh 1) 100 true false
      = Some (e', h', p', SQLITE_BUSY_DEADLOCK)
    ∧ (nLock p' = nLock (server_fresh 1) + 1
       ∧ aLock p' !! Z.to_nat (nLock (server_fresh 1)) = Some 100
       ∧ (∀ fuel2, (length (e_peers e') < fuel2)%nat →
            ∃ e2 h2 p2 r2 t v n,
              sqlite3ServerEnd fuel2 e' h' p' = Some (e2, h2, p2, r2)
              ∧ e_trace e2 = e_trace e' ++ t
              ∧ EvCas (serverPageLockSlot 100) v n ∈ t)
       ∧ (iClient (server_fresh 1) < HMA_CLIENT_SLOTS →
          word_ok (word (aMap (hma_two {[117 := 1]})) (serverPageLockSlot 100)) →
          contribution (iClient (server_fresh 1)) (word (aMap h') (serverPageLockSlot 100))
          = contribution (iClient (server_fresh 1))
              (word (aMap (hma_two {[117 := 1]})) (serverPageLockSlot 100)))).
Proof.
  eexists _, _, _. split; [vm_compute; reflexivity|].
  refine (sqlite3ServerLock_failed_page_stays_recorded 1 env0 (hma_two {[117 := 1]})
            (server_fresh 1) 100 true false _ _ _ _ _ _ _ _ _).
  - split; simpl; lia.
  - simpl. unfold HMA_CLIENT_SLOTS. lia.
  - right. simpl. lia.
  - vm_compute. reflexivity.
  - discriminate.
Defined.

(** ** Two scenarios of section 8 of the specification *)

(** "Two readers": clients 0 and 1 take SHARED on page 42, the slot word is
    [0b011]; after both have ended it is 0 again. *)
Example scenario_two_readers :
  ∃ e1 h1 pA e2 h2 pB e3 h3 pA' rA e4 h4 pB' rB,
    sqlite3ServerLock 1 env0 (hma_two ∅) (server_fresh 0) 42 false false
      = Some (e1, h1, pA, SQLITE_OK)
    ∧ sqlite3ServerLock 1 e1 h1 (server_fresh 1) 42 false false
      = Some (e2, h2, pB, SQLITE_OK)
    ∧ word (aMap h2) (serverPageLockSlot 42) = 3
    ∧ sqlite3ServerEnd 1 e2 h2 pA = Some (e3, h3, pA', rA)
    ∧ sqlite3ServerEnd 1 e3 h3 pB = Some (e4, h4, pB', rB)
    ∧ word (aMap h4) (serverPageLockSlot 42) = 0.
Proof.
  eexists _, _, _, _, _, _, _, _, _, _, _, _, _, _.
  split; [vm_compute; reflexivity|]. split; [vm_compute; reflexivity|].
  split; [vm_compute; reflexivity|]. split; [vm_compute; reflexivity|].
  split; vm_compute; reflexivity.
Qed.

(** "Write excludes read": client 0 holds SHARED on page 100; client 1's
    non-blocking write request is refused with BUSY_DEADLOCK; after client 0
    has ended, the request succeeds and the slot word is [(2 << 16) | 0b010]. *)
Example scenario_write_excludes_read :
  ∃ e1 h1 pA e2 h2 pB e3 h3 pA' rA e4 h4 pB',
    sqlite3ServerLock 1 env0 (hma_two ∅) (server_fresh 0) 100 false false
      = Some (e1, h1, pA, SQLITE_OK)
    ∧ sqlite3ServerLock 1 e1 h1 (server_fresh 1) 100 true false
      = Some (e2, h2, pB, SQLITE_BUSY_DEADLOCK)
    ∧ sqlite3ServerEnd 1 e2 h2 pA = Some (e3, h3, pA', rA)
    ∧ sqlite3ServerLock 1 e3 h3 pB 100 true false = Some (e4, h4, pB', SQLITE_OK)
    ∧ word (aMap h4) (serverPageLockSlot 100)
      = Z.lor (Z.shiftl 2 HMA_CLIENT_SLOTS) 2.
Proof.
  eexists _, _, _, _, _, _, _, _, _, _, _, _, _.
  split; [vm_compute; reflexivity|]. split; [vm_compute; reflexivity|].
  split; [vm_compute; reflexivity|]. split; vm_compute; reflexivity.
Qed.

(** A store between read and swap: client 0 ends its transaction with SHARED
    and the write field on page 42; after it has read the slot word 65537,
    client 1 sets its reader bit (word 65539).  The first compare-and-swap
    fails, the second clears what client 0 had and leaves the bit of client
    1. *)
Example scenario_store_between_read_and_swap :
  ∃ e' h' p' r,
    sqlite3ServerEnd 2 (env_with_peers [[]; [(59, 65539)]]) (hma_two {[59 := 65537]})
      (server_with [42] 0 0) = Some (e', h', p', r)
    ∧ filter (λ ev, negb (is_fcntl ev) = true) (e_trace e')
      = [EvCas 59 65537 0; EvCas 59 65539 2]
    ∧ word (aMap h') (serverPageLockSlot 42) = 2.
Proof.
  eexists _, _, _, _.
  split; [vm_compute; reflexivity|]. split; vm_compute; reflexivity.
Qed.

(** A store that would take the caller's own reader bit away is outside what
    the other clients do, and does not reach the mapping. *)
Example peer_store_respects_caller :
  peer_store 0 {[59 := 1]} (59, 2) = {[59 := 1]}
  ∧ peer_store 0 {[59 := 1]} (59, 3) = {[59 := 3]}.
Proof. split; vm_compute; reflexivity. Qed.

(** * Further properties of the code *)

(** ** The layout of the mapping *)

(** The word of a page is one of the [HMA_PAGELOCK_SLOTS] page-lock words; it
    lies inside the [HMA_FILE_SIZE] bytes that are mapped and is none of the
    words of the clients 0..15.  Two pages have the same word when they differ
    by a multiple of [HMA_PAGELOCK_SLOTS] (so what sqlite3ServerHasLock
    answers for the one it answers for the other), and only then. *)
Theorem serverPageLockSlot_layout (pgno : Z) :
  is_page_slot (serverPageLockSlot pgno)
  ∧ 4 * serverPageLockSlot pgno + 4 <= HMA_FILE_SIZE
  ∧ (∀ i, 0 <= i < HMA_CLIENT_SLOTS →
          1 <= serverClientSlot i <= HMA_CLIENT_SLOTS
          ∧ serverClientSlot i ≠ serverPageLockSlot pgno)
  ∧ (∀ n, serverPageLockSlot (pgno + n * HMA_PAGELOCK_SLOTS) = serverPageLockSlot pgno)
  ∧ (∀ (n : Z) (h : ServerHMA) (p : Server) (bWrite : bool),
       sqlite3ServerHasLock h p (pgno + n * HMA_PAGELOCK_SLOTS) bWrite
       = sqlite3ServerHasLock h p pgno bWrite)
  ∧ (∀ pgno', serverPageLockSlot pgno' = serverPageLockSlot pgno →
              ∃ n, pgno' = pgno + n * HMA_PAGELOCK_SLOTS).
Proof.
  pose proof (serverPageLockSlot_is_page_slot pgno) as Hslot.
  assert (∀ n, serverPageLockSlot (pgno + n * HMA_PAGELOCK_SLOTS)
               = serverPageLockSlot pgno) as Hper.
  { intros n. unfold serverPageLockSlot. cbv zeta. by rewrite Z.mod_add. }
  split_and!.
  - done.
  - unfold is_page_slot, HMA_FILE_SIZE, HMA_CLIENT_SLOTS, HMA_PAGELOCK_SLOTS in *. lia.
  - intros i Hi. unfold serverClientSlot.
    unfold is_page_slot, HMA_CLIENT_SLOTS in *. lia.
  - done.
  - intros n h p bWrite. unfold sqlite3ServerHasLock. by rewrite Hper.
  - intros pgno' Heq. unfold serverPageLockSlot in Heq. cbv zeta in Heq.
    exists (pgno' / HMA_PAGELOCK_SLOTS - pgno / HMA_PAGELOCK_SLOTS).
    pose proof (Z.div_mod pgno HMA_PAGELOCK_SLOTS ltac:(done)) as H1.
    pose proof (Z.div_mod pgno' HMA_PAGELOCK_SLOTS ltac:(done)) as H2.
    lia.
Qed.

(** ** Which locks stand in the way of a request *)

Lemma serverConflict_writer (i v : Z) :
  (0 <=? serverWriteLocker v) && negb (serverWriteLocker v =? i) = true
  ↔ ∃ j, 0 <= j ∧ j ≠ i ∧ holds_write j v.
Proof.
  unfold serverWriteLocker, holds_write.
  rewrite andb_true_iff, negb_true_iff, Z.leb_le, Z.eqb_neq. split.
  - intros [H0 Hne]. exists (Z.shiftr v HMA_CLIENT_SLOTS - 1). lia.
  - intros (j & Hj & Hne & ->). lia.
Qed.

Lemma serverConflict_readers (i v : Z) :
  0 <= i →
  negb (Z.land v (Z.land (Z.shiftl 1 HMA_CLIENT_SLOTS - 1)
                    (Z.lnot (Z.shiftl 1 i))) =? 0) = true
  ↔ ∃ j, 0 <= j < HMA_CLIENT_SLOTS ∧ j ≠ i ∧ holds_shared j v.
Proof.
  intros Hi.
  rewrite negb_true_iff, Z.eqb_neq, ones_client_slots. unfold holds_shared.
  unfold HMA_CLIENT_SLOTS. split.
  - intros Hne.
    pose proof (serverFindReader_spec 16 0 i v ltac:(lia)) as (Hr & Hfound & Hnone).
    cbv zeta in *. set (r := serverFindReader 16 0 i v) in *.
    destruct (Z.eq_dec r 16) as [H16|H16].
    + exfalso. apply Hne. apply Z.bits_inj'. intros j Hj.
      rewrite Z.bits_0, !Z.land_spec, Z.lnot_spec, testbit_pow2 by lia.
      destruct (Z_lt_ge_dec j 16) as [Hlt|Hge].
      * destruct (Z.eqb_spec i j) as [->|Hij].
        -- simpl. by rewrite !andb_false_r.
        -- rewrite (Hnone H16 j) by lia. done.
      * rewrite Z.ones_spec_high by lia. simpl. by rewrite andb_false_r.
    + exists r. destruct Hfound as [Hri Hbit]; [lia|]. split_and!; [lia | lia | done | done].
  - intros (j & Hj & Hne & Hbit) H0.
    assert (Z.testbit (Z.land v (Z.land (Z.ones 16) (Z.lnot (Z.shiftl 1 i)))) j = true)
      as Ht.
    { rewrite !Z.land_spec, Z.lnot_spec, testbit_pow2, Hbit by lia.
      rewrite Z.ones_spec_low by lia.
      destruct (Z.eqb_spec i j); [lia | done]. }
    rewrite H0, Z.bits_0 in Ht. done.
Qed.

Lemma serverConflict_iff (i v : Z) :
  0 <= i →
  (serverConflict i false v = true ↔ ∃ j, 0 <= j ∧ j ≠ i ∧ holds_write j v)
  ∧ (serverConflict i true v = true ↔
       (∃ j, 0 <= j ∧ j ≠ i ∧ holds_write j v)
       ∨ (∃ j, 0 <= j < HMA_CLIENT_SLOTS ∧ j ≠ i ∧ holds_shared j v)).
Proof.
  intros Hi. unfold serverConflict. split.
  - rewrite Z.land_0_r. cbn [Z.eqb negb]. rewrite orb_false_r.
    apply serverConflict_writer.
  - by rewrite orb_true_iff, serverConflict_writer, serverConflict_readers.
Qed.

(** The test of the inner loop of sqlite3ServerLock.  A read request is held
    up exactly by another client in the write field; a write request is held
    up by that, and by the reader bit of any of the clients 0..15 other than
    the caller. *)
Theorem serverConflict_spec (i v : Z) :
  0 <= i →
  (serverConflict i false v = true ↔ ∃ j, 0 <= j ∧ j ≠ i ∧ holds_write j v)
  ∧ (serverConflict i true v = true ↔
       (∃ j, 0 <= j ∧ j ≠ i ∧ holds_write j v)
       ∨ (∃ j, 0 <= j < HMA_CLIENT_SLOTS ∧ j ≠ i ∧ holds_shared j v)).
Proof.
  intros Hi.
  pose proof (serverConflict_writer i v) as Hw.
  pose proof (serverConflict_readers i v Hi) as Hr.
  unfold serverConflict. split.
  - (* a read request: the mask is 0 *)
    rewrite Z.land_0_r. cbn [Z.eqb negb]. rewrite orb_false_r. exact Hw.
  - (* a write request: the mask has the reader bits of the others *)
    rewrite orb_true_iff. split.
    + intros [H|H]; [left; by apply Hw | right; by apply Hr].
    + intros [H|H]; [left; by apply Hw | right; by apply Hr].
Qed.

Lemma serverConflict_spec_witness :
  (serverConflict 1 false 65537 = true ↔ ∃ j, 0 <= j ∧ j ≠ 1 ∧ holds_write j 65537)
  ∧ (serverConflict 1 true 65537 = true ↔
       (∃ j, 0 <= j ∧ j ≠ 1 ∧ holds_write j 65537)
       ∨ (∃ j, 0 <= j < HMA_CLIENT_SLOTS ∧ j ≠ 1 ∧ holds_shared j 65537)).
Proof. apply (serverConflict_spec 1 65537). lia. Defined.

(** ** The lock-history buffer *)

Lemma serverLockGrow_buffer (e : Env) (p : Server) :
  buffer_ok p →
  let '(e1, p1, r1) := serverLockGrow e p in
  buffer_ok p1
  ∧ (nAlloc p1 = nAlloc p
     ∨ (nLock p = nAlloc p
        ∧ nAlloc p1 = if nAlloc p =? 0 then 128 else 2 * nAlloc p))
  ∧ nLock p1 = nLock p
  ∧ (r1 = SQLITE_OK → nLock p1 < nAlloc p1)
  ∧ (r1 ≠ SQLITE_OK → p1 = p)
  ∧ (∀ j x, aLock p !! j = Some x → aLock p1 !! j = Some x).
Proof.
  intros [Hn Hlen]. unfold serverLockGrow, sqlite3_realloc, sqlite3_malloc, buffer_ok.
  destruct (Z.eqb_spec (nLock p) (nAlloc p)) as [Hfull|Hroom].
  - destruct (Z.eqb_spec (hd 4096 (e_alloc e)) 0) as [Hnull|Hptr].
    + simpl. split_and!; auto; try lia. done.
    + cbn [nAlloc nLock aLock server_set_lock].
      rewrite length_app, length_replicate.
      destruct (Z.eqb_spec (nAlloc p) 0) as [H0|H0]; cbn [negb];
        (split; [split; lia|]; split; [right; split; [done | lia]|];
         split; [done|]; split; [lia|]; split; [done|];
         intros j x Hj; by apply lookup_app_l_Some).
  - simpl. split_and!; auto; try lia.
Qed.

(** The buffer of the lock-history stays as the code expects it across
    sqlite3ServerLock: [nAlloc] entries of which the first [nLock] are in
    use.  A call appends at most one entry, and that entry is the page; the
    entries already there stay; the buffer only grows, from nothing to 128
    entries and then by doubling, and only when it is full. *)
Theorem sqlite3ServerLock_keeps_buffer (fuel : nat) (e : Env) (h : ServerHMA)
    (p : Server) (pgno : Z) (bWrite bBlock : bool)
    (e' : Env) (h' : ServerHMA) (p' : Server) (r : rc) :
  buffer_ok p →
  sqlite3ServerLock fuel e h p pgno bWrite bBlock = Some (e', h', p', r) →
  buffer_ok p'
  ∧ (nAlloc p' = nAlloc p
     ∨ (nLock p = nAlloc p
        ∧ nAlloc p' = if nAlloc p =? 0 then 128 else 2 * nAlloc p))
  ∧ (nLock p' = nLock p
     ∨ (nLock p' = nLock p + 1 ∧ aLock p' !! Z.to_nat (nLock p) = Some pgno))
  ∧ (∀ j x, (j < Z.to_nat (nLock p))%nat →
            aLock p !! j = Some x → aLock p' !! j = Some x).
Proof.
  intros Hbuf Hrun. unfold sqlite3ServerLock in Hrun.
  pose proof (serverLockGrow_buffer e p Hbuf) as Hg.
  destruct (serverLockGrow e p) as [[e1 p1] r1].
  destruct Hg as ([Hn1 Hlen1] & Hgrow & Hnl & Hroom & Hsame & Hent).
  cbv zeta in Hrun.
  assert (∀ (e0 : Env) (h0 : ServerHMA) (r0 : rc) (bR : bool),
            server_lock_out fuel e0 h0 p1 pgno r0 bR = Some (e', h', p', r) →
            buffer_ok p'
            ∧ (nAlloc p' = nAlloc p
               ∨ (nLock p = nAlloc p
                  ∧ nAlloc p' = if nAlloc p =? 0 then 128 else 2 * nAlloc p))
            ∧ (nLock p' = nLock p
               ∨ (nLock p' = nLock p + 1 ∧ aLock p' !! Z.to_nat (nLock p) = Some pgno))
            ∧ (∀ j x, (j < Z.to_nat (nLock p))%nat →
                      aLock p !! j = Some x → aLock p' !! j = Some x)) as Hsameout.
  { intros e0 h0 r0 bR Ho.
    apply server_lock_out_spec in Ho as (_ & _ & Hn & Hal & Ha & _).
    unfold buffer_ok. rewrite Hn, Hal, Ha. split_and!; auto; lia. }
  case_bool_decide as Hok; [|by eapply Hsameout].
  destruct (read_word (iClient p1) e1 (aMap h) (serverPageLockSlot pgno))
    as [[e0 m0] v0].
  destruct (serverLockHeld _ _ _); [by eapply Hsameout|].
  destruct (serverLockLoop _ _ _ _ _ _ _ _ _) as [[[[e2 h2] r2] bR]|]; [|done].
  apply server_lock_out_spec in Hrun as (_ & _ & Hn & Hal & Ha & _).
  cbn [nLock nAlloc aLock server_set_lock] in Hn, Hal, Ha.
  specialize (Hroom Hok).
  unfold buffer_ok. rewrite Hn, Hal, Ha, length_insert. split_and!.
  - lia.
  - lia.
  - done.
  - done.
  - right. split; [lia|]. rewrite <- Hnl. apply list_lookup_insert_eq. lia.
  - intros j x Hj Hx. rewrite list_lookup_insert_ne by lia. by apply Hent.
Qed.

Lemma sqlite3ServerLock_keeps_buffer_witness :
  ∃ e' h' p',
    sqlite3ServerLock 1 env0 (hma_two ∅) (server_with pages_1_128 0 0) 200 false false
      = Some (e', h', p', SQLITE_OK)
    ∧ nAlloc p' = 256 ∧ nLock p' = 129
    ∧ (buffer_ok p'
       ∧ (nAlloc p' = nAlloc (server_with pages_1_128 0 0)
          ∨ (nLock (server_with pages_1_128 0 0) = nAlloc (server_with pages_1_128 0 0)
             ∧ nAlloc p' = if nAlloc (server_with pages_1_128 0 0) =? 0 then 128
                           else 2 * nAlloc (server_with pages_1_128 0 0)))
       ∧ (nLock p' = nLock (server_with pages_1_128 0 0)
          ∨ (nLock p' = nLock (server_with pages_1_128 0 0) + 1
             ∧ aLock p' !! Z.to_nat (nLock (server_with pages_1_128 0 0)) = Some 200))
       ∧ (∀ j x, (j < Z.to_nat (nLock (server_with pages_1_128 0 0)))%nat →
                 aLock (server_with pages_1_128 0 0) !! j = Some x →
                 aLock p' !! j = Some x)).
Proof.
  eexists _, _, _. split; [vm_compute; reflexivity|].
  split; [reflexivity|]. split; [reflexivity|].
  refine (sqlite3ServerLock_keeps_buffer 1 env0 (hma_two ∅) (server_with pages_1_128 0 0)
            200 false false _ _ _ _ _ _).
  - split; vm_compute; [split; discriminate | reflexivity].
  - vm_compute. reflexivity.
Defined.

(** ** sqlite3ServerEnd, seen from the call that has returned *)

(** sqlite3ServerEnd and serverRollbackClient compute the same word. *)
Lemma serverEndWord_rollback (i v : Z) : serverEndWord i v = serverRollbackWord i v.
Proof.
  unfold serverEndWord, serverRollbackWord.
  destruct (Z.shiftr v HMA_CLIENT_SLOTS =? i + 1); [|done].
  rewrite <- !Z.land_assoc. f_equal. apply Z.land_comm.
Qed.

Lemma serverEndWord_idem (i v : Z) :
  0 <= i <= HMA_CLIENT_SLOTS → serverEndWord i (serverEndWord i v) = serverEndWord i v.
Proof.
  intros Hi. destruct (serverEndWord_free i v Hi) as [Hbit Hf].
  set (w := serverEndWord i v) in *. unfold serverEndWord at 1.
  apply Z.eqb_neq in Hf. rewrite Hf.
  apply Z.bits_inj'. intros j Hj. rewrite testbit_clear by lia.
  destruct (Z.eqb_spec i j) as [->|Hne]; [by rewrite Hbit | apply andb_true_r].
Qed.

Lemma land_le (n m : Z) : 0 <= n → 0 <= Z.land n m <= n.
Proof.
  intros Hn. apply Z.ldiff_le; [done|]. apply Z.bits_inj'. intros j Hj.
  rewrite Z.ldiff_spec, Z.land_spec, Z.bits_0.
  by destruct (Z.testbit n j), (Z.testbit m j).
Qed.

Lemma serverEndWord_ok (i v : Z) :
  0 <= i <= HMA_CLIENT_SLOTS → word_ok v → word_ok (serverEndWord i v).
Proof.
  intros Hi [Hv Hf]. unfold word_ok, serverEndWord.
  set (n := if Z.shiftr v HMA_CLIENT_SLOTS =? i + 1
            then Z.land v (Z.shiftl 1 HMA_CLIENT_SLOTS - 1) else v).
  assert (0 <= n ∧ Z.shiftr n HMA_CLIENT_SLOTS <= HMA_CLIENT_SLOTS) as [Hn Hnf].
  { subst n. destruct (_ =? _); [|done]. rewrite shiftr_low_half. split.
    - apply Z.land_nonneg. by left.
    - unfold HMA_CLIENT_SLOTS. lia. }
  destruct (land_le n (Z.lnot (Z.shiftl 1 i)) Hn) as [Hnn Hle].
  split; [done|].
  etrans; [|exact Hnf]. unfold HMA_CLIENT_SLOTS.
  rewrite !Z.shiftr_div_pow2 by lia. apply Z.div_le_mono; lia.
Qed.

Lemma serverEndWord_keeps_other (i j v : Z) :
  0 <= i < HMA_CLIENT_SLOTS → 0 <= j < HMA_CLIENT_SLOTS → j ≠ i →
  contribution j (serverEndWord i v) = contribution j v.
Proof.
  intros Hi Hj Hne. rewrite serverEndWord_rollback.
  by destruct (serverRollbackWord_keeps j i v Hj Hi ltac:(done)).
Qed.

(** The loop around the compare-and-swap of sqlite3ServerEnd ends with the
    swap that stores the word computed from the word found. *)
Lemma serverEndSlot_run (i k : Z) (fuel : nat) :
  0 <= i →
  ∀ (e : Env) (m : gmap Z Z) (e' : Env) (m' : gmap Z Z),
    serverEndSlot fuel e m i k = Some (e', m') →
    ∃ m1, mem_keeps i m m1
          ∧ (e_peers e = [] → m1 = m ∧ e_peers e' = [])
          ∧ m' = <[k := serverEndWord i (word m1 k)]> m1.
Proof.
  intros Hi. induction fuel as [|fuel IH]; intros e m e' m' Hrun; [done|].
  cbn [serverEndSlot] in Hrun.
  destruct (read_word_spec i e m k) as (e0 & Hread & Hp0 & _).
  rewrite Hread in Hrun. clear Hread.
  pose proof (peers_next_keeps i e m Hi) as Hk0.
  set (m0 := peers_next i e m) in *.
  destruct (cas_spec i e0 m0 k (word m0 k) (serverEndWord i (word m0 k)))
    as (e1 & Hcas & Hp1 & _).
  rewrite Hcas in Hrun. clear Hcas.
  pose proof (peers_next_keeps i e0 m0 Hi) as Hk1.
  set (m1 := peers_next i e0 m0) in *.
  assert (e_peers e = [] → m1 = m ∧ e_peers e1 = []) as Hquiet.
  { intros Hq. rewrite Hq in Hp0. simpl in Hp0. rewrite Hp0 in Hp1. simpl in Hp1.
    split; [|done]. subst m1 m0.
    by rewrite (peers_next_quiet i e0), (peers_next_quiet i e). }
  destruct (Z.eqb_spec (word m1 k) (word m0 k)) as [Heq|Hneq].
  - inversion Hrun; subst e' m'. exists m1. split_and!.
    + by eapply mem_keeps_trans.
    + done.
    + by rewrite Heq.
  - apply IH in Hrun as (m2 & Hk2 & Hq2 & Hm'). exists m2. split_and!.
    + eapply mem_keeps_trans; [|exact Hk2]. by eapply mem_keeps_trans.
    + intros Hq. destruct (Hquiet Hq) as [Hm1 Hp]. destruct (Hq2 Hp) as [Hm2 Hp'].
      split; [congruence | done].
    + done.
Qed.

Lemma range_find (f : Z → Z) (k i0 : Z) (cnt : nat) :
  (∃ j, i0 <= j < i0 + Z.of_nat cnt ∧ f j = k)
  ∨ (∀ j, i0 <= j < i0 + Z.of_nat cnt → f j ≠ k).
Proof.
  induction cnt as [|cnt [(j & Hj & Hk)|Hnone]].
  - right. intros j Hj. lia.
  - left. exists j. split; [lia | done].
  - destruct (Z.eq_dec (f (i0 + Z.of_nat cnt)) k) as [Heq|Hne].
    + left. exists (i0 + Z.of_nat cnt). split; [lia | done].
    + right. intros j Hj.
      destruct (Z.eq_dec j (i0 + Z.of_nat cnt)) as [->|Hj']; [done|].
      apply Hnone. lia.
Qed.

Lemma serverEndWriterTime_frame (e : Env) (p : Server) :
  iClient (serverEndWriterTime e p).2 = iClient p
  ∧ aLock (serverEndWriterTime e p).2 = aLock p
  ∧ nLock (serverEndWriterTime e p).2 = nLock p
  ∧ nAlloc (serverEndWriterTime e p).2 = nAlloc p
  ∧ aLockAddr (serverEndWriterTime e p).2 = aLockAddr p
  ∧ pHma (serverEndWriterTime e p).2 = pHma p
  ∧ pPager (serverEndWriterTime e p).2 = pPager p
  ∧ e_peers (serverEndWriterTime e p).1 = e_peers e.
Proof.
  unfold serverEndWriterTime, gettimeofday. destruct (hd (0, 0) (e_time e)) as [s u].
  by case_match.
Qed.

(** The loop of sqlite3ServerEnd over the entries [i0 .. i0+cnt-1] of the
    history. *)
Lemma serverEndLocks_run (cnt : nat) :
  ∀ (fuel : nat) (e : Env) (h : ServerHMA) (p : Server) (i0 : Z)
    (e' : Env) (h' : ServerHMA) (p' : Server),
    0 <= i0 → 0 <= iClient p <= HMA_CLIENT_SLOTS →
    serverEndLocks cnt fuel e h p i0 = Some (e', h', p') →
    h' = hma_set_aMap h (aMap h')
    ∧ iClient p' = iClient p ∧ aLock p' = aLock p ∧ nLock p' = nLock p
    ∧ nAlloc p' = nAlloc p ∧ aLockAddr p' = aLockAddr p
    ∧ pHma p' = pHma p ∧ pPager p' = pPager p
    ∧ (∀ k, is_page_slot k → word_ok (word (aMap h) k) → word_ok (word (aMap h') k))
    ∧ (e_peers e = [] →
       e_peers e' = []
       ∧ (∀ j, i0 <= j < i0 + Z.of_nat cnt →
               word (aMap h') (serverPageLockSlot (nth (Z.to_nat j) (aLock p) 0))
               = serverEndWord (iClient p)
                   (word (aMap h) (serverPageLockSlot (nth (Z.to_nat j) (aLock p) 0))))
       ∧ (∀ k, (∀ j, i0 <= j < i0 + Z.of_nat cnt →
                     serverPageLockSlot (nth (Z.to_nat j) (aLock p) 0) ≠ k) →
               word (aMap h') k = word (aMap h) k)).
Proof.
  induction cnt as [|cnt IH]; intros fuel e h p i0 e' h' p' Hi0 Hi Hrun.
  - inversion Hrun; subst e' h' p'. split_and!; auto.
    + by destruct h.
    + intros Hq. split_and!; auto. intros j Hj. lia.
  - cbn [serverEndLocks] in Hrun.
    set (pgno := nth (Z.to_nat i0) (aLock p) 0) in *.
    set (k0 := serverPageLockSlot pgno) in *.
    destruct (serverEndSlot fuel e (aMap h) (iClient p) k0) as [[e1 m1']|] eqn:Hslot;
      [|done].
    apply serverEndSlot_run in Hslot as (m1 & Hk1 & Hq1 & Hm1'); [|lia].
    pose proof (serverEndWriterTime_frame e1 p) as Hwt.
    destruct (if pgno =? 0 then serverEndWriterTime e1 p else (e1, p)) as [e2 p2] eqn:Hstep.
    assert (iClient p2 = iClient p ∧ aLock p2 = aLock p ∧ nLock p2 = nLock p
            ∧ nAlloc p2 = nAlloc p ∧ aLockAddr p2 = aLockAddr p
            ∧ pHma p2 = pHma p ∧ pPager p2 = pPager p
            ∧ e_peers e2 = e_peers e1) as (Hc2 & Ha2 & Hn2 & Hal2 & Had2 & Hh2 & Hpp2 & Hp2).
    { destruct (pgno =? 0).
      - rewrite Hstep in Hwt. exact Hwt.
      - by inversion Hstep; subst. }
    apply IH in Hrun as (Hh' & Hc & Ha & Hn & Hal & Had & Hph & Hpp & Hok & Hq);
      [|lia|by rewrite Hc2].
    cbn [aMap hma_set_aMap] in Hok, Hq.
    rewrite Hc2 in *. rewrite Ha2 in *.
    split_and!; try congruence.
    + rewrite Hh'. by destruct h.
    + intros k Hk Hwok. apply Hok; [done|]. subst m1'.
      destruct (Z.eq_dec k0 k) as [<-|Hne].
      * rewrite word_insert_eq. apply serverEndWord_ok; [done|].
        by apply (Hk1 k0 Hk).
      * rewrite word_insert_ne by done. by apply (Hk1 k Hk).
    + intros Hquiet. destruct (Hq1 Hquiet) as [-> Hp1].
      destruct Hq as (Hp' & Hvis & Hnot); [congruence|].
      assert (∀ k, (∀ j, i0 + 1 <= j < i0 + 1 + Z.of_nat cnt →
                         serverPageLockSlot (nth (Z.to_nat j) (aLock p) 0) ≠ k) →
                   word (aMap h') k
                   = if bool_decide (k = k0)
                     then serverEndWord (iClient p) (word (aMap h) k0)
                     else word (aMap h) k) as Hnot'.
      { intros k Hk. rewrite (Hnot k Hk). subst m1'. case_bool_decide as Hkk.
        - subst k. by rewrite word_insert_eq.
        - by rewrite word_insert_ne. }
      split_and!; [done | |].
      * intros j Hj.
        destruct (Z.eq_dec j i0) as [->|Hne].
        -- fold pgno. fold k0.
           destruct (range_find (λ j', serverPageLockSlot (nth (Z.to_nat j') (aLock p) 0))
                       k0 (i0 + 1) cnt) as [(j' & Hj' & Hkj')|Hnone].
           ++ simpl in Hkj'. rewrite <- Hkj' at 1. rewrite (Hvis j' Hj'), Hkj'. subst m1'.
              rewrite word_insert_eq. apply serverEndWord_idem. done.
           ++ rewrite Hnot'; [by rewrite bool_decide_eq_true_2|]. exact Hnone.
        -- rewrite (Hvis j) by lia.
           set (kj := serverPageLockSlot (nth (Z.to_nat j) (aLock p) 0)). subst m1'.
           destruct (Z.eq_dec k0 kj) as [<-|Hkne].
           ++ rewrite word_insert_eq. apply serverEndWord_idem. done.
           ++ by rewrite word_insert_ne.
      * intros k Hk. rewrite Hnot'.
        -- rewrite bool_decide_eq_false_2; [done|]. intros ->.
           apply (Hk i0); [lia | done].
        -- intros j Hj. apply Hk. lia.
Qed.

Lemma posixLock_code (e : Env) (fd iSlot eLock : Z) (bBlock : bool) :
  (posixLock e fd iSlot eLock bBlock).2 =
    if (hd (0, ENONE) (e_fcntl e)).1 =? 0 then SQLITE_OK
    else if bBlock && bool_decide ((hd (0, ENONE) (e_fcntl e)).2 = EDEADLK)
         then SQLITE_BUSY_DEADLOCK
         else SQLITE_BUSY.
Proof.
  unfold posixLock, fcntl. destruct (hd (0, ENONE) (e_fcntl e)) as [res err]. simpl.
  destruct (res =? 0), bBlock, (bool_decide (err = EDEADLK)); reflexivity.
Qed.

Lemma posixLock_codes (e : Env) (fd iSlot eLock : Z) (bBlock : bool) :
  ((posixLock e fd iSlot eLock bBlock).2 = SQLITE_OK
   ∨ (posixLock e fd iSlot eLock bBlock).2 = SQLITE_BUSY
   ∨ (posixLock e fd iSlot eLock bBlock).2 = SQLITE_BUSY_DEADLOCK)
  ∧ (bBlock = false → (posixLock e fd iSlot eLock bBlock).2 ≠ SQLITE_BUSY_DEADLOCK).
Proof.
  rewrite posixLock_code. destruct (_ =? 0); [by auto|].
  destruct bBlock; [|by auto]. simpl. case_bool_decide; auto.
Qed.

Lemma posixLock_scripts (e : Env) (fd iSlot eLock : Z) (bBlock : bool) :
  e_fcntl (posixLock e fd iSlot eLock bBlock).1 = tl (e_fcntl e)
  ∧ e_peers (posixLock e fd iSlot eLock bBlock).1 = e_peers e
  ∧ e_pager (posixLock e fd iSlot eLock bBlock).1 = e_pager e
  ∧ e_alloc (posixLock e fd iSlot eLock bBlock).1 = e_alloc e.
Proof.
  unfold posixLock, fcntl. destruct (hd (0, ENONE) (e_fcntl e)) as [res err].
  by case_match.
Qed.

(** sqlite3ServerEnd keeps invariant I1: a page-lock word whose write field is
    at most 16 before the call is such a word after it, whatever the other
    clients store in between. *)
Theorem sqlite3ServerEnd_keeps_I1 (fuel : nat) (e : Env) (h : ServerHMA) (p : Server)
    (e' : Env) (h' : ServerHMA) (p' : Server) (r : rc) :
  0 <= iClient p <= HMA_CLIENT_SLOTS →
  sqlite3ServerEnd fuel e h p = Some (e', h', p', r) →
  ∀ k, is_page_slot k → word_ok (word (aMap h) k) → word_ok (word (aMap h') k).
Proof.
  intros Hi Hrun. unfold sqlite3ServerEnd in Hrun.
  destruct (serverEndLocks _ _ _ _ _ _) as [[[e1 h1] p1]|] eqn:Hloop; [|done].
  apply serverEndLocks_run in Hloop as (_ & _ & _ & _ & _ & _ & _ & _ & Hok & _);
    [|lia|done].
  destruct (posixLock e1 _ _ _ _) as [e2 r2]. by inversion Hrun; subst.
Qed.

Lemma sqlite3ServerEnd_keeps_I1_witness :
  ∃ e' h' p' r,
    sqlite3ServerEnd 3 (env_with_peers [[]; [(59, 65539)]])
      (hma_two {[59 := 65537; 117 := 1]}) (server_with [42; 100] 0 0)
    = Some (e', h', p', r)
    ∧ ∀ k, is_page_slot k →
           word_ok (word (aMap (hma_two {[59 := 65537; 117 := 1]})) k) →
           word_ok (word (aMap h') k).
Proof.
  eexists _, _, _, _. split; [vm_compute; reflexivity|].
  refine (sqlite3ServerEnd_keeps_I1 3 (env_with_peers [[]; [(59, 65539)]])
            (hma_two {[59 := 65537; 117 := 1]}) (server_with [42; 100] 0 0)
            _ _ _ _ _ _).
  - simpl. unfold HMA_CLIENT_SLOTS. lia.
  - vm_compute. reflexivity.
Defined.

(** What sqlite3ServerEnd returns and leaves behind.  Its code is that of its
    last step, the non-blocking request that turns the lock on the own client
    slot byte into a reader-lock: OK or BUSY, the page locks being released in
    either case.  The history is empty afterwards and its buffer is kept.  A
    second sqlite3ServerEnd makes that fcntl request again and nothing else:
    it does not touch the mapping. *)
Theorem sqlite3ServerEnd_result (fuel : nat) (e : Env) (h : ServerHMA) (p : Server)
    (e' : Env) (h' : ServerHMA) (p' : Server) (r : rc) :
  0 <= iClient p <= HMA_CLIENT_SLOTS →
  sqlite3ServerEnd fuel e h p = Some (e', h', p', r) →
  let unlock :=
    EvFcntl (fd h) F_SETLK
      {| l_type := Some F_RDLCK; l_whence := SEEK_SET;
         l_start := (iClient p + 1) * 4; l_len := 1 |} in
  (r = SQLITE_OK ∨ r = SQLITE_BUSY)
  ∧ (∃ t, e_trace e' = t ++ [unlock])
  ∧ nLock p' = 0 ∧ nAlloc p' = nAlloc p ∧ aLock p' = aLock p
  ∧ aLockAddr p' = aLockAddr p ∧ iClient p' = iClient p
  ∧ h' = hma_set_aMap h (aMap h')
  ∧ ∀ fuel2, ∃ e2 r2,
      sqlite3ServerEnd fuel2 e' h' p' = Some (e2, h', p', r2)
      ∧ e_trace e2 = e_trace e' ++ [unlock].
Proof.
  intros Hi Hrun unlock. unfold sqlite3ServerEnd in Hrun.
  destruct (serverEndLocks _ _ _ _ _ _) as [[[e1 h1] p1]|] eqn:Hloop; [|done].
  apply serverEndLocks_run in Hloop
    as (Hh1 & Hc & Ha & Hn & Hal & Had & _ & _ & _ & _); [|lia|done].
  cbn [iClient server_set_lock] in Hrun.
  pose proof (posixLock_code e1 (fd h1) (iClient p1 + 1) SERVER_READ_LOCK false) as Hcode.
  pose proof (posixLock_event e1 (fd h1) (iClient p1 + 1) SERVER_READ_LOCK false) as Hev.
  destruct (posixLock e1 (fd h1) (iClient p1 + 1) SERVER_READ_LOCK false) as [e2 r2].
  simpl in Hcode, Hev. inversion Hrun; subst e' h' p' r. clear Hrun.
  assert (fd h1 = fd h) as Hfd by (rewrite Hh1; done).
  rewrite Hfd, Hc in Hev. change (default None (aType !! Z.to_nat SERVER_READ_LOCK))
    with (Some F_RDLCK) in Hev. fold unlock in Hev.
  split_and!; try done.
  - rewrite Hcode. destruct (_ =? 0); auto.
  - by eexists.
  - intros fuel2. unfold sqlite3ServerEnd. cbn [nLock server_set_lock].
    change (Z.to_nat 0) with 0%nat.
    cbn [serverEndLocks iClient nAlloc aLockAddr aLock server_set_lock].
    pose proof (posixLock_event e2 (fd h1) (iClient p1 + 1) SERVER_READ_LOCK false) as Hev2.
    destruct (posixLock e2 (fd h1) (iClient p1 + 1) SERVER_READ_LOCK false) as [e3 r3].
    simpl in Hev2. exists e3, r3. split; [done|].
    rewrite Hfd, Hc in Hev2. exact Hev2.
Qed.

Lemma sqlite3ServerEnd_result_witness :
  ∃ e' h' p' r,
    sqlite3ServerEnd 1 (env_with_fcntl [(-1, EAGAIN)])
      (hma_two {[59 := 65537; 117 := 1]}) (server_with [42; 100] 0 0)
    = Some (e', h', p', r)
    ∧ r = SQLITE_BUSY
    ∧ word (aMap h') 59 = 0 ∧ word (aMap h') 117 = 0
    ∧ nLock p' = 0
    ∧ ∀ fuel2, ∃ e2 r2,
        sqlite3ServerEnd fuel2 e' h' p' = Some (e2, h', p', r2)
        ∧ e_trace e2 =
            e_trace e' ++
              [EvFcntl (fd (hma_two {[59 := 65537; 117 := 1]})) F_SETLK
                 {| l_type := Some F_RDLCK; l_whence := SEEK_SET;
                    l_start := (iClient (server_with [42; 100] 0 0) + 1) * 4;
                    l_len := 1 |}].
Proof.
  eexists _, _, _, _. split; [vm_compute; reflexivity|].
  split; [reflexivity|]. split; [reflexivity|]. split; [reflexivity|].
  refine ((λ H, conj (proj1 (proj2 (proj2 H)))
                     (proj2 (proj2 (proj2 (proj2 (proj2 (proj2 (proj2 (proj2 H)))))))))
            (sqlite3ServerEnd_result 1 (env_with_fcntl [(-1, EAGAIN)])
               (hma_two {[59 := 65537; 117 := 1]}) (server_with [42; 100] 0 0)
               _ _ _ _ _ _)).
  - simpl. unfold HMA_CLIENT_SLOTS. lia.
  - vm_compute. reflexivity.
Defined.

(** With no store of another client in between, sqlite3ServerEnd of a client
    0..15 changes the words of the pages in its history, each to the word
    without the caller's reader bit and without a write field that names the
    caller, and no other word; so every other client has in every word what
    it had. *)
Theorem sqlite3ServerEnd_spares_others (fuel : nat) (e : Env) (h : ServerHMA)
    (p : Server) (e' : Env) (h' : ServerHMA) (p' : Server) (r : rc) :
  e_peers e = [] →
  0 <= iClient p < HMA_CLIENT_SLOTS →
  buffer_ok p →
  sqlite3ServerEnd fuel e h p = Some (e', h', p', r) →
  (∀ k, history_has_slot p k →
        word (aMap h') k = serverEndWord (iClient p) (word (aMap h) k))
  ∧ (∀ k, ¬ history_has_slot p k → word (aMap h') k = word (aMap h) k)
  ∧ (∀ j k, 0 <= j < HMA_CLIENT_SLOTS → j ≠ iClient p →
            contribution j (word (aMap h') k) = contribution j (word (aMap h) k)).
Proof.
  intros Hquiet Hi [Hn Hlen] Hrun. unfold sqlite3ServerEnd in Hrun.
  destruct (serverEndLocks _ _ _ _ _ _) as [[[e1 h1] p1]|] eqn:Hloop; [|done].
  apply serverEndLocks_run in Hloop as (_ & _ & _ & _ & _ & _ & _ & _ & _ & Hq);
    [|lia|lia].
  destruct (Hq Hquiet) as (_ & Hvis & Hnot).
  destruct (posixLock e1 _ _ _ _) as [e2 r2]. inversion Hrun; subst e' h' p' r.
  clear Hrun Hq. rewrite Z2Nat.id in Hvis, Hnot by lia.
  split_and!.
  - intros k (j & pgno & Hj & Hlook & Hk). subst k.
    specialize (Hvis (Z.of_nat j) ltac:(lia)).
    by rewrite Nat2Z.id, (nth_lookup_Some _ _ 0 _ Hlook) in Hvis.
  - intros k Hnone. apply Hnot. intros j Hj Hk. apply Hnone.
    exists (Z.to_nat j), (nth (Z.to_nat j) (aLock p) 0). split_and!; [lia | | done].
    destruct (nth_lookup_or_length (aLock p) (Z.to_nat j) 0) as [Hl|Hl]; [done | lia].
  - intros j k Hj Hne.
    destruct (range_find (λ j', serverPageLockSlot (nth (Z.to_nat j') (aLock p) 0))
                k 0 (Z.to_nat (nLock p))) as [(j' & Hj' & Hk)|Hnone].
    + simpl in Hk. subst k. rewrite Hvis by lia.
      by apply serverEndWord_keeps_other.
    + rewrite Hnot; [done|]. intros j' Hj'. apply Hnone. lia.
Qed.

Lemma sqlite3ServerEnd_spares_others_witness :
  ∃ e' h' p' r,
    sqlite3ServerEnd 1 env0 (hma_two {[59 := 65539; 117 := 3; 200 := 1]})
      (server_with [42; 100] 0 0) = Some (e', h', p', r)
    ∧ word (aMap h') 59 = 2 ∧ word (aMap h') 117 = 2 ∧ word (aMap h') 200 = 1
    ∧ ∀ j k, 0 <= j < HMA_CLIENT_SLOTS → j ≠ iClient (server_with [42; 100] 0 0) →
             contribution j (word (aMap h') k)
             = contribution j (word (aMap (hma_two {[59 := 65539; 117 := 3; 200 := 1]})) k).
Proof.
  eexists _, _, _, _. split; [vm_compute; reflexivity|].
  split; [reflexivity|]. split; [reflexivity|]. split; [reflexivity|].
  refine (proj2 (proj2
            (sqlite3ServerEnd_spares_others 1 env0
               (hma_two {[59 := 65539; 117 := 3; 200 := 1]}) (server_with [42; 100] 0 0)
               _ _ _ _ _ _ _ _))).
  - reflexivity.
  - simpl. unfold HMA_CLIENT_SLOTS. lia.
  - split; simpl; lia.
  - vm_compute. reflexivity.
Defined.

(** ** serverRollbackClient *)

(** When no store of another client is pending, none arrives. *)
Lemma peers_arrive_quiet (i : Z) (e : Env) (m : gmap Z Z) :
  e_peers e = [] → peers_arrive i e m = (e, m).
Proof. destruct e. simpl. intros ->. reflexivity. Qed.

Lemma read_word_quiet (i : Z) (e : Env) (m : gmap Z Z) (k : Z) :
  e_peers e = [] → read_word i e m k = (e, m, word m k).
Proof. intros Hq. unfold read_word. by rewrite peers_arrive_quiet. Qed.

Lemma cas_quiet (i : Z) (e : Env) (m : gmap Z Z) (k v n : Z) :
  e_peers e = [] →
  sync_val_compare_and_swap i e m k v n =
    (env_log e (EvCas k v n), if word m k =? v then <[k := n]> m else m, word m k).
Proof. intros Hq. unfold sync_val_compare_and_swap. by rewrite peers_arrive_quiet. Qed.

Lemma serverRollbackSlot_quiet (fuel : nat) (i : Z) (e : Env) (m : gmap Z Z)
    (b k : Z) :
  e_peers e = [] →
  serverRollbackSlot (S fuel) i e m b k (word m k) =
    Some (env_log e (EvCas k (word m k) (serverRollbackWord b (word m k))),
          <[k := serverRollbackWord b (word m k)]> m).
Proof.
  intros Hq. cbn [serverRollbackSlot]. rewrite cas_quiet by done.
  by rewrite Z.eqb_refl.
Qed.

(** The loop over the page-lock slots [i0 .. i0+cnt-1], undisturbed. *)
Lemma serverRollbackSlots_quiet (i b : Z) (cnt : nat) :
  ∀ (fuel : nat) (e : Env) (m : gmap Z Z) (i0 : Z),
    e_peers e = [] → 0 <= i0 → i0 + Z.of_nat cnt <= HMA_PAGELOCK_SLOTS →
    ∃ e' m' t,
      serverRollbackSlots cnt (S fuel) i e m b i0 = Some (e', m')
      ∧ e_peers e' = [] ∧ e_fcntl e' = e_fcntl e ∧ e_pager e' = e_pager e
      ∧ e_trace e' = e_trace e ++ t
      ∧ (∀ k, 1 + HMA_CLIENT_SLOTS + i0 <= k < 1 + HMA_CLIENT_SLOTS + i0 + Z.of_nat cnt →
              word m' k = serverRollbackWord b (word m k))
      ∧ (∀ k, ¬ (1 + HMA_CLIENT_SLOTS + i0 <= k
                 < 1 + HMA_CLIENT_SLOTS + i0 + Z.of_nat cnt) →
              word m' k = word m k).
Proof.
  induction cnt as [|cnt IH]; intros fuel e m i0 Hq Hi0 Hend.
  - exists e, m, []. cbn [serverRollbackSlots]. rewrite app_nil_r.
    split_and!; auto. intros k Hk. lia.
  - cbn [serverRollbackSlots]. rewrite read_word_quiet by done.
    assert (serverPageLockSlot i0 = 1 + HMA_CLIENT_SLOTS + i0) as Hslot.
    { unfold serverPageLockSlot. cbv zeta. rewrite Z.mod_small; [done|lia]. }
    rewrite Hslot. set (k0 := 1 + HMA_CLIENT_SLOTS + i0) in *.
    rewrite serverRollbackSlot_quiet by done.
    set (e1 := env_log e _). set (m1 := <[k0 := _]> m).
    destruct (IH fuel e1 m1 (i0 + 1)) as (e' & m' & t & Hrun & Hq' & Hf & Hp & Ht & Hin & Hout);
      [done | lia | lia |].
    exists e', m', (EvCas k0 (word m k0) (serverRollbackWord b (word m k0)) :: t).
    split; [done|]. split_and!; try done.
    + rewrite Ht. subst e1. simpl. by rewrite <- app_assoc.
    + intros k Hk. destruct (Z.eq_dec k k0) as [->|Hne].
      * rewrite Hout by lia. subst m1. by rewrite word_insert_eq.
      * rewrite Hin by lia. subst m1. by rewrite word_insert_ne.
    + intros k Hk. rewrite Hout by lia. subst m1. rewrite word_insert_ne; [done|lia].
Qed.

Lemma serverRollbackClient_quiet (fuel : nat) (e : Env) (h : ServerHMA) (p : Server)
    (iBlock : Z) :
  e_peers e = [] →
  ∃ e' h' t,
    serverRollbackClient (S fuel) e h p iBlock = Some (e', h', hd SQLITE_OK (e_pager e))
    ∧ e_trace e' =
        e_trace e ++
          [EvLog SQLITE_NOTICE "Rolling back failed client %d" (ArgInt iBlock);
           EvRollbackJournal (pPager p) iBlock] ++ t
    ∧ e_peers e' = [] ∧ e_fcntl e' = e_fcntl e
    ∧ (hd SQLITE_OK (e_pager e) ≠ SQLITE_OK → h' = h ∧ t = [])
    ∧ (hd SQLITE_OK (e_pager e) = SQLITE_OK →
       h' = hma_set_aMap h (aMap h')
       ∧ (∀ k, is_page_slot k →
               word (aMap h') k = serverRollbackWord iBlock (word (aMap h) k))
       ∧ (∀ k, ¬ is_page_slot k → word (aMap h') k = word (aMap h) k)).
Proof.
  intros Hq. unfold serverRollbackClient, sqlite3PagerRollbackJournal, sqlite3_log.
  set (r := hd SQLITE_OK (e_pager e)). cbn [e_pager env_log].
  set (e2 := Build_Env _ _ _ _ _ _ _ _ _ _ _).
  case_bool_decide as Hr.
  - destruct (serverRollbackSlots_quiet (iClient p) iBlock (Z.to_nat HMA_PAGELOCK_SLOTS)
                fuel e2 (aMap h) 0) as (e' & m' & t & Hrun & Hq' & Hfc & _ & Ht & Hin & Hout);
      [done | lia | rewrite Z2Nat.id; [lia | done] |].
    rewrite Hrun. exists e', (hma_set_aMap h m'), t. split; [done|].
    rewrite Z2Nat.id in Hin, Hout by done.
    split_and!.
    + rewrite Ht. subst e2. simpl. by rewrite <- !app_assoc.
    + done.
    + done.
    + done.
    + intros _. split; [done|]. split.
      * intros k Hk. apply Hin. unfold is_page_slot in Hk. lia.
      * intros k Hk. apply Hout. unfold is_page_slot in Hk. lia.
  - exists e2, h, []. split; [done|]. split_and!; try done.
    subst e2. simpl. by rewrite <- app_assoc.
Qed.

(** serverRollbackClient, undisturbed by other clients.  It logs a notice and
    has the pager roll back the journal of client [iBlock]; when that fails it
    returns the pager's code and leaves the mapping alone.  Otherwise it
    returns OK and has replaced every page-lock word by the word without the
    reader bit of [iBlock] and without a write field naming [iBlock], and no
    other word: for a client 0..15 nothing of it is left in any page-lock
    word, and every other client has in every word what it had. *)
Theorem serverRollbackClient_scrubs (fuel : nat) (e : Env) (h : ServerHMA) (p : Server)
    (iBlock : Z) :
  e_peers e = [] →
  ∃ e' h' t,
    serverRollbackClient (S fuel) e h p iBlock = Some (e', h', hd SQLITE_OK (e_pager e))
    ∧ e_trace e' =
        e_trace e ++
          [EvLog SQLITE_NOTICE "Rolling back failed client %d" (ArgInt iBlock);
           EvRollbackJournal (pPager p) iBlock] ++ t
    ∧ (hd SQLITE_OK (e_pager e) ≠ SQLITE_OK → h' = h ∧ t = [])
    ∧ (hd SQLITE_OK (e_pager e) = SQLITE_OK →
       h' = hma_set_aMap h (aMap h')
       ∧ (∀ k, is_page_slot k →
               word (aMap h') k = serverRollbackWord iBlock (word (aMap h) k))
       ∧ (∀ k, ¬ is_page_slot k → word (aMap h') k = word (aMap h) k)
       ∧ (0 <= iBlock < HMA_CLIENT_SLOTS →
          ∀ k, is_page_slot k →
               slot_free iBlock (word (aMap h') k)
               ∧ ∀ j, 0 <= j < HMA_CLIENT_SLOTS → j ≠ iBlock →
                      contribution j (word (aMap h') k)
                      = contribution j (word (aMap h) k))).
Proof.
  intros Hq.
  destruct (serverRollbackClient_quiet fuel e h p iBlock Hq)
    as (e' & h' & t & Hrun & Ht & _ & _ & Hfail & Hok).
  exists e', h', t. split; [done|]. split; [done|]. split; [done|].
  intros Hr. destruct (Hok Hr) as (Hh & Hpage & Hother).
  split; [done|]. split; [done|]. split; [done|].
  intros Hb k Hk. rewrite (Hpage k Hk), <- serverEndWord_rollback. split.
  - apply serverEndWord_free. lia.
  - intros j Hj Hne. by apply serverEndWord_keeps_other.
Qed.

Lemma serverRollbackClient_scrubs_witness :
  ∃ e' h' t,
    serverRollbackClient 1 env0 (hma_two {[59 := 131075; 117 := 2]}) (server_fresh 0) 1
      = Some (e', h', hd SQLITE_OK (e_pager env0))
    ∧ e_trace e' =
        e_trace env0 ++
          [EvLog SQLITE_NOTICE "Rolling back failed client %d" (ArgInt 1);
           EvRollbackJournal (pPager (server_fresh 0)) 1] ++ t
    ∧ (hd SQLITE_OK (e_pager env0) ≠ SQLITE_OK
       → h' = hma_two {[59 := 131075; 117 := 2]} ∧ t = [])
    ∧ (hd SQLITE_OK (e_pager env0) = SQLITE_OK →
       h' = hma_set_aMap (hma_two {[59 := 131075; 117 := 2]}) (aMap h')
       ∧ (∀ k, is_page_slot k →
               word (aMap h') k
               = serverRollbackWord 1 (word (aMap (hma_two {[59 := 131075; 117 := 2]})) k))
       ∧ (∀ k, ¬ is_page_slot k →
               word (aMap h') k = word (aMap (hma_two {[59 := 131075; 117 := 2]})) k)
       ∧ (0 <= 1 < HMA_CLIENT_SLOTS →
          ∀ k, is_page_slot k →
               slot_free 1 (word (aMap h') k)
               ∧ ∀ j, 0 <= j < HMA_CLIENT_SLOTS → j ≠ 1 →
                      contribution j (word (aMap h') k)
                      = contribution j
                          (word (aMap (hma_two {[59 := 131075; 117 := 2]})) k))).
Proof.
  apply (serverRollbackClient_scrubs 0 env0 (hma_two {[59 := 131075; 117 := 2]})
           (server_fresh 0) 1).
  reflexivity.
Defined.

(** ** What sqlite3ServerLock grants *)

(** The word stored by the final compare-and-swap when no other client stands
    in the way. *)
Lemma serverLockWord_granted (i v : Z) (bWrite : bool) :
  0 <= i < HMA_CLIENT_SLOTS → word_ok v → serverConflict i bWrite v = false →
  word_ok (serverLockWord i bWrite v)
  ∧ holds_shared i (serverLockWord i bWrite v)
  ∧ (∀ j, 0 <= j → j ≠ i → ¬ holds_write j (serverLockWord i bWrite v))
  ∧ (bWrite = true →
     serverLockWord i bWrite v
     = Z.lor (Z.shiftl 1 i) (Z.shiftl (i + 1) HMA_CLIENT_SLOTS)).
Proof.
  intros Hi [Hv Hf] Hconf.
  pose proof (serverConflict_iff i v ltac:(lia)) as [Hread Hwrite].
  assert (Z.shiftr v HMA_CLIENT_SLOTS = 0 ∨ Z.shiftr v HMA_CLIENT_SLOTS = i + 1) as Hfield.
  { pose proof (proj2 (Z.shiftr_nonneg v HMA_CLIENT_SLOTS) Hv) as Hnn.
    destruct (Z.eq_dec (Z.shiftr v HMA_CLIENT_SLOTS) 0) as [|Hne0]; [by left|].
    destruct (Z.eq_dec (Z.shiftr v HMA_CLIENT_SLOTS) (i + 1)) as [|Hnei]; [by right|].
    exfalso.
    assert (∃ j, 0 <= j ∧ j ≠ i ∧ holds_write j v) as Hex.
    { exists (Z.shiftr v HMA_CLIENT_SLOTS - 1). unfold holds_write. lia. }
    destruct bWrite.
    - apply (or_introl (B := ∃ j, 0 <= j < HMA_CLIENT_SLOTS ∧ j ≠ i ∧ holds_shared j v))
        in Hex. apply Hwrite in Hex. congruence.
    - apply Hread in Hex. congruence. }
  assert (0 <= Z.shiftl 1 i) as Hbitnn by (apply Z.shiftl_nonneg; lia).
  assert (Z.shiftr (Z.lor v (Z.shiftl 1 i)) HMA_CLIENT_SLOTS = Z.shiftr v HMA_CLIENT_SLOTS)
    as Hfbit.
  { rewrite Z.shiftr_lor. replace (Z.shiftr (Z.shiftl 1 i) HMA_CLIENT_SLOTS) with 0;
      [apply Z.lor_0_r|].
    symmetry. apply Z.bits_inj'. intros j Hj. unfold HMA_CLIENT_SLOTS.
    rewrite Z.shiftr_spec, testbit_pow2, Z.bits_0 by lia.
    apply Z.eqb_neq. unfold HMA_CLIENT_SLOTS in Hi. lia. }
  assert (Z.shiftr (Z.shiftl (i + 1) HMA_CLIENT_SLOTS) HMA_CLIENT_SLOTS = i + 1) as Hfw.
  { unfold HMA_CLIENT_SLOTS. rewrite Z.shiftr_shiftl_l by lia. apply Z.shiftl_0_r. }
  destruct bWrite; unfold serverLockWord, holds_shared, holds_write, word_ok.
  - assert (Z.shiftr (Z.lor (Z.lor v (Z.shiftl 1 i))
                        (Z.shiftl (i + 1) HMA_CLIENT_SLOTS)) HMA_CLIENT_SLOTS = i + 1)
      as Hfn.
    { rewrite Z.shiftr_lor, Hfbit, Hfw. destruct Hfield as [->| ->].
      - apply Z.lor_0_l.
      - apply Z.lor_diag. }
    rewrite Hfn. split_and!.
    + apply Z.lor_nonneg. split; [apply Z.lor_nonneg; by split|].
      apply Z.shiftl_nonneg. lia.
    + lia.
    + rewrite Z.lor_spec, set_bit_testbit by lia. done.
    + intros j Hj Hne. lia.
    + intros _. apply Z.bits_inj'. intros j Hj. rewrite !Z.lor_spec.
      destruct (Z.testbit v j) eqn:Hbit; [|done]. cbn [orb]. symmetry.
      destruct (Z_lt_ge_dec j HMA_CLIENT_SLOTS) as [Hlt|Hge].
      * rewrite testbit_pow2 by lia.
        destruct (Z.eqb_spec i j) as [->|Hij]; [done|]. exfalso.
        assert (serverConflict i true v = true) as Hc; [|congruence].
        apply Hwrite. right. exists j. unfold holds_shared.
        split; [lia|]. split; [lia | done].
      * apply orb_true_iff. right.
        assert (Z.testbit (Z.shiftr v HMA_CLIENT_SLOTS) (j - HMA_CLIENT_SLOTS) = true)
          as Hhi.
        { rewrite Z.shiftr_spec by lia. by replace (j - HMA_CLIENT_SLOTS + HMA_CLIENT_SLOTS)
            with j by lia. }
        unfold HMA_CLIENT_SLOTS in *. rewrite Z.shiftl_spec by lia.
        destruct Hfield as [Hf0|Hfi].
        -- rewrite Hf0, Z.bits_0 in Hhi. done.
        -- by rewrite Hfi in Hhi.
  - rewrite Hfbit. split_and!.
    + apply Z.lor_nonneg. by split.
    + done.
    + apply set_bit_testbit. lia.
    + intros j Hj Hne. lia.
    + done.
Qed.

(** The loops when they return OK: the word in the slot is the one the final
    compare-and-swap stored, computed from a well-formed word with which the
    request did not conflict. *)
Lemma serverLockLoop_ok_word (p : Server) (pgno : Z) (bWrite bBlock : bool)
    (m0 : gmap Z Z) (fuel : nat) :
  0 <= iClient p < HMA_CLIENT_SLOTS →
  word_ok (word m0 (serverPageLockSlot pgno)) →
  ∀ (e : Env) (h : ServerHMA) (v : Z) (bR : bool)
    (e' : Env) (h' : ServerHMA) (bR' : bool),
    word_ok v →
    lock_attempt (iClient p) (serverPageLockSlot pgno) m0 (aMap h) bR →
    serverLockLoop fuel e h p pgno bWrite bBlock v bR = Some (e', h', SQLITE_OK, bR') →
    ∃ v', word_ok v' ∧ serverConflict (iClient p) bWrite v' = false
          ∧ word (aMap h') (serverPageLockSlot pgno)
            = serverLockWord (iClient p) bWrite v'.
Proof.
  intros Hi Hok0.
  pose proof (serverPageLockSlot_is_page_slot pgno) as Hk0.
  set (i := iClient p) in *. set (k0 := serverPageLockSlot pgno) in *.
  induction fuel as [|fuel IH]; intros e h v bR e' h' bR' Hv Hrel Hrun; [done|].
  rewrite serverLockLoop_unfold in Hrun. cbv zeta in Hrun. fold i k0 in Hrun.
  pose proof (peers_next_keeps i e (aMap h) ltac:(lia)) as Hpeers.
  pose proof (lock_attempt_keeps _ _ _ _ _ _ Hk0 Hrel Hpeers) as Hrel_pn.
  set (pn := peers_next i e (aMap h)) in *.
  assert (∀ (e1 : Env) (h1 : ServerHMA) (m1 : gmap Z Z) (bR1 : bool),
            lock_attempt i k0 m0 m1 bR1 →
            (let '(e2, m2, v2) := read_word i e1 m1 k0 in
             serverLockLoop fuel e2 (hma_set_aMap h1 m2) p pgno bWrite bBlock v2 bR1)
            = Some (e', h', SQLITE_OK, bR') →
            ∃ v', word_ok v' ∧ serverConflict i bWrite v' = false
                  ∧ word (aMap h') k0 = serverLockWord i bWrite v') as Hagain.
  { clear Hrun. intros e1 h1 m1 bR1 Hrel1 Hrun1.
    destruct (read_word_spec i e1 m1 k0) as (e2 & Hread & _).
    rewrite Hread in Hrun1. clear Hread.
    pose proof (lock_attempt_keeps _ _ _ _ _ _ Hk0 Hrel1
                  (peers_next_keeps i e1 m1 ltac:(lia))) as Hrel2.
    apply IH in Hrun1; [done | | done].
    destruct Hrel2 as (_ & Hok2 & _). by apply Hok2. }
  assert (∀ (e1 : Env) (h1 : ServerHMA) (v1 : Z) (bR1 : bool),
            lock_attempt i k0 m0 (aMap h1) bR1 →
            0 <= serverBlocker i v1 < HMA_CLIENT_SLOTS → serverBlocker i v1 ≠ i →
            match serverOvercomeLock (S fuel) e1 h1 p bWrite bBlock v1 false with
            | None => None
            | Some (e2, h2, r, bRetry) =>
                if negb (bool_decide (r = SQLITE_OK)) then Some (e2, h2, r, bR1)
                else if negb bRetry then
                  Some (sqlite3_log e2 SQLITE_BUSY_DEADLOCK "Conflict at page %d"
                          (ArgInt pgno), h2, SQLITE_BUSY_DEADLOCK, bR1)
                else
                  let '(e3, m3, v3) := read_word i e2 (aMap h2) k0 in
                  serverLockLoop fuel e3 (hma_set_aMap h2 m3) p pgno bWrite bBlock v3 bR1
            end = Some (e', h', SQLITE_OK, bR') →
            ∃ v', word_ok v' ∧ serverConflict i bWrite v' = false
                  ∧ word (aMap h') k0 = serverLockWord i bWrite v') as Hover.
  { clear Hrun. intros e1 h1 v1 bR1 Hrel1 Hb Hb' Hrun1.
    destruct (serverOvercomeLock (S fuel) e1 h1 p bWrite bBlock v1 false)
      as [[[[e2 h2] r2] b2]|] eqn:Hov; [|done].
    destruct (serverOvercomeLock_keeps _ _ _ _ _ _ _ _ _ _ _ _ Hi Hb Hb' Hov)
      as (_ & _ & Hk2).
    fold i in Hk2.
    pose proof (lock_attempt_keeps _ _ _ _ _ _ Hk0 Hrel1 Hk2) as Hrel2.
    case_bool_decide as Hr2; cbn [negb] in Hrun1; [|congruence].
    destruct b2; cbn [negb] in Hrun1; [|done].
    by apply (Hagain e2 h2 (aMap h2) bR1). }
  destruct (serverConflict i bWrite v) eqn:Hconf.
  - destruct ((serverWriteLocker v <? 0) && bWrite && bBlock) eqn:Hcond.
    + apply andb_true_iff in Hcond as [Hcond _]. apply andb_true_iff in Hcond as [Hw _].
      destruct (serverBlocker_reserved i v bWrite Hi Hv Hconf Hw) as (Hb & Hb' & Hf0).
      destruct (cas_spec i e (aMap h) k0 v (serverReservedWord i v)) as (e1 & Hcas & _).
      rewrite Hcas in Hrun. clear Hcas. fold pn in Hrun.
      destruct (Z.eqb_spec (word pn k0) v) as [Heq|Hneq].
      * refine (Hover e1 (hma_set_aMap h (<[k0 := serverReservedWord i v]> pn))
                  (serverReservedWord i v) true _ Hb Hb' Hrun).
        simpl. rewrite <- Heq. apply (lock_attempt_reserve i k0 m0 pn bR); try done.
        -- by rewrite Heq.
        -- by rewrite Heq.
      * by apply (Hagain e1 h pn bR).
    + destruct (serverBlocker_other i v bWrite Hi Hv Hconf) as [Hb Hb'].
      by apply (Hover e h v bR).
  - destruct (cas_spec i e (aMap h) k0 v (serverLockWord i bWrite v)) as (e1 & Hcas & _).
    rewrite Hcas in Hrun. clear Hcas. fold pn in Hrun.
    destruct (Z.eqb_spec (word pn k0) v) as [Heq|Hneq].
    + inversion Hrun; subst e' h' bR'. simpl. exists v.
      by rewrite word_insert_eq.
    + by apply (Hagain e1 h pn bR).
Qed.

(** The two ways through sqlite3ServerLock: without an entry appended (the
    lock was held, or the buffer could not grow), and through the loops. *)
Lemma sqlite3ServerLock_cases (fuel : nat) (e : Env) (h : ServerHMA) (p : Server)
    (pgno : Z) (bWrite bBlock : bool)
    (e' : Env) (h' : ServerHMA) (p' : Server) (r : rc) :
  0 <= iClient p < HMA_CLIENT_SLOTS →
  word_ok (word (aMap h) (serverPageLockSlot pgno)) →
  sqlite3ServerLock fuel e h p pgno bWrite bBlock = Some (e', h', p', r) →
  iClient p' = iClient p
  ∧ ((nLock p' = nLock p
      ∧ mem_keeps (iClient p) (aMap h) (aMap h')
      ∧ (r = SQLITE_OK →
         serverLockHeld (iClient p) bWrite (word (aMap h') (serverPageLockSlot pgno))
         = true))
     ∨ (nLock p' = nLock p + 1
        ∧ others_keep (iClient p) (serverPageLockSlot pgno) (aMap h) (aMap h')
        ∧ (r = SQLITE_OK →
           ∃ v', word_ok v' ∧ serverConflict (iClient p) bWrite v' = false
                 ∧ word (aMap h') (serverPageLockSlot pgno)
                   = serverLockWord (iClient p) bWrite v')
        ∧ (r ≠ SQLITE_OK → word_ok (word (aMap h') (serverPageLockSlot pgno))))).
Proof.
  intros Hi Hok Hrun.
  unfold sqlite3ServerLock in Hrun.
  pose proof (serverLockGrow_spec e p) as Hg.
  destruct (serverLockGrow e p) as [[e1 p1] r1].
  destruct Hg as (_ & Hi1 & Hn1 & _). cbv zeta in Hrun.
  pose proof (serverPageLockSlot_is_page_slot pgno) as Hk0.
  set (i := iClient p) in *. set (k0 := serverPageLockSlot pgno) in *.
  case_bool_decide as Hr1.
  2:{ apply server_lock_out_spec in Hrun
        as (-> & Hi' & Hn' & _ & _ & _ & _ & _ & _ & _ & Hh).
      rewrite Hh by apply andb_false_r. split; [congruence|]. left.
      split_and!; [congruence | apply mem_keeps_refl | done]. }
  destruct (read_word_spec (iClient p1) e1 (aMap h) k0) as (e0 & Hread & _).
  rewrite Hread in Hrun. clear Hread. rewrite Hi1 in Hrun.
  pose proof (peers_next_keeps i e1 (aMap h) ltac:(lia)) as Hk1.
  set (m1 := peers_next i e1 (aMap h)) in *.
  destruct (serverLockHeld i bWrite (word m1 k0)) eqn:Hheld.
  { apply server_lock_out_spec in Hrun
      as (-> & Hi' & Hn' & _ & _ & _ & _ & _ & _ & _ & Hh).
    rewrite Hh by apply andb_false_r. split; [congruence|]. left.
    split_and!; [congruence | done | done]. }
  set (p2 := server_set_lock _ _ _ _ _) in Hrun.
  destruct (serverLockLoop _ _ _ _ _ _ _ _ _) as [[[[e2 h2] r2] bR]|] eqn:Hloop; [|done].
  assert (iClient p2 = i) as Hi2 by (subst p2; simpl; congruence).
  assert (word_ok (word m1 k0)) as Hok1.
  { destruct (Hk1 k0 Hk0) as [_ Hok1]. by apply Hok1. }
  assert (lock_attempt i k0 (aMap h) (aMap (hma_set_aMap h m1)) false) as Hstart.
  { simpl. apply (lock_attempt_keeps i k0 (aMap h) (aMap h));
      [done | apply lock_attempt_start | done]. }
  pose proof (serverLockLoop_spec p2 pgno bWrite bBlock (aMap h) fuel) as Hspec.
  pose proof (serverLockLoop_ok_word p2 pgno bWrite bBlock (aMap h) fuel) as Hword.
  rewrite Hi2 in Hspec, Hword. fold k0 in Hspec, Hword.
  specialize (Hspec Hi Hok _ _ _ _ _ _ _ _ Hok1 Hstart Hloop)
    as (_ & _ & Hoth & _ & Hfail).
  pose proof (server_lock_out_spec _ _ _ _ _ _ _ _ _ _ _ Hrun)
    as (Heq & Hi' & Hn' & _ & _ & _ & _ & _ & _ & _ & Hh).
  subst r2. split; [congruence|]. right.
  split; [rewrite Hn'; subst p2; simpl; lia|].
  destruct (decide (r = SQLITE_OK)) as [->|Hr].
  - rewrite Hh by done. split_and!; [done | | done].
    intros _. by apply (Hword Hi Hok _ _ _ _ _ _ _ Hok1 Hstart Hloop).
  - destruct (Hfail Hr) as (Hoth2 & Hok2 & _).
    destruct bR.
    + apply server_lock_out_unreserve in Hrun as (Hoth' & _ & Hf0); [|by rewrite Hi2|done].
      rewrite Hi2 in Hoth'. fold k0 in Hoth', Hf0. split_and!.
      * by eapply others_keep_trans.
      * done.
      * intros _. split.
        -- apply (Z.shiftr_nonneg _ HMA_CLIENT_SLOTS). rewrite Hf0. done.
        -- rewrite Hf0. unfold HMA_CLIENT_SLOTS. lia.
    + rewrite Hh by apply andb_false_r. split_and!; [done | done |].
      intros _. by apply Hok2.
Qed.

Lemma serverLockHeld_HasLock (h : ServerHMA) (p : Server) (pgno : Z) (bWrite : bool) :
  sqlite3ServerHasLock h p pgno bWrite
  = serverLockHeld (iClient p) bWrite (word (aMap h) (serverPageLockSlot pgno)).
Proof.
  unfold sqlite3ServerHasLock, serverLockHeld. destruct bWrite; [|done].
  cbv zeta.
  destruct (Z.eqb_spec (Z.shiftr (word (aMap h) (serverPageLockSlot pgno)) HMA_CLIENT_SLOTS)
              (iClient p + 1)),
    (Z.eqb_spec (Z.shiftr (word (aMap h) (serverPageLockSlot pgno)) HMA_CLIENT_SLOTS - 1)
       (iClient p)); done || lia.
Qed.

(** The assertion at the end of sqlite3ServerLock holds: when the call
    returns OK, sqlite3ServerHasLock answers yes for the page and the kind of
    lock asked for. *)
Theorem sqlite3ServerLock_then_HasLock (fuel : nat) (e : Env) (h : ServerHMA)
    (p : Server) (pgno : Z) (bWrite bBlock : bool)
    (e' : Env) (h' : ServerHMA) (p' : Server) :
  0 <= iClient p < HMA_CLIENT_SLOTS →
  word_ok (word (aMap h) (serverPageLockSlot pgno)) →
  sqlite3ServerLock fuel e h p pgno bWrite bBlock = Some (e', h', p', SQLITE_OK) →
  sqlite3ServerHasLock h' p' pgno bWrite = true.
Proof.
  intros Hi Hok Hrun.
  destruct (sqlite3ServerLock_cases _ _ _ _ _ _ _ _ _ _ _ Hi Hok Hrun) as [Hi' Hcase].
  rewrite serverLockHeld_HasLock, Hi'.
  destruct Hcase as [(_ & _ & Hheld)|(_ & _ & Hword & _)]; [by apply Hheld|].
  destruct (Hword eq_refl) as (v' & Hv' & Hconf & ->).
  destruct (serverLockWord_granted _ _ _ Hi Hv' Hconf) as (_ & Hsh & _ & Hex).
  destruct bWrite.
  - rewrite (Hex eq_refl). unfold serverLockHeld.
    rewrite Z.shiftr_lor.
    replace (Z.shiftr (Z.shiftl 1 (iClient p)) HMA_CLIENT_SLOTS) with 0.
    + unfold HMA_CLIENT_SLOTS. rewrite Z.shiftr_shiftl_l, Z.shiftl_0_r, Z.lor_0_l by lia.
      apply Z.eqb_eq. lia.
    + symmetry. apply Z.bits_inj'. intros j Hj. unfold HMA_CLIENT_SLOTS in *.
      rewrite Z.shiftr_spec, testbit_pow2, Z.bits_0 by lia. apply Z.eqb_neq. lia.
  - rewrite serverLockHeld_shared by lia. exact Hsh.
Qed.

Lemma sqlite3ServerLock_then_HasLock_witness :
  ∃ e' h' p',
    sqlite3ServerLock 1 env0 (hma_two {[117 := 2]}) (server_fresh 1) 100 true false
      = Some (e', h', p', SQLITE_OK)
    ∧ sqlite3ServerHasLock h' p' 100 true = true.
Proof.
  eexists _, _, _. split; [vm_compute; reflexivity|].
  refine (sqlite3ServerLock_then_HasLock 1 env0 (hma_two {[117 := 2]}) (server_fresh 1)
            100 true false _ _ _ _ _ _).
  - simpl. unfold HMA_CLIENT_SLOTS. lia.
  - split; vm_compute; discriminate.
  - vm_compute. reflexivity.
Defined.

(** Mutual exclusion at the moment a lock is granted.  When a call of
    sqlite3ServerLock that did not find the lock held returns OK, the word of
    the page carries the caller's reader bit and no other client is named in
    its write field; for a write request the word is exactly the caller's
    reader bit and the caller's write field, so no other client has a reader
    bit in it either. *)
Theorem sqlite3ServerLock_grants_exclusive (fuel : nat) (e : Env) (h : ServerHMA)
    (p : Server) (pgno : Z) (bWrite bBlock : bool)
    (e' : Env) (h' : ServerHMA) (p' : Server) :
  0 <= iClient p < HMA_CLIENT_SLOTS →
  word_ok (word (aMap h) (serverPageLockSlot pgno)) →
  sqlite3ServerLock fuel e h p pgno bWrite bBlock = Some (e', h', p', SQLITE_OK) →
  nLock p' ≠ nLock p →
  holds_shared (iClient p) (word (aMap h') (serverPageLockSlot pgno))
  ∧ (∀ j, 0 <= j → j ≠ iClient p →
          ¬ holds_write j (word (aMap h') (serverPageLockSlot pgno)))
  ∧ (bWrite = true →
     word (aMap h') (serverPageLockSlot pgno)
     = Z.lor (Z.shiftl 1 (iClient p)) (Z.shiftl (iClient p + 1) HMA_CLIENT_SLOTS)).
Proof.
  intros Hi Hok Hrun Hnew.
  destruct (sqlite3ServerLock_cases _ _ _ _ _ _ _ _ _ _ _ Hi Hok Hrun) as [_ Hcase].
  destruct Hcase as [(Hn & _)|(_ & _ & Hword & _)]; [done|].
  destruct (Hword eq_refl) as (v' & Hv' & Hconf & ->).
  by destruct (serverLockWord_granted _ _ _ Hi Hv' Hconf) as (_ & Hsh & Hw & Hex).
Qed.

Lemma sqlite3ServerLock_grants_exclusive_witness :
  ∃ e' h' p',
    sqlite3ServerLock 2 (env_with_peers [[]; [(117, 4)]; [(117, 0)]]) (hma_two ∅)
      (server_fresh 1) 100 true false = Some (e', h', p', SQLITE_OK)
    ∧ word (aMap h') (serverPageLockSlot 100) = 131074
    ∧ (holds_shared (iClient (server_fresh 1)) (word (aMap h') (serverPageLockSlot 100))
       ∧ (∀ j, 0 <= j → j ≠ iClient (server_fresh 1) →
               ¬ holds_write j (word (aMap h') (serverPageLockSlot 100)))
       ∧ (true = true →
          word (aMap h') (serverPageLockSlot 100)
          = Z.lor (Z.shiftl 1 (iClient (server_fresh 1)))
              (Z.shiftl (iClient (server_fresh 1) + 1) HMA_CLIENT_SLOTS))).
Proof.
  eexists _, _, _. split; [vm_compute; reflexivity|]. split; [reflexivity|].
  refine (sqlite3ServerLock_grants_exclusive 2
            (env_with_peers [[]; [(117, 4)]; [(117, 0)]])
            (hma_two ∅) (server_fresh 1) 100 true false _ _ _ _ _ _ _).
  - simpl. unfold HMA_CLIENT_SLOTS. lia.
  - split; vm_compute; discriminate.
  - vm_compute. reflexivity.
  - vm_compute. discriminate.
Defined.

(** sqlite3ServerLock keeps invariant I1: when every page-lock word has a
    write field of at most 16 before a call of a client 0..15, every
    page-lock word has one after it, whether the call succeeds or fails and
    whatever the other clients store in between. *)
Theorem sqlite3ServerLock_keeps_I1 (fuel : nat) (e : Env) (h : ServerHMA) (p : Server)
    (pgno : Z) (bWrite bBlock : bool)
    (e' : Env) (h' : ServerHMA) (p' : Server) (r : rc) :
  0 <= iClient p < HMA_CLIENT_SLOTS →
  (∀ k, is_page_slot k → word_ok (word (aMap h) k)) →
  sqlite3ServerLock fuel e h p pgno bWrite bBlock = Some (e', h', p', r) →
  ∀ k, is_page_slot k → word_ok (word (aMap h') k).
Proof.
  intros Hi Hall Hrun k Hk.
  pose proof (serverPageLockSlot_is_page_slot pgno) as Hk0.
  destruct (sqlite3ServerLock_cases _ _ _ _ _ _ _ _ _ _ _ Hi (Hall _ Hk0) Hrun)
    as [_ Hcase].
  destruct Hcase as [(_ & Hkeeps & _)|(_ & Hoth & Hword & Hfail)].
  - destruct (Hkeeps k Hk) as [_ Hok]. by apply Hok, Hall.
  - destruct (Z.eq_dec k (serverPageLockSlot pgno)) as [->|Hne].
    + destruct (decide (r = SQLITE_OK)) as [Hr|Hr]; [|by apply Hfail].
      destruct (Hword Hr) as (v' & Hv' & Hconf & ->).
      by destruct (serverLockWord_granted _ _ _ Hi Hv' Hconf) as (Hokn & _).
    + destruct (Hoth k Hk Hne) as [_ Hok]. by apply Hok, Hall.
Qed.

Lemma sqlite3ServerLock_keeps_I1_witness :
  ∃ e' h' p',
    sqlite3ServerLock 2 (env_with_peers [[]; []; []; [(117, 131077)]])
      (hma_two {[117 := 1]}) (server_fresh 1) 100 true true
      = Some (e', h', p', SQLITE_BUSY_DEADLOCK)
    ∧ ∀ k, is_page_slot k → word_ok (word (aMap h') k).
Proof.
  eexists _, _, _. split; [vm_compute; reflexivity|].
  refine (sqlite3ServerLock_keeps_I1 2 (env_with_peers [[]; []; []; [(117, 131077)]])
            (hma_two {[117 := 1]}) (server_fresh 1) 100 true true _ _ _ _ _ _ _).
  - simpl. unfold HMA_CLIENT_SLOTS. lia.
  - intros k _. simpl. unfold word.
    destruct (decide (k = 117)) as [->|Hne].
    + rewrite lookup_singleton_eq. split; vm_compute; discriminate.
    + rewrite lookup_singleton_ne by done. split; vm_compute; discriminate.
  - vm_compute. reflexivity.
Defined.

(** ** The outside calls of sqlite3ServerLock and its result codes *)

Lemma env_steps_refl (P : event → Prop) (e : Env) : env_steps P e e.
Proof. split; [done|]. exists []. by rewrite app_nil_r. Qed.

Lemma env_steps_trans (P : event → Prop) (e1 e2 e3 : Env) :
  env_steps P e1 e2 → env_steps P e2 e3 → env_steps P e1 e3.
Proof.
  intros [Hp1 (t1 & Ht1 & HP1)] [Hp2 (t2 & Ht2 & HP2)]. split; [auto|].
  exists (t1 ++ t2). split.
  - by rewrite Ht2, Ht1, app_assoc.
  - by apply Forall_app.
Qed.

Lemma elem_of_tl {A : Type} (x : A) (l : list A) : x ∈ tl l → x ∈ l.
Proof. destruct l; simpl; [done|]. apply list_elem_of_further. Qed.

Lemma hd_pager_code (l : list rc) : hd SQLITE_OK l = SQLITE_OK ∨ hd SQLITE_OK l ∈ l.
Proof. destruct l; simpl; [by left|]. right. apply list_elem_of_here. Qed.

Lemma read_word_steps (P : event → Prop) (i : Z) (e : Env) (m : gmap Z Z) (k : Z) :
  env_steps P e (read_word i e m k).1.1.
Proof. split; [done|]. exists []. simpl. by rewrite app_nil_r. Qed.

Lemma cas_steps (bBlock : bool) (i : Z) (e : Env) (m : gmap Z Z) (k v n : Z) :
  env_steps (no_wait bBlock) e (sync_val_compare_and_swap i e m k v n).1.1.
Proof. split; [done|]. exists [EvCas k v n]. split; [done|]. by repeat constructor. Qed.

Lemma posixLock_steps (bBlock : bool) (e : Env) (fd iSlot eLock : Z) (b : bool) :
  (b = true → bBlock = true) →
  env_steps (no_wait bBlock) e (posixLock e fd iSlot eLock b).1.
Proof.
  intros Hb.
  pose proof (posixLock_event e fd iSlot eLock b) as Hev.
  pose proof (posixLock_scripts e fd iSlot eLock b) as (_ & _ & Hp & _).
  split; [by rewrite Hp|]. eexists. split; [exact Hev|].
  constructor; [|constructor]. intros Hnb. destruct b; [|done].
  specialize (Hb eq_refl). congruence.
Qed.

Lemma sqlite3_log_steps (bBlock : bool) (e : Env) (code : rc) (fmt : string)
    (arg : log_arg) :
  env_steps (no_wait bBlock) e (sqlite3_log e code fmt arg).
Proof. split; [done|]. eexists [_]. split; [done|]. by repeat constructor. Qed.

Lemma serverRollbackSlot_steps (bBlock : bool) (fuel : nat) :
  ∀ (i : Z) (e : Env) (m : gmap Z Z) (b k v : Z) (e' : Env) (m' : gmap Z Z),
    serverRollbackSlot fuel i e m b k v = Some (e', m') →
    env_steps (no_wait bBlock) e e'.
Proof.
  induction fuel as [|fuel IH]; intros i e m b k v e' m' Hrun; [done|].
  cbn [serverRollbackSlot] in Hrun.
  pose proof (cas_steps bBlock i e m k v (serverRollbackWord b v)) as Hc.
  destruct (sync_val_compare_and_swap i e m k v (serverRollbackWord b v))
    as [[e1 m1] old]. simpl in Hc.
  destruct (old =? v); [by inversion Hrun; subst|].
  pose proof (read_word_steps (no_wait bBlock) i e1 m1 k) as Hr.
  destruct (read_word i e1 m1 k) as [[e2 m2] v2]. simpl in Hr.
  apply IH in Hrun. eauto using env_steps_trans.
Qed.

Lemma serverRollbackSlots_steps (bBlock : bool) (cnt : nat) :
  ∀ (fuel : nat) (i : Z) (e : Env) (m : gmap Z Z) (b j : Z) (e' : Env)
    (m' : gmap Z Z),
    serverRollbackSlots cnt fuel i e m b j = Some (e', m') →
    env_steps (no_wait bBlock) e e'.
Proof.
  induction cnt as [|cnt IH]; intros fuel i e m b j e' m' Hrun.
  - inversion Hrun; subst. apply env_steps_refl.
  - cbn [serverRollbackSlots] in Hrun.
    pose proof (read_word_steps (no_wait bBlock) i e m (serverPageLockSlot j)) as Hr.
    destruct (read_word i e m (serverPageLockSlot j)) as [[e0 m0] v0]. simpl in Hr.
    destruct (serverRollbackSlot fuel i e0 m0 b _ v0) as [[e1 m1]|] eqn:Hs; [|done].
    apply (serverRollbackSlot_steps bBlock) in Hs. apply IH in Hrun.
    eauto using env_steps_trans.
Qed.

Lemma serverRollbackClient_steps (bBlock : bool) (fuel : nat) (e : Env) (h : ServerHMA)
    (p : Server) (b : Z) (e' : Env) (h' : ServerHMA) (r : rc) :
  serverRollbackClient fuel e h p b = Some (e', h', r) →
  env_steps (no_wait bBlock) e e' ∧ (r = SQLITE_OK ∨ r ∈ e_pager e).
Proof.
  unfold serverRollbackClient. intros Hrun.
  pose proof (sqlite3_log_steps bBlock e SQLITE_NOTICE "Rolling back failed client %d"
                (ArgInt b)) as Hlog.
  set (e1 := sqlite3_log e _ _ _) in *.
  assert (env_steps (no_wait bBlock) e1 (sqlite3PagerRollbackJournal e1 (pPager p) b).1
          ∧ ((sqlite3PagerRollbackJournal e1 (pPager p) b).2 = SQLITE_OK
             ∨ (sqlite3PagerRollbackJournal e1 (pPager p) b).2 ∈ e_pager e)) as [Hpg Hcode].
  { split.
    - split; [intros x; apply elem_of_tl|]. eexists [_]. split; [done|].
      by repeat constructor.
    - apply hd_pager_code. }
  destruct (sqlite3PagerRollbackJournal e1 (pPager p) b) as [e2 r2]. simpl in Hpg, Hcode.
  case_bool_decide.
  - destruct (serverRollbackSlots _ _ _ _ _ _ _) as [[e3 m3]|] eqn:Hs; [|done].
    apply (serverRollbackSlots_steps bBlock) in Hs. inversion Hrun; subst.
    split; [eauto using env_steps_trans | by left].
  - inversion Hrun; subst. split; [eauto using env_steps_trans | done].
Qed.

Lemma env_steps_code (P : event → Prop) (e e' : Env) (r : rc) :
  env_steps P e e' →
  r = SQLITE_OK ∨ r = SQLITE_BUSY_DEADLOCK ∨ r ∈ e_pager e' →
  r = SQLITE_OK ∨ r = SQLITE_BUSY_DEADLOCK ∨ r ∈ e_pager e.
Proof. intros [Hp _] [?|[?|?]]; auto. Qed.

Lemma serverOvercomeLock_steps (fuel : nat) (e : Env) (h : ServerHMA) (p : Server)
    (bWrite bBlock : bool) (v : Z) (b0 : bool) (e' : Env) (h' : ServerHMA) (r : rc)
    (b' : bool) :
  serverOvercomeLock fuel e h p bWrite bBlock v b0 = Some (e', h', r, b') →
  env_steps (no_wait bBlock) e e'
  ∧ (r = SQLITE_OK ∨ r = SQLITE_BUSY_DEADLOCK ∨ r ∈ e_pager e)
  ∧ (bBlock = false → r = SQLITE_OK ∨ r ∈ e_pager e).
Proof.
  unfold serverOvercomeLock. intros Hrun.
  set (iB := serverBlocker (iClient p) v) in *.
  destruct (default 0 (aClient h !! iB) =? 0).
  2:{ inversion Hrun; subst. split; [apply env_steps_refl|]. split; auto. }
  pose proof (posixLock_steps bBlock e (fd h) (iB + 1) SERVER_WRITE_LOCK false
                ltac:(done)) as H1.
  pose proof (posixLock_codes e (fd h) (iB + 1) SERVER_WRITE_LOCK false) as [Hc1 Hc1'].
  destruct (posixLock e (fd h) (iB + 1) SERVER_WRITE_LOCK false) as [e1 r1].
  simpl in H1, Hc1, Hc1'. specialize (Hc1' eq_refl).
  destruct (decide (r1 = SQLITE_OK)) as [Hr1|Hr1].
  - rewrite bool_decide_eq_true_2 in Hrun by done.
    destruct (serverRollbackClient fuel e1 h p iB) as [[[e2 h2] r2]|] eqn:Hrb; [|done].
    apply (serverRollbackClient_steps bBlock) in Hrb as [H2 Hc2].
    pose proof (posixLock_steps bBlock e2 (fd h2) (iB + 1) SERVER_NO_LOCK false
                  ltac:(done)) as H3.
    destruct (posixLock e2 (fd h2) (iB + 1) SERVER_NO_LOCK false) as [e3 r3].
    simpl in H3. inversion Hrun; subst.
    assert (r = SQLITE_OK ∨ r ∈ e_pager e) as Hc.
    { destruct Hc2 as [?|Hin]; [by left|]. right. by apply H1. }
    split; [eauto using env_steps_trans|]. split; [tauto | done].
  - rewrite bool_decide_eq_false_2 in Hrun by done.
    assert (r1 = SQLITE_BUSY) as -> by (destruct Hc1 as [?|[?|?]]; done).
    rewrite bool_decide_eq_true_2 in Hrun by done.
    destruct bBlock.
    + pose proof (posixLock_steps true e1 (fd h) (iB + 1) SERVER_READ_LOCK true
                    ltac:(done)) as H2.
      pose proof (posixLock_codes e1 (fd h) (iB + 1) SERVER_READ_LOCK true) as [Hc2 _].
      destruct (posixLock e1 (fd h) (iB + 1) SERVER_READ_LOCK true) as [e2 r2].
      simpl in H2, Hc2.
      destruct (decide (r2 = SQLITE_OK)) as [Hr2|Hr2].
      * rewrite bool_decide_eq_true_2 in Hrun by done.
        pose proof (posixLock_steps true e2 (fd h) (iB + 1) SERVER_NO_LOCK false
                      ltac:(done)) as H3.
        destruct (posixLock e2 (fd h) (iB + 1) SERVER_NO_LOCK false) as [e3 r3].
        simpl in H3. inversion Hrun; subst.
        split; [eauto using env_steps_trans|]. split; [by left | done].
      * rewrite bool_decide_eq_false_2 in Hrun by done.
        inversion Hrun; subst. split; [eauto using env_steps_trans|].
        split; [|done].
        destruct Hc2 as [?|[->| ->]]; [done | by left | by right; left].
    + inversion Hrun; subst. split; [done|]. simpl. split; by left.
Qed.

Lemma serverLockLoop_steps (fuel : nat) :
  ∀ (e : Env) (h : ServerHMA) (p : Server) (pgno : Z) (bWrite bBlock : bool) (v : Z)
    (bR : bool) (e' : Env) (h' : ServerHMA) (r : rc) (bR' : bool),
    serverLockLoop fuel e h p pgno bWrite bBlock v bR = Some (e', h', r, bR') →
    env_steps (no_wait bBlock) e e'
    ∧ (r = SQLITE_OK ∨ r = SQLITE_BUSY_DEADLOCK ∨ r ∈ e_pager e).
Proof.
  induction fuel as [|fuel IH]; intros e h p pgno bWrite bBlock v bR e' h' r bR' Hrun;
    [done|].
  rewrite serverLockLoop_unfold in Hrun. cbv zeta in Hrun.
  set (i := iClient p) in *. set (k0 := serverPageLockSlot pgno) in *.
  assert (∀ (e1 : Env) (h1 : ServerHMA) (m1 : gmap Z Z) (bR1 : bool),
            env_steps (no_wait bBlock) e e1 →
            (let '(e2, m2, v2) := read_word i e1 m1 k0 in
             serverLockLoop fuel e2 (hma_set_aMap h1 m2) p pgno bWrite bBlock v2 bR1)
            = Some (e', h', r, bR') →
            env_steps (no_wait bBlock) e e'
            ∧ (r = SQLITE_OK ∨ r = SQLITE_BUSY_DEADLOCK ∨ r ∈ e_pager e)) as Hagain.
  { clear Hrun. intros e1 h1 m1 bR1 H1 Hrun1.
    pose proof (read_word_steps (no_wait bBlock) i e1 m1 k0) as H2.
    destruct (read_word i e1 m1 k0) as [[e2 m2] v2]. simpl in H2.
    apply IH in Hrun1 as [H3 Hc].
    assert (env_steps (no_wait bBlock) e e2) as H12 by eauto using env_steps_trans.
    split; [eauto using env_steps_trans|].
    by apply (env_steps_code (no_wait bBlock) e e2). }
  assert (∀ (e1 : Env) (h1 : ServerHMA) (v1 : Z) (bR1 : bool),
            env_steps (no_wait bBlock) e e1 →
            match serverOvercomeLock (S fuel) e1 h1 p bWrite bBlock v1 false with
            | None => None
            | Some (e2, h2, r, bRetry) =>
                if negb (bool_decide (r = SQLITE_OK)) then Some (e2, h2, r, bR1)
                else if negb bRetry then
                  Some (sqlite3_log e2 SQLITE_BUSY_DEADLOCK "Conflict at page %d"
                          (ArgInt pgno), h2, SQLITE_BUSY_DEADLOCK, bR1)
                else
                  let '(e3, m3, v3) := read_word i e2 (aMap h2) k0 in
                  serverLockLoop fuel e3 (hma_set_aMap h2 m3) p pgno bWrite bBlock v3 bR1
            end = Some (e', h', r, bR') →
            env_steps (no_wait bBlock) e e'
            ∧ (r = SQLITE_OK ∨ r = SQLITE_BUSY_DEADLOCK ∨ r ∈ e_pager e)) as Hover.
  { clear Hrun. intros e1 h1 v1 bR1 H1 Hrun1.
    destruct (serverOvercomeLock (S fuel) e1 h1 p bWrite bBlock v1 false)
      as [[[[e2 h2] r2] b2]|] eqn:Hov; [|done].
    apply serverOvercomeLock_steps in Hov as (H2 & Hc2 & _).
    assert (env_steps (no_wait bBlock) e e2) as H12 by eauto using env_steps_trans.
    destruct (decide (r2 = SQLITE_OK)) as [Hr2|Hr2].
    - rewrite bool_decide_eq_true_2 in Hrun1 by done. cbn [negb] in Hrun1.
      destruct b2; cbn [negb] in Hrun1.
      + by apply (Hagain e2 h2 (aMap h2) bR1).
      + inversion Hrun1; subst. split; [|by right; left].
        eapply env_steps_trans; [exact H12 | apply sqlite3_log_steps].
    - rewrite bool_decide_eq_false_2 in Hrun1 by done. cbn [negb] in Hrun1.
      inversion Hrun1; subst. split; [done|].
      by apply (env_steps_code (no_wait bBlock) e e1). }
  destruct (serverConflict i bWrite v).
  - destruct ((serverWriteLocker v <? 0) && bWrite && bBlock).
    + pose proof (cas_steps bBlock i e (aMap h) k0 v (serverReservedWord i v)) as Hc.
      destruct (sync_val_compare_and_swap i e (aMap h) k0 v (serverReservedWord i v))
        as [[e1 m1] old]. simpl in Hc.
      destruct (old =? v); [by eapply Hover | by eapply Hagain].
    + eapply Hover; [apply env_steps_refl | exact Hrun].
  - pose proof (cas_steps bBlock i e (aMap h) k0 v (serverLockWord i bWrite v)) as Hc.
    destruct (sync_val_compare_and_swap i e (aMap h) k0 v (serverLockWord i bWrite v))
      as [[e1 m1] old]. simpl in Hc.
    destruct (old =? v); [|by eapply Hagain].
    inversion Hrun; subst. split; [done | by left].
Qed.

Lemma serverUnreserve_steps (bBlock : bool) (fuel : nat) :
  ∀ (i : Z) (e : Env) (m : gmap Z Z) (k : Z) (e' : Env) (m' : gmap Z Z),
    serverUnreserve fuel i e m k = Some (e', m') → env_steps (no_wait bBlock) e e'.
Proof.
  induction fuel as [|fuel IH]; intros i e m k e' m' Hrun; [done|].
  cbn [serverUnreserve] in Hrun.
  pose proof (read_word_steps (no_wait bBlock) i e m k) as H0.
  destruct (read_word i e m k) as [[e0 m0] v]. simpl in H0.
  pose proof (cas_steps bBlock i e0 m0 k v (Z.land v (Z.shiftl 1 HMA_CLIENT_SLOTS - 1)))
    as H1.
  destruct (sync_val_compare_and_swap i e0 m0 k v _) as [[e1 m1] old]. simpl in H1.
  destruct (negb (old =? v)).
  - apply IH in Hrun. eauto using env_steps_trans.
  - inversion Hrun; subst. eauto using env_steps_trans.
Qed.

Lemma server_lock_out_steps (bBlock : bool) (fuel : nat) (e : Env) (h : ServerHMA)
    (p : Server) (pgno : Z) (r : rc) (bR : bool) (e' : Env) (h' : ServerHMA)
    (p' : Server) (r' : rc) :
  server_lock_out fuel e h p pgno r bR = Some (e', h', p', r') →
  env_steps (no_wait bBlock) e e' ∧ r' = r.
Proof.
  unfold server_lock_out. intros Hrun.
  assert (∀ e1 : Env, env_steps (no_wait bBlock) e1 (gettimeofday e1).1) as Htime.
  { intros e1. split; [done|]. eexists [_]. split; [done|]. by repeat constructor. }
  destruct (negb (bool_decide (r = SQLITE_OK)) && bR).
  - destruct (serverUnreserve fuel (iClient p) e (aMap h) (serverPageLockSlot pgno))
      as [[e1 m1]|] eqn:Hu; [|done].
    apply (serverUnreserve_steps bBlock) in Hu.
    destruct (pgno =? 0).
    + specialize (Htime e1). destruct (gettimeofday e1) as [e2 [s u]].
      inversion Hrun; subst. split; [eauto using env_steps_trans | done].
    + by inversion Hrun; subst.
  - destruct (pgno =? 0).
    + specialize (Htime e). destruct (gettimeofday e) as [e2 [s u]].
      by inversion Hrun; subst.
    + inversion Hrun; subst. split; [apply env_steps_refl | done].
Qed.

Lemma sqlite3ServerLock_steps (fuel : nat) (e : Env) (h : ServerHMA) (p : Server)
    (pgno : Z) (bWrite bBlock : bool)
    (e' : Env) (h' : ServerHMA) (p' : Server) (r : rc) :
  sqlite3ServerLock fuel e h p pgno bWrite bBlock = Some (e', h', p', r) →
  env_steps (no_wait bBlock) e e'
  ∧ (r = SQLITE_OK ∨ r = SQLITE_NOMEM ∨ r = SQLITE_BUSY_DEADLOCK ∨ r ∈ e_pager e).
Proof.
  unfold sqlite3ServerLock. intros Hrun.
  assert (env_steps (no_wait bBlock) e (serverLockGrow e p).1.1
          ∧ ((serverLockGrow e p).2 = SQLITE_OK ∨ (serverLockGrow e p).2 = SQLITE_NOMEM))
    as [Hg Hcg].
  { unfold serverLockGrow, sqlite3_realloc, sqlite3_malloc.
    destruct (nLock p =? nAlloc p); [|split; [apply env_steps_refl | by left]].
    destruct (hd 4096 (e_alloc e) =? 0); simpl;
      (split; [split; [done|]; eexists [_]; split; [done|]; by repeat constructor | auto]). }
  destruct (serverLockGrow e p) as [[e1 p1] r1]. simpl in Hg, Hcg. cbv zeta in Hrun.
  destruct (decide (r1 = SQLITE_OK)) as [Hr1|Hr1].
  - rewrite bool_decide_eq_true_2 in Hrun by done.
    pose proof (read_word_steps (no_wait bBlock) (iClient p1) e1 (aMap h)
                  (serverPageLockSlot pgno)) as Hr.
    destruct (read_word (iClient p1) e1 (aMap h) (serverPageLockSlot pgno))
      as [[e0 m0] v0]. simpl in Hr.
    assert (env_steps (no_wait bBlock) e e0) as H0 by eauto using env_steps_trans.
    destruct (serverLockHeld _ _ _).
    + apply (server_lock_out_steps bBlock) in Hrun as [Ho ->].
      split; [eauto using env_steps_trans | by left].
    + destruct (serverLockLoop _ _ _ _ _ _ _ _ _) as [[[[e2 h2] r2] bR]|] eqn:Hl; [|done].
      apply serverLockLoop_steps in Hl as [Hl Hc].
      apply (server_lock_out_steps bBlock) in Hrun as [Ho ->].
      assert (env_steps (no_wait bBlock) e e2) as H2 by eauto using env_steps_trans.
      split; [eauto using env_steps_trans|].
      destruct (env_steps_code _ _ _ _ H0 Hc) as [?|[?|?]]; auto.
  - rewrite bool_decide_eq_false_2 in Hrun by done.
    apply (server_lock_out_steps bBlock) in Hrun as [Ho ->].
    split; [eauto using env_steps_trans|]. destruct Hcg; [done | auto].
Qed.

(** The result codes of sqlite3ServerLock.  A call returns OK, NOMEM or
    BUSY_DEADLOCK, or else a code that came back from the pager when it rolled
    back the journal of a client; the lock manager never comes up with BUSY or
    ERROR of its own, also not for a non-blocking request that meets a lock
    of another client. *)
Theorem sqlite3ServerLock_codes (fuel : nat) (e : Env) (h : ServerHMA) (p : Server)
    (pgno : Z) (bWrite bBlock : bool)
    (e' : Env) (h' : ServerHMA) (p' : Server) (r : rc) :
  sqlite3ServerLock fuel e h p pgno bWrite bBlock = Some (e', h', p', r) →
  (r = SQLITE_OK ∨ r = SQLITE_NOMEM ∨ r = SQLITE_BUSY_DEADLOCK ∨ r ∈ e_pager e)
  ∧ (r = SQLITE_BUSY → SQLITE_BUSY ∈ e_pager e)
  ∧ (r = SQLITE_ERROR → SQLITE_ERROR ∈ e_pager e).
Proof.
  intros Hrun. apply sqlite3ServerLock_steps in Hrun as [_ Hc].
  split; [done|]. split; intros ->; by destruct Hc as [?|[?|[?|?]]].
Qed.

Lemma sqlite3ServerLock_codes_witness :
  ∃ e' h' p' r,
    sqlite3ServerLock 1 (env_with_fcntl [(-1, EAGAIN)]) (hma_set_aClient (hma_two {[117 := 1]}) ∅)
      (server_fresh 1) 100 true false = Some (e', h', p', r)
    ∧ r = SQLITE_BUSY_DEADLOCK
    ∧ (r = SQLITE_BUSY → SQLITE_BUSY ∈ e_pager (env_with_fcntl [(-1, EAGAIN)])).
Proof.
  eexists _, _, _, _. split; [vm_compute; reflexivity|]. split; [reflexivity|].
  refine (proj1 (proj2
            (sqlite3ServerLock_codes 1 (env_with_fcntl [(-1, EAGAIN)])
               (hma_set_aClient (hma_two {[117 := 1]}) ∅) (server_fresh 1) 100 true false
               _ _ _ _ _))).
  vm_compute. reflexivity.
Defined.

(** A non-blocking request never waits: every fcntl call that
    sqlite3ServerLock makes for it is an F_SETLK, none an F_SETLKW. *)
Theorem sqlite3ServerLock_nonblocking_never_waits (fuel : nat) (e : Env)
    (h : ServerHMA) (p : Server) (pgno : Z) (bWrite : bool)
    (e' : Env) (h' : ServerHMA) (p' : Server) (r : rc) :
  sqlite3ServerLock fuel e h p pgno bWrite false = Some (e', h', p', r) →
  ∃ t, e_trace e' = e_trace e ++ t
       ∧ ∀ fd l, EvFcntl fd F_SETLKW l ∉ t.
Proof.
  intros Hrun. apply sqlite3ServerLock_steps in Hrun as [[_ (t & Ht & Hall)] _].
  exists t. split; [done|]. intros fd0 l Hin.
  rewrite Forall_forall in Hall. specialize (Hall _ Hin eq_refl). done.
Qed.

Lemma sqlite3ServerLock_nonblocking_never_waits_witness :
  ∃ e' h' p' r t,
    sqlite3ServerLock 1 (env_with_fcntl [(-1, EAGAIN)])
      (hma_set_aClient (hma_two {[117 := 1]}) ∅)
      (server_fresh 1) 100 true false = Some (e', h', p', r)
    ∧ e_trace e' = e_trace (env_with_fcntl [(-1, EAGAIN)]) ++ t
    ∧ ∀ fd l, EvFcntl fd F_SETLKW l ∉ t.
Proof.
  destruct (sqlite3ServerLock 1 (env_with_fcntl [(-1, EAGAIN)])
              (hma_set_aClient (hma_two {[117 := 1]}) ∅)
              (server_fresh 1) 100 true false) as [[[[e' h'] p'] r]|] eqn:Hrun;
    [|vm_compute in Hrun; discriminate].
  destruct (sqlite3ServerLock_nonblocking_never_waits _ _ _ _ _ _ _ _ _ _ Hrun)
    as (t & Ht & Hno).
  by exists e', h', p', r, t.
Defined.

(** ** serverOvercomeLock *)






(** ** Recovery from a client that has died *)





(** ** The registry of HMA objects *)

Lemma hma_lookup_update_eq (g : Registry) (a : Z) (h h' : ServerHMA) :
  hma_lookup g a = Some h → hma_lookup (hma_update g a h') a = Some h'.
Proof.
  induction g as [|[a0 h0] g IH]; simpl; [done|].
  destruct (Z.eqb_spec a0 a) as [->|Hne]; simpl.
  - by rewrite Z.eqb_refl.
  - apply Z.eqb_neq in Hne. by rewrite Hne.
Qed.

Lemma hma_lookup_update_ne (g : Registry) (a a' : Z) (h' : ServerHMA) :
  a' ≠ a → hma_lookup (hma_update g a h') a' = hma_lookup g a'.
Proof.
  intros Hne. induction g as [|[a0 h0] g IH]; simpl; [done|].
  destruct (Z.eqb_spec a0 a) as [->|Hne0]; simpl.
  - destruct (Z.eqb_spec a a'); [congruence | done].
  - by destruct (a0 =? a').
Qed.

Lemma hma_lookup_unlink_ne (g : Registry) (a a' : Z) :
  a' ≠ a → hma_lookup (hma_unlink g a) a' = hma_lookup g a'.
Proof.
  intros Hne. induction g as [|[a0 h0] g IH]; simpl; [done|].
  destruct (Z.eqb_spec a0 a) as [->|Hne0]; simpl.
  - destruct (Z.eqb_spec a a'); [congruence | done].
  - by destruct (a0 =? a').
Qed.

Lemma hma_lookup_None (g : Registry) (a : Z) :
  a ∉ map fst g → hma_lookup g a = None.
Proof.
  induction g as [|[a0 h0] g IH]; simpl; [done|]. intros Hnot.
  destruct (Z.eqb_spec a0 a) as [->|Hne].
  - exfalso. apply Hnot. apply list_elem_of_here.
  - apply IH. intros Hin. apply Hnot. by apply list_elem_of_further.
Qed.

Lemma hma_lookup_unlink_eq (g : Registry) (a : Z) :
  NoDup (map fst g) → hma_lookup (hma_unlink g a) a = None.
Proof.
  induction g as [|[a0 h0] g IH]; simpl; [done|]. intros Hnd.
  apply NoDup_cons in Hnd as [Hnot Hnd].
  destruct (Z.eqb_spec a0 a) as [->|Hne]; simpl.
  - by apply hma_lookup_None.
  - apply Z.eqb_neq in Hne. rewrite Hne. by apply IH.
Qed.

Lemma hma_find_lookup (g : Registry) (dev ino a : Z) (h : ServerHMA) :
  NoDup (map fst g) → hma_find g dev ino = Some (a, h) →
  hma_lookup g a = Some h ∧ st_dev h = dev ∧ st_ino h = ino ∧ a ∈ map fst g.
Proof.
  induction g as [|[a0 h0] g IH]; simpl; [done|]. intros Hnd Hfind.
  apply NoDup_cons in Hnd as [Hnot Hnd].
  destruct ((dev =? st_dev h0) && (ino =? st_ino h0)) eqn:Hmatch.
  - inversion Hfind; subst a0 h0. rewrite Z.eqb_refl.
    apply andb_true_iff in Hmatch as [Hd Hi]. apply Z.eqb_eq in Hd, Hi.
    split_and!; [done | done | done | apply list_elem_of_here].
  - destruct (IH Hnd Hfind) as (Hl & Hd & Hi & Hin).
    destruct (Z.eqb_spec a0 a) as [->|Hne]; [done|].
    split_and!; [done | done | done | by apply list_elem_of_further].
Qed.

(** serverDecrHmaRefcount for an object of the registry.  While other
    connections use the object, the count goes down by one and nothing else
    happens.  With the last user the mapping is unmapped (if there is one),
    the descriptor closed (if there is one), the object taken out of the
    registry and freed, in this order.  No other object of the registry is
    touched; and a null pointer is ignored. *)
Theorem serverDecrHmaRefcount_spec (e : Env) (g : Registry) (pHma : Z) (h : ServerHMA) :
  pHma ≠ 0 → NoDup (map fst g) → hma_lookup g pHma = Some h →
  (1 < nClient h →
   serverDecrHmaRefcount e g pHma = (e, hma_update g pHma (hma_set_nClient h (nClient h - 1)))
   ∧ hma_lookup (serverDecrHmaRefcount e g pHma).2 pHma
     = Some (hma_set_nClient h (nClient h - 1)))
  ∧ (nClient h <= 1 →
     hma_lookup (serverDecrHmaRefcount e g pHma).2 pHma = None
     ∧ e_trace (serverDecrHmaRefcount e g pHma).1 =
         e_trace e
         ++ (if aMapAddr h =? 0 then [] else [EvMunmap (aMapAddr h)])
         ++ (if 0 <=? fd h then [EvClose (fd h)] else [])
         ++ [EvFree pHma])
  ∧ (∀ a, a ≠ pHma →
          hma_lookup (serverDecrHmaRefcount e g pHma).2 a = hma_lookup g a)
  ∧ serverDecrHmaRefcount e g 0 = (e, g).
Proof.
  intros Hnz Hnd Hlook. unfold serverDecrHmaRefcount.
  apply Z.eqb_neq in Hnz. rewrite Hnz, Hlook. cbn [nClient hma_set_nClient].
  split_and!.
  - intros Hmany. destruct (Z.leb_spec (nClient h - 1) 0); [lia|].
    split; [done|]. simpl. by eapply hma_lookup_update_eq.
  - intros Hlast. destruct (Z.leb_spec (nClient h - 1) 0); [|lia].
    cbn [fst snd aMapAddr fd hma_set_nClient]. split; [by apply hma_lookup_unlink_eq|].
    unfold sqlite3_free.
    destruct (aMapAddr h =? 0), (0 <=? fd h); simpl; by rewrite <- ?app_assoc.
  - intros a Ha. destruct (nClient h - 1 <=? 0); simpl.
    + by apply hma_lookup_unlink_ne.
    + by apply hma_lookup_update_ne.
  - done.
Qed.

Lemma serverDecrHmaRefcount_spec_witness :
  (1 < nClient (hma_two ∅) →
   serverDecrHmaRefcount env0 [(4096, hma_two ∅)] 4096
   = (env0, hma_update [(4096, hma_two ∅)] 4096
              (hma_set_nClient (hma_two ∅) (nClient (hma_two ∅) - 1)))
   ∧ hma_lookup (serverDecrHmaRefcount env0 [(4096, hma_two ∅)] 4096).2 4096
     = Some (hma_set_nClient (hma_two ∅) (nClient (hma_two ∅) - 1)))
  ∧ (nClient (hma_two ∅) <= 1 →
     hma_lookup (serverDecrHmaRefcount env0 [(4096, hma_two ∅)] 4096).2 4096 = None
     ∧ e_trace (serverDecrHmaRefcount env0 [(4096, hma_two ∅)] 4096).1 =
         e_trace env0
         ++ (if aMapAddr (hma_two ∅) =? 0 then [] else [EvMunmap (aMapAddr (hma_two ∅))])
         ++ (if 0 <=? fd (hma_two ∅) then [EvClose (fd (hma_two ∅))] else [])
         ++ [EvFree 4096])
  ∧ (∀ a, a ≠ 4096 →
          hma_lookup (serverDecrHmaRefcount env0 [(4096, hma_two ∅)] 4096).2 a
          = hma_lookup [(4096, hma_two ∅)] a)
  ∧ serverDecrHmaRefcount env0 [(4096, hma_two ∅)] 0 = (env0, [(4096, hma_two ∅)]).
Proof.
  apply (serverDecrHmaRefcount_spec env0 [(4096, hma_two ∅)] 4096 (hma_two ∅)).
  - discriminate.
  - simpl. apply NoDup_singleton.
  - reflexivity.
Defined.

(** ** serverOpenHma *)

Lemma serverOpenRollback_trace (cnt : nat) :
  ∀ (e : Env) (pPager i : Z) (r : rc),
    (serverOpenRollback cnt e pPager i r).2 = SQLITE_OK →
    r = SQLITE_OK
    ∧ e_trace (serverOpenRollback cnt e pPager i r).1 =
        e_trace e ++ map (λ j, EvRollbackJournal pPager (i + Z.of_nat j)) (seq 0 cnt).
Proof.
  induction cnt as [|cnt IH]; intros e pPager i r Hok; cbn [serverOpenRollback] in *.
  - simpl in *. by rewrite app_nil_r.
  - destruct (decide (r = SQLITE_OK)) as [Hr|Hr].
    + rewrite bool_decide_eq_true_2 in * by done.
      unfold sqlite3PagerRollbackJournal in *.
      set (e1 := Build_Env _ _ _ _ _ _ _ _ _ _ _) in *.
      destruct (IH e1 pPager (i + 1) _ Hok) as [_ Ht]. split; [done|].
      rewrite Ht. subst e1. cbn [e_trace]. rewrite <- app_assoc. f_equal.
      cbn [seq map app]. rewrite Z.add_0_r. f_equal.
      rewrite <- seq_shift, map_map. apply map_ext. intros j. f_equal. lia.
    + rewrite bool_decide_eq_false_2 in Hok by done. done.
Qed.

Lemma hma_same_object_refl (h : ServerHMA) : hma_same_object h h.
Proof. by repeat split. Qed.

Lemma hma_same_object_trans (h1 h2 h3 : ServerHMA) :
  hma_same_object h1 h2 → hma_same_object h2 h3 → hma_same_object h1 h3.
Proof.
  intros (? & ? & ? & ? & ? & ?) (? & ? & ? & ? & ? & ?).
  repeat split; congruence.
Qed.

Lemma posixLock_frame (e : Env) (fd iSlot eLock : Z) (bBlock : bool) :
  e_mmap (posixLock e fd iSlot eLock bBlock).1 = e_mmap e
  ∧ e_open (posixLock e fd iSlot eLock bBlock).1 = e_open e
  ∧ e_ftruncate (posixLock e fd iSlot eLock bBlock).1 = e_ftruncate e
  ∧ e_oslock (posixLock e fd iSlot eLock bBlock).1 = e_oslock e
  ∧ e_stat (posixLock e fd iSlot eLock bBlock).1 = e_stat e.
Proof.
  unfold posixLock, fcntl. destruct (hd (0, ENONE) (e_fcntl e)) as [res err].
  by case_match.
Qed.

Lemma serverMapFile_spec (e : Env) (h : ServerHMA) :
  hma_same_object h (serverMapFile e h).1.2
  ∧ aMapAddr (serverMapFile e h).1.2 = (hd (65536, ∅) (e_mmap e)).1
  ∧ aMap (serverMapFile e h).1.2 = (hd (65536, ∅) (e_mmap e)).2
  ∧ (serverMapFile e h).2
    = (if (hd (65536, ∅) (e_mmap e)).1 =? 0 then SQLITE_ERROR else SQLITE_OK)
  ∧ e_trace (serverMapFile e h).1.1 = e_trace e ++ [EvMmap (fd h) HMA_FILE_SIZE]
  ∧ e_fcntl (serverMapFile e h).1.1 = e_fcntl e
  ∧ e_pager (serverMapFile e h).1.1 = e_pager e
  ∧ e_mmap (serverMapFile e h).1.1 = tl (e_mmap e).
Proof.
  unfold serverMapFile, mmap. destruct (hd (65536, ∅) (e_mmap e)) as [addr words].
  cbn [fst snd]. destruct (addr =? 0); cbn; split_and!; done.
Qed.

Lemma serverOpenNew_spec (e : Env) (h : ServerHMA) (pPager : Z)
    (e' : Env) (h' : ServerHMA) (r : rc) :
  serverOpenNew e h pPager = (e', h', r) →
  zName h' = zName h ∧ nClient h' = nClient h ∧ aClient h' = aClient h
  ∧ st_dev h' = st_dev h ∧ st_ino h' = st_ino h
  ∧ fd h' = hd 3 (e_open e)
  ∧ (r = SQLITE_OK →
     0 <= hd 3 (e_open e)
     ∧ aMapAddr h' = (hd (65536, ∅) (e_mmap e)).1
     ∧ (hd (65536, ∅) (e_mmap e)).1 ≠ 0
     ∧ ((hd (0, ENONE) (e_fcntl e)).1 = 0 →
        aMap h' = ∅
        ∧ e_trace e' =
            e_trace e
            ++ [EvOpen (zName h);
                EvFcntl (hd 3 (e_open e)) F_SETLK (slot_lock F_WRLCK 0);
                EvFtruncate (hd 3 (e_open e)) HMA_FILE_SIZE;
                EvMmap (hd 3 (e_open e)) HMA_FILE_SIZE]
            ++ map (λ j, EvRollbackJournal pPager (Z.of_nat j)) (seq 0 16)
            ++ [EvFcntl (hd 3 (e_open e)) F_SETLKW (slot_lock F_RDLCK 0)])
     ∧ ((hd (0, ENONE) (e_fcntl e)).1 ≠ 0 →
        aMap h' = (hd (65536, ∅) (e_mmap e)).2
        ∧ e_trace e' =
            e_trace e
            ++ [EvOpen (zName h);
                EvFcntl (hd 3 (e_open e)) F_SETLK (slot_lock F_WRLCK 0);
                EvMmap (hd 3 (e_open e)) HMA_FILE_SIZE;
                EvFcntl (hd 3 (e_open e)) F_SETLKW (slot_lock F_RDLCK 0)])).
Proof.
  unfold serverOpenNew, open. set (fd1 := hd 3 (e_open e)).
  set (e1 := Build_Env _ _ _ _ _ _ _ _ _ _ _).
  set (h1 := Build_ServerHMA _ _ _ _ _ _ _ _).
  intros Hrun.
  destruct (Z.ltb_spec fd1 0) as [Hneg|Hfd].
  { rewrite bool_decide_eq_false_2 in Hrun by done. by inversion Hrun; subst. }
  rewrite bool_decide_eq_true_2 in Hrun by done.
  pose proof (posixLock_code e1 (fd h1) 0 SERVER_WRITE_LOCK false) as Hc3.
  pose proof (posixLock_event e1 (fd h1) 0 SERVER_WRITE_LOCK false) as Ht3.
  pose proof (posixLock_frame e1 (fd h1) 0 SERVER_WRITE_LOCK false) as (Hm3 & _).
  destruct (posixLock e1 (fd h1) 0 SERVER_WRITE_LOCK false) as [e3 r3].
  cbn [fst snd andb] in Hc3, Hm3, Ht3.
  change (e_fcntl e1) with (e_fcntl e) in Hc3. change (e_mmap e1) with (e_mmap e) in Hm3.
  change (e_trace e1) with (e_trace e ++ [EvOpen (zName h)]) in Ht3.
  change (EvFcntl _ _ _) with (EvFcntl fd1 F_SETLK (slot_lock F_WRLCK 0)) in Ht3.
  (* what remains once the object is mapped: the blocking reader-lock *)
  assert (∀ (e4 : Env) (h4 : ServerHMA) (r4 : rc),
            (if bool_decide (r4 = SQLITE_OK)
             then let '(e5, r5) := posixLock e4 (fd h4) 0 SERVER_READ_LOCK true in
                  (e5, h4, r5)
             else (e4, h4, r4)) = (e', h', r) →
            h' = h4
            ∧ (r = SQLITE_OK →
               r4 = SQLITE_OK
               ∧ e_trace e' =
                   e_trace e4 ++ [EvFcntl (fd h4) F_SETLKW (slot_lock F_RDLCK 0)])) as Hlast.
  { clear Hrun. intros e4 h4 r4 Hrun.
    destruct (decide (r4 = SQLITE_OK)) as [Hr4|Hr4].
    - rewrite bool_decide_eq_true_2 in Hrun by done.
      pose proof (posixLock_event e4 (fd h4) 0 SERVER_READ_LOCK true) as Hev.
      destruct (posixLock e4 (fd h4) 0 SERVER_READ_LOCK true) as [e5 r5].
      cbn [fst snd] in *. inversion Hrun; subst. done.
    - rewrite bool_decide_eq_false_2 in Hrun by done. inversion Hrun; subst. done. }
  destruct (Z.eqb_spec (hd (0, ENONE) (e_fcntl e)).1 0) as [Hgrant|Hrefuse]; subst r3.
  - (* the first to open the file *)
    rewrite bool_decide_eq_true_2 in Hrun by done.
    unfold ftruncate in Hrun. set (res := hd 0 (e_ftruncate e3)) in Hrun.
    set (ea := Build_Env _ _ _ _ _ _ _ _ _ _ _) in Hrun.
    change (Z.to_nat HMA_CLIENT_SLOTS) with 16%nat in Hrun.
    destruct (Z.eqb_spec res 0) as [Hres|Hres]; cbn [negb] in Hrun.
    + rewrite bool_decide_eq_true_2 in Hrun by done.
      pose proof (serverMapFile_spec ea h1) as (Hs & Hadr & Hmap & Hrc & Htr & _).
      destruct (serverMapFile ea h1) as [[ec hc] rcc]. cbn [fst snd] in *.
      change (e_mmap ea) with (e_mmap e3) in *. rewrite Hm3 in *.
      change (e_trace ea) with (e_trace e3 ++ [EvFtruncate fd1 HMA_FILE_SIZE]) in Htr.
      destruct Hs as (? & Hfdc & ? & ? & ? & ?).
      destruct (Z.eqb_spec (hd (65536, ∅) (e_mmap e)).1 0) as [Hnull|Hptr]; subst rcc.
      * rewrite bool_decide_eq_false_2 in Hrun by done.
        cbn [serverOpenRollback] in Hrun.
        rewrite bool_decide_eq_false_2 in Hrun by done.
        apply Hlast in Hrun as [-> Hout]. split_and!; try done.
        intros Hok. by destruct (Hout Hok).
      * rewrite bool_decide_eq_true_2 in Hrun by done.
        pose proof (serverOpenRollback_trace 16 ec pPager 0 SQLITE_OK) as Hrb.
        destruct (serverOpenRollback 16 ec pPager 0 SQLITE_OK) as [ee re].
        cbn [fst snd] in Hrb.
        apply Hlast in Hrun as [-> Hout]. cbn [fd hma_set_aMap] in Hout.
        split_and!; try done.
        intros Hok. destruct (Hout Hok) as [Hre Hev]. destruct (Hrb Hre) as [_ Htrb].
        rewrite Hfdc in Hev.
        split; [done|]. split; [done|]. split; [done|]. split; [|done].
        intros _. split; [done|].
        rewrite Hev, Htrb, Htr, Ht3, <- !app_assoc. done.
    + rewrite bool_decide_eq_false_2 in Hrun by done.
      rewrite bool_decide_eq_false_2 in Hrun by done.
      cbn [serverOpenRollback] in Hrun.
      rewrite bool_decide_eq_false_2 in Hrun by done.
      apply Hlast in Hrun as [-> Hout]. split_and!; try done.
      intros Hok. by destruct (Hout Hok).
  - (* the file is in use: map it as it is *)
    rewrite bool_decide_eq_false_2 in Hrun by done.
    pose proof (serverMapFile_spec e3 h1) as (Hs & Hadr & Hmap & Hrc & Htr & _).
    destruct (serverMapFile e3 h1) as [[e4 h4] r4]. cbn [fst snd] in *.
    rewrite Hm3 in *. destruct Hs as (? & Hfd4 & ? & ? & ? & ?).
    apply Hlast in Hrun as [-> Hout].
    split_and!; try done.
    intros Hok. destruct (Hout Hok) as [Hr4 Hev]. subst r4. rewrite Hfd4 in Hev.
    destruct (Z.eqb_spec (hd (65536, ∅) (e_mmap e)).1 0) as [Hnull|Hptr]; [done|].
    split; [done|]. split; [done|]. split; [done|]. split; [done|].
    intros _. split; [done|]. rewrite Hev, Htr, Ht3, <- !app_assoc. done.
Qed.

Lemma serverOpenRollback_skip (cnt : nat) (e : Env) (pPager i : Z) (r : rc) :
  r ≠ SQLITE_OK → serverOpenRollback cnt e pPager i r = (e, r).
Proof.
  intros Hr. destruct cnt; cbn [serverOpenRollback]; [done|].
  by rewrite bool_decide_eq_false_2.
Qed.

Lemma serverOpenRollback_run (cnt : nat) :
  ∀ (e : Env) (pPager i : Z) (r : rc),
    (∃ t, e_trace (serverOpenRollback cnt e pPager i r).1 = e_trace e ++ t
          ∧ Forall (λ ev, ∃ j, ev = EvRollbackJournal pPager j) t)
    ∧ ((serverOpenRollback cnt e pPager i r).2 = r
       ∨ (serverOpenRollback cnt e pPager i r).2 ∈ e_pager e)
    ∧ (∀ x, x ∈ e_pager (serverOpenRollback cnt e pPager i r).1 → x ∈ e_pager e).
Proof.
  induction cnt as [|cnt IH]; intros e pPager i r; cbn [serverOpenRollback].
  - split; [|split; [by left | done]]. exists []. by rewrite app_nil_r.
  - destruct (decide (r = SQLITE_OK)) as [Hr|Hr].
    + rewrite bool_decide_eq_true_2 by done.
      unfold sqlite3PagerRollbackJournal.
      set (e1 := Build_Env _ _ _ _ _ _ _ _ _ _ _).
      destruct (IH e1 pPager (i + 1) (hd SQLITE_OK (e_pager e)))
        as ((t & Ht & HP) & Hc & Hsub).
      split; [|split].
      * exists (EvRollbackJournal pPager i :: t). split.
        -- rewrite Ht. subst e1. cbn [e_trace]. by rewrite <- app_assoc.
        -- constructor; [by eexists | done].
      * destruct Hc as [Hc|Hc].
        -- rewrite Hc. destruct (hd_pager_code (e_pager e)) as [->|Hin]; [by left | by right].
        -- right. by apply elem_of_tl.
      * intros x Hx. apply elem_of_tl. by apply Hsub.
    + rewrite bool_decide_eq_false_2 by done. split; [|split; [by left | done]].
      exists []. by rewrite app_nil_r.
Qed.

Lemma serverOpenNew_run (e : Env) (h : ServerHMA) (pPager : Z)
    (e' : Env) (h' : ServerHMA) (r : rc) :
  serverOpenNew e h pPager = (e', h', r) →
  (r = SQLITE_OK ∨ r = SQLITE_ERROR ∨ r = SQLITE_BUSY ∨ r = SQLITE_BUSY_DEADLOCK
   ∨ r ∈ e_pager e)
  ∧ ∃ t, e_trace e' = e_trace e ++ EvOpen (zName h) :: t
         ∧ (aMapAddr h' = (hd (65536, ∅) (e_mmap e)).1
            ∨ (aMapAddr h' = aMapAddr h ∧ ∀ f s, EvMmap f s ∉ t))
         ∧ (∀ x, x ∈ e_pager e' → x ∈ e_pager e).
Proof.
  unfold serverOpenNew, open. set (fd1 := hd 3 (e_open e)).
  set (e1 := Build_Env _ _ _ _ _ _ _ _ _ _ _).
  set (h1 := Build_ServerHMA _ _ _ _ _ _ _ _).
  intros Hrun.
  assert (e_trace e1 = e_trace e ++ [EvOpen (zName h)]) as Ht1 by done.
  destruct (Z.ltb_spec fd1 0) as [Hneg|Hfd].
  { rewrite bool_decide_eq_false_2 in Hrun by done. inversion Hrun; subst.
    split; [auto|]. exists [EvLog SQLITE_CANTOPEN "Failed to open(%s)" (ArgStr (zName h))].
    split; [cbn; by rewrite <- app_assoc|]. split; [|done]. right. split; [done|].
    intros f s Hin. apply list_elem_of_singleton in Hin. done. }
  rewrite bool_decide_eq_true_2 in Hrun by done.
  pose proof (posixLock_codes e1 (fd h1) 0 SERVER_WRITE_LOCK false) as [Hc3 _].
  pose proof (posixLock_event e1 (fd h1) 0 SERVER_WRITE_LOCK false) as Ht3.
  pose proof (posixLock_frame e1 (fd h1) 0 SERVER_WRITE_LOCK false) as (Hm3 & _).
  pose proof (posixLock_scripts e1 (fd h1) 0 SERVER_WRITE_LOCK false) as (_ & _ & Hp3 & _).
  destruct (posixLock e1 (fd h1) 0 SERVER_WRITE_LOCK false) as [e3 r3].
  cbn [fst snd] in Hc3, Ht3, Hm3, Hp3. rewrite Ht1 in Ht3.
  change (e_mmap e1) with (e_mmap e) in Hm3. change (e_pager e1) with (e_pager e) in Hp3.
  set (ev3 := EvFcntl _ _ _) in Ht3.
  (* what remains once the object is mapped: the blocking reader-lock *)
  assert (∀ (e4 : Env) (h4 : ServerHMA) (r4 : rc),
            (if bool_decide (r4 = SQLITE_OK)
             then let '(e5, r5) := posixLock e4 (fd h4) 0 SERVER_READ_LOCK true in
                  (e5, h4, r5)
             else (e4, h4, r4)) = (e', h', r) →
            h' = h4
            ∧ (r = r4 ∨ r = SQLITE_OK ∨ r = SQLITE_BUSY ∨ r = SQLITE_BUSY_DEADLOCK)
            ∧ e_pager e' = e_pager e4
            ∧ ∃ t5, e_trace e' = e_trace e4 ++ t5 ∧ ∀ f s, EvMmap f s ∉ t5) as Hlast.
  { clear Hrun. intros e4 h4 r4 Hrun.
    destruct (decide (r4 = SQLITE_OK)) as [Hr4|Hr4].
    - rewrite bool_decide_eq_true_2 in Hrun by done.
      pose proof (posixLock_event e4 (fd h4) 0 SERVER_READ_LOCK true) as Hev.
      pose proof (posixLock_codes e4 (fd h4) 0 SERVER_READ_LOCK true) as [Hc _].
      pose proof (posixLock_scripts e4 (fd h4) 0 SERVER_READ_LOCK true) as (_ & _ & Hp5 & _).
      destruct (posixLock e4 (fd h4) 0 SERVER_READ_LOCK true) as [e5 r5].
      cbn [fst snd] in *. inversion Hrun; subst. split; [done|]. split; [tauto|].
      split; [done|].
      eexists. split; [exact Hev|]. intros f s Hin.
      apply list_elem_of_singleton in Hin. done.
    - rewrite bool_decide_eq_false_2 in Hrun by done. inversion Hrun; subst.
      split; [done|]. split; [by left|]. split; [done|].
      exists []. split; [by rewrite app_nil_r|].
      intros f s Hin. by apply elem_of_nil in Hin. }
  destruct (decide (r3 = SQLITE_OK)) as [Hgrant|Hrefuse].
  - (* the first to open the file *)
    rewrite bool_decide_eq_true_2 in Hrun by done.
    unfold ftruncate in Hrun. set (res := hd 0 (e_ftruncate e3)) in Hrun.
    set (ea := Build_Env _ _ _ _ _ _ _ _ _ _ _) in Hrun.
    assert (e_trace ea = e_trace e ++ [EvOpen (zName h); ev3;
                                       EvFtruncate (fd h1) HMA_FILE_SIZE]) as Hta.
    { subst ea. cbn [e_trace]. rewrite Ht3, <- !app_assoc. done. }
    destruct (Z.eqb_spec res 0) as [Hres|Hres]; cbn [negb] in Hrun.
    + rewrite Hgrant in Hrun. rewrite bool_decide_eq_true_2 in Hrun by done.
      pose proof (serverMapFile_spec ea h1) as (Hs & Hadr & Hmap & Hrc & Htr & _ & Hpc & _).
      destruct (serverMapFile ea h1) as [[ec hc] rcc]. cbn [fst snd] in *.
      change (e_mmap ea) with (e_mmap e3) in *. rewrite Hm3 in *.
      change (e_pager ea) with (e_pager e3) in *. rewrite Hp3 in *.
      rewrite Hta in Htr.
      set (rd := if bool_decide (rcc = SQLITE_OK)
                 then (hma_set_aMap hc ∅, rcc) else (hc, SQLITE_ERROR)) in Hrun.
      assert (aMapAddr rd.1 = (hd (65536, ∅) (e_mmap e)).1
              ∧ (rd.2 = SQLITE_OK ∨ rd.2 = SQLITE_ERROR)) as [Hadr' Hrd].
      { subst rd. destruct (decide (rcc = SQLITE_OK)) as [Hok|Hno].
        - rewrite bool_decide_eq_true_2 by done. split; [done|]. by left.
        - rewrite bool_decide_eq_false_2 by done. split; [done|]. by right. }
      destruct rd as [hd0 rd0]. cbn [fst snd] in *.
      pose proof (serverOpenRollback_run (Z.to_nat HMA_CLIENT_SLOTS) ec pPager 0 rd0)
        as ((trb & Htrb & Hrb) & Hcrb & Hsub).
      destruct (serverOpenRollback (Z.to_nat HMA_CLIENT_SLOTS) ec pPager 0 rd0) as [ee re].
      cbn [fst snd] in *. rewrite Hpc in Hcrb, Hsub.
      apply Hlast in Hrun as (-> & Hr & Hp5 & t5 & Ht5 & Hno5).
      split.
      { destruct Hr as [->|Hr]; [|tauto]. destruct Hcrb as [->|Hin]; [|tauto].
        destruct Hrd as [->| ->]; tauto. }
      eexists. split; [|split; [by left | by rewrite Hp5]].
      rewrite Ht5, Htrb, Htr, <- !app_assoc. done.
    + rewrite bool_decide_eq_false_2 in Hrun by done.
      cbv beta iota in Hrun.
      rewrite bool_decide_eq_false_2 in Hrun by done.
      cbv beta iota in Hrun. rewrite serverOpenRollback_skip in Hrun by done.
      rewrite bool_decide_eq_false_2 in Hrun by done.
      inversion Hrun; subst e' h' r. split; [tauto|].
      eexists. split.
      { cbn [sqlite3_log env_log e_trace]. rewrite Hta, <- !app_assoc. done. }
      split; [|by cbn; rewrite Hp3].
      right. split; [done|]. intros f s Hin. cbn in Hin.
      rewrite !elem_of_cons in Hin. destruct Hin as [Hin|[Hin|[Hin|Hin]]]; [done..|].
      by apply elem_of_nil in Hin.
  - (* the file is in use: map it as it is *)
    rewrite bool_decide_eq_false_2 in Hrun by done.
    pose proof (serverMapFile_spec e3 h1) as (Hs & Hadr & Hmap & Hrc & Htr & _ & Hpc & _).
    destruct (serverMapFile e3 h1) as [[e4 h4] r4]. cbn [fst snd] in *.
    rewrite Hm3 in *. rewrite Ht3 in Htr.
    apply Hlast in Hrun as (-> & Hr & Hp5 & t5 & Ht5 & Hno5).
    split.
    { destruct Hr as [->|Hr]; [|tauto]. rewrite Hrc. destruct (_ =? 0); tauto. }
    eexists. split; [|split; [by left | by rewrite Hp5, Hpc, Hp3]].
    rewrite Ht5, Htr, <- !app_assoc. done.
Qed.

Lemma hma_update_update (g : Registry) (a : Z) (h1 h2 : ServerHMA) :
  hma_update (hma_update g a h1) a h2 = hma_update g a h2.
Proof.
  induction g as [|[a0 h0] g IH]; simpl; [done|].
  destruct (Z.eqb_spec a0 a) as [->|Hne]; simpl.
  - by rewrite Z.eqb_refl.
  - apply Z.eqb_neq in Hne. by rewrite Hne, IH.
Qed.

Lemma hma_update_id (g : Registry) (a : Z) (h : ServerHMA) :
  hma_lookup g a = Some h → hma_update g a h = g.
Proof.
  induction g as [|[a0 h0] g IH]; simpl; [done|].
  destruct (Z.eqb_spec a0 a) as [->|Hne]; intros Hl.
  - by inversion Hl.
  - by rewrite IH.
Qed.

Lemma hma_update_fst (g : Registry) (a : Z) (h : ServerHMA) :
  map fst (hma_update g a h) = map fst g.
Proof.
  induction g as [|[a0 h0] g IH]; simpl; [done|].
  destruct (a0 =? a); simpl; [done | by rewrite IH].
Qed.

Lemma hma_lookup_elem (g : Registry) (a : Z) (h : ServerHMA) :
  hma_lookup g a = Some h → (a, h) ∈ g.
Proof.
  induction g as [|[a0 h0] g IH]; simpl; [done|].
  destruct (Z.eqb_spec a0 a) as [->|Hne]; intros Hl.
  - inversion Hl; subst. apply list_elem_of_here.
  - apply list_elem_of_further. by apply IH.
Qed.

Lemma hma_update_count (g : Registry) (a : Z) (h : ServerHMA) :
  1 <= nClient h →
  Forall (λ ah, 1 <= nClient (snd ah)) g →
  Forall (λ ah, 1 <= nClient (snd ah)) (hma_update g a h).
Proof.
  intros Hh. induction g as [|[a0 h0] g IH]; simpl; [done|].
  intros Hall. apply Forall_cons in Hall as [H0 Hall].
  destruct (a0 =? a); constructor; auto.
Qed.

Lemma registry_ok_lookup (g : Registry) (a : Z) (h : ServerHMA) :
  registry_ok g → hma_lookup g a = Some h → a ≠ 0 ∧ 1 <= nClient h.
Proof.
  intros (Hnd & Hnz & Hall) Hl. apply hma_lookup_elem in Hl. split.
  - intros ->. apply Hnz. apply list_elem_of_fmap. by exists (0, h).
  - rewrite Forall_forall in Hall. by apply (Hall (a, h)).
Qed.

Lemma registry_ok_update (g : Registry) (a : Z) (h : ServerHMA) :
  registry_ok g → 1 <= nClient h → registry_ok (hma_update g a h).
Proof.
  intros (Hnd & Hnz & Hall) Hh. split_and!.
  - by rewrite hma_update_fst.
  - by rewrite hma_update_fst.
  - by apply hma_update_count.
Qed.

(** serverOpenHma for a database whose object this process has already: the
    object found by device and inode is handed out with its count of users
    raised by one, and the call does nothing but stat: the file is not
    opened, locked or mapped a second time.  serverDecrHmaRefcount on the
    object handed out takes the registry back to what it was. *)
Theorem serverOpenHma_shares_object (e : Env) (g : Registry) (pPager : Z)
    (zPath : string) (a : Z) (h : ServerHMA) :
  registry_ok g →
  (hd (0, 0, 0) (e_stat e)).1.1 = 0 →
  hma_find g (hd (0, 0, 0) (e_stat e)).1.2 (hd (0, 0, 0) (e_stat e)).2 = Some (a, h) →
  ∃ e' g',
    serverOpenHma e g pPager zPath = (e', g', SQLITE_OK, a)
    ∧ a ≠ 0
    ∧ e_trace e' = e_trace e ++ [EvStat zPath]
    ∧ hma_lookup g' a = Some (hma_set_nClient h (nClient h + 1))
    ∧ (∀ a', a' ≠ a → hma_lookup g' a' = hma_lookup g a')
    ∧ registry_ok g'
    ∧ serverDecrHmaRefcount e' g' a = (e', g).
Proof.
  intros Hok Hres Hfind. unfold serverOpenHma, stat.
  destruct (hd (0, 0, 0) (e_stat e)) as [[res dev] ino]. cbn [fst snd] in *. subst res.
  cbn [Z.eqb negb]. rewrite Hfind.
  destruct (hma_find_lookup g dev ino a h (proj1 Hok) Hfind) as (Hl & _ & _ & _).
  destruct (registry_ok_lookup g a h Hok Hl) as [Hnz Hn].
  eexists _, _. split; [reflexivity|]. split_and!.
  - done.
  - done.
  - by eapply hma_lookup_update_eq.
  - intros a' Hne. by apply hma_lookup_update_ne.
  - apply registry_ok_update; [done|]. cbn. lia.
  - unfold serverDecrHmaRefcount. apply Z.eqb_neq in Hnz. rewrite Hnz.
    rewrite (hma_lookup_update_eq g a h _ Hl). cbn [nClient hma_set_nClient].
    destruct (Z.leb_spec (nClient h + 1 - 1) 0) as [Hle|Hgt]; [lia|].
    rewrite hma_update_update. f_equal. apply hma_update_id. rewrite Hl. f_equal.
    destruct h as [zn f n ac ad am sd si]. unfold hma_set_nClient. cbn. f_equal. lia.
Qed.

Lemma serverOpenHma_shares_object_witness :
  ∃ e' g',
    serverOpenHma env_connect_local [(4096, hma_full)] 7 "db" = (e', g', SQLITE_OK, 4096)
    ∧ 4096 ≠ 0
    ∧ e_trace e' = e_trace env_connect_local ++ [EvStat "db"]
    ∧ hma_lookup g' 4096 = Some (hma_set_nClient hma_full (nClient hma_full + 1))
    ∧ (∀ a', a' ≠ 4096 → hma_lookup g' a' = hma_lookup [(4096, hma_full)] a')
    ∧ registry_ok g'
    ∧ serverDecrHmaRefcount e' g' 4096 = (e', [(4096, hma_full)]).
Proof.
  apply (serverOpenHma_shares_object env_connect_local [(4096, hma_full)] 7 "db"
           4096 hma_full).
  - split_and!.
    + simpl. apply NoDup_singleton.
    + simpl. intros Hin. apply list_elem_of_singleton in Hin. discriminate.
    + repeat constructor. simpl. lia.
  - reflexivity.
  - reflexivity.
Defined.

(** A call of serverOpenHma that fails hands out no object and leaves the
    registry as it was.  It fails with ERROR (stat, open, ftruncate or mmap),
    NOMEM, with BUSY or BUSY_DEADLOCK from the blocking reader-lock on the DMS
    slot, or with the code of a journal rollback.  What the call has acquired
    by then is given back: the object allocated is freed last of all, a
    descriptor that open returned is closed, a mapping that mmap returned is
    unmapped. *)
Theorem serverOpenHma_failure_cleans_up (e : Env) (g : Registry) (pPager : Z)
    (zPath : string) (e' : Env) (g' : Registry) (r : rc) (pH : Z) :
  serverOpenHma e g pPager zPath = (e', g', r, pH) →
  r ≠ SQLITE_OK →
  pH = 0 ∧ g' = g
  ∧ (r = SQLITE_ERROR ∨ r = SQLITE_NOMEM ∨ r = SQLITE_BUSY ∨ r = SQLITE_BUSY_DEADLOCK
     ∨ r ∈ e_pager e)
  ∧ ∃ t, e_trace e' = e_trace e ++ EvStat zPath :: t
     ∧ (hd 4096 (e_alloc e) ≠ 0 → (∃ n, EvAlloc n ∈ t) →
        last t = Some (EvFree (hd 4096 (e_alloc e))))
     ∧ (0 <= hd 3 (e_open e) → (∃ z, EvOpen z ∈ t) → EvClose (hd 3 (e_open e)) ∈ t)
     ∧ ((hd (65536, ∅) (e_mmap e)).1 ≠ 0 → (∃ f s, EvMmap f s ∈ t) →
        EvMunmap (hd (65536, ∅) (e_mmap e)).1 ∈ t).
Proof.
  unfold serverOpenHma, stat. destruct (hd (0, 0, 0) (e_stat e)) as [[res dev] ino].
  set (e1 := Build_Env _ _ _ _ _ _ _ _ _ _ _).
  destruct (Z.eqb_spec res 0) as [Hres|Hres]; cbn [negb].
  2:{ intros Hrun Hr. inversion Hrun; subst. split_and!; [done | done | by left |].
      eexists [_]. split; [cbn; by rewrite <- app_assoc|].
      split_and!; intros _ Hin; exfalso.
      - destruct Hin as [n Hin]. by apply list_elem_of_singleton in Hin.
      - destruct Hin as [n Hin]. by apply list_elem_of_singleton in Hin.
      - destruct Hin as (f & s & Hin). by apply list_elem_of_singleton in Hin. }
  destruct (hma_find g dev ino) as [[a h]|].
  { intros Hrun Hr. by inversion Hrun; subst. }
  unfold sqlite3_malloc. set (pNew := hd 4096 (e_alloc e1)).
  change (hd 4096 (e_alloc e)) with pNew.
  set (e2 := Build_Env _ _ _ _ _ _ _ _ _ _ _).
  set (nByte := sizeof_ServerHMA + Z.of_nat (String.length zPath) + 1 + 4).
  destruct (Z.eqb_spec pNew 0) as [Hnull|Hptr].
  { intros Hrun Hr. inversion Hrun; subst e' g' r pH.
    split_and!; [done | done | by auto |].
    exists [EvAlloc nByte]. split; [cbn; by rewrite <- app_assoc|].
    split_and!; intros ? Hin; exfalso; [done | |].
    - destruct Hin as [n Hin]. by apply list_elem_of_singleton in Hin.
    - destruct Hin as (f & s & Hin). by apply list_elem_of_singleton in Hin. }
  set (h0 := Build_ServerHMA _ _ _ _ _ _ _ _).
  destruct (serverOpenNew e2 h0 pPager) as [[e3 h3] r3] eqn:Hnew.
  pose proof (serverOpenNew_spec _ _ _ _ _ _ Hnew) as (_ & Hn3 & _ & _ & _ & Hfd3 & _).
  pose proof (serverOpenNew_run _ _ _ _ _ _ Hnew) as (Hc3 & tn & Ht3 & Hmap3 & Hsub3).
  change (e_open e2) with (e_open e) in *. change (e_mmap e2) with (e_mmap e) in *.
  change (e_pager e2) with (e_pager e) in *.
  change (e_trace e2) with ((e_trace e ++ [EvStat zPath]) ++ [EvAlloc nByte]) in *.
  change (nClient h0) with 1 in *. change (aMapAddr h0) with 0 in *.
  destruct (decide (r3 = SQLITE_OK)) as [Hok|Hno].
  { rewrite bool_decide_eq_true_2 by done. intros Hrun Hr. by inversion Hrun; subst. }
  rewrite bool_decide_eq_false_2 by done. cbn [negb].
  unfold serverDecrHmaRefcount. cbn [hma_lookup hma_unlink].
  apply Z.eqb_neq in Hptr. rewrite Hptr, Z.eqb_refl. cbn [nClient hma_set_nClient aMapAddr fd].
  rewrite Hn3. cbn [Z.sub Z.leb Z.compare Z.add Z.opp Z.pos_sub]. rewrite Hfd3.
  intros Hrun Hr. inversion Hrun; subst e' g' r pH. clear Hrun.
  split_and!; [done | done | |].
  { destruct Hc3 as [?|[?|[?|[?|?]]]]; [done | auto..]. }
  set (mun := if aMapAddr h3 =? 0 then [] else [EvMunmap (aMapAddr h3)]).
  set (clo := if 0 <=? hd 3 (e_open e) then [EvClose (hd 3 (e_open e))] else []).
  exists ((EvAlloc nByte :: EvOpen (zName h0) :: tn ++ mun ++ clo) ++ [EvFree pNew]).
  split.
  { subst mun clo. unfold sqlite3_free.
    destruct (aMapAddr h3 =? 0), (0 <=? hd 3 (e_open e)); cbn [negb env_log e_trace];
      rewrite Ht3; repeat (progress cbn [app] || rewrite <- app_assoc || rewrite app_nil_r);
      done. }
  split_and!.
  - intros _ _. apply last_snoc.
  - intros Hfd _. subst clo. destruct (Z.leb_spec 0 (hd 3 (e_open e))); [|lia].
    rewrite elem_of_app. left. do 2 apply list_elem_of_further.
    rewrite !elem_of_app. right. right. apply list_elem_of_here.
  - intros Hadr (f & s & Hin). subst mun.
    assert (aMapAddr h3 = (hd (65536, ∅) (e_mmap e)).1) as Hmapped.
    { destruct Hmap3 as [?|[_ Hnone]]; [done|]. exfalso.
      rewrite elem_of_app in Hin. destruct Hin as [Hin|Hin].
      - rewrite !elem_of_cons, !elem_of_app in Hin.
        destruct Hin as [Hin|[Hin|[Hin|[Hin|Hin]]]]; [done | done | by eapply Hnone | |].
        + destruct (aMapAddr h3 =? 0); [by apply elem_of_nil in Hin|].
          by apply list_elem_of_singleton in Hin.
        + subst clo. destruct (0 <=? hd 3 (e_open e)); [|by apply elem_of_nil in Hin].
          by apply list_elem_of_singleton in Hin.
      - by apply list_elem_of_singleton in Hin. }
    rewrite Hmapped. apply Z.eqb_neq in Hadr. rewrite Hadr.
    rewrite elem_of_app. left. do 2 apply list_elem_of_further.
    rewrite !elem_of_app. right. left. apply list_elem_of_here.
Qed.

Lemma serverOpenHma_failure_cleans_up_witness :
  ∃ e' g' r pH,
    serverOpenHma (env_open [] [20480] ∅ [SQLITE_OK; SQLITE_IOERR]) [] 7 "db"
    = (e', g', r, pH)
    ∧ r = SQLITE_IOERR ∧ pH = 0.
Proof.
  eexists _, _, _, _. split; [vm_compute; reflexivity|]. split; [reflexivity|].
  refine (proj1 (serverOpenHma_failure_cleans_up
                   (env_open [] [20480] ∅ [SQLITE_OK; SQLITE_IOERR]) [] 7 "db"
                   _ _ SQLITE_IOERR _ _ _)).
  - vm_compute. reflexivity.
  - discriminate.
Defined.



(** ** sqlite3ServerConnect and sqlite3ServerDisconnect *)

Lemma serverRollbackClient_object (fuel : nat) (e : Env) (h : ServerHMA) (p : Server)
    (b : Z) (e' : Env) (h' : ServerHMA) (r : rc) :
  serverRollbackClient fuel e h p b = Some (e', h', r) →
  h' = hma_set_aMap h (aMap h').
Proof.
  unfold serverRollbackClient.
  destruct (sqlite3PagerRollbackJournal _ _ _) as [e2 r2].
  case_bool_decide.
  - destruct (serverRollbackSlots _ _ _ _ _ _ _) as [[e3 m3]|]; [|done].
    intros Hrun. by inversion Hrun; subst.
  - intros Hrun. inversion Hrun; subst. by destruct h'.
Qed.

Lemma serverConnectScan_spec (cnt : nat) :
  ∀ (fuel : nat) (e : Env) (h : ServerHMA) (p : Server) (i : Z)
    (e' : Env) (h' : ServerHMA) (r : rc) (i' : Z),
    serverConnectScan cnt fuel e h p i = Some (e', h', r, i') →
    h' = hma_set_aMap h (aMap h')
    ∧ i <= i' <= i + Z.of_nat cnt
    ∧ (i' = i + Z.of_nat cnt → r = SQLITE_OK ∧ h' = h)
    ∧ (i' < i + Z.of_nat cnt →
       default 0 (aClient h !! i') = 0
       ∧ ∃ t, e_trace e' =
                t ++ [EvFcntl (fd h) F_SETLK
                        (slot_lock (if bool_decide (r = SQLITE_OK)
                                    then F_RDLCK else F_UNLCK) (i' + 1))])
    ∧ (r = SQLITE_OK ∨ r ∈ e_pager e)
    ∧ ∃ t, e_trace e' = e_trace e ++ t.
Proof.
  induction cnt as [|cnt IH]; intros fuel e h p i e' h' r i' Hrun;
    cbn [serverConnectScan] in Hrun.
  { inversion Hrun; subst. split; [by destruct h'|]. split; [lia|].
    split; [intros _; split; reflexivity|]. split; [lia|]. split; [by left|].
    exists []. by rewrite app_nil_r. }
  destruct (Z.eqb_spec (default 0 (aClient h !! i)) 0) as [Hfree|Hused].
  2:{ destruct (IH _ _ _ _ _ _ _ _ _ Hrun) as (Hh & Hi & Hend & Hbrk & Hc & Ht).
      split; [done|]. split; [lia|].
      split; [intros Heq; apply Hend; lia|].
      split; [intros Hlt; apply Hbrk; lia|]. done. }
  pose proof (posixLock_event e (fd h) (i + 1) SERVER_WRITE_LOCK false) as Hev.
  pose proof (posixLock_scripts e (fd h) (i + 1) SERVER_WRITE_LOCK false) as (_ & _ & Hp & _).
  destruct (posixLock e (fd h) (i + 1) SERVER_WRITE_LOCK false) as [e1 res].
  cbn [fst snd] in Hev, Hp.
  destruct (decide (res = SQLITE_OK)) as [Hres|Hres].
  2:{ rewrite bool_decide_eq_false_2 in Hrun by done.
      destruct (IH _ _ _ _ _ _ _ _ _ Hrun) as (Hh & Hi & Hend & Hbrk & Hc & (t & Ht)).
      split; [done|]. split; [lia|].
      split; [intros Heq; apply Hend; lia|].
      split; [intros Hlt; apply Hbrk; lia|].
      split; [by rewrite <- Hp|].
      eexists. rewrite Ht, Hev, <- app_assoc. done. }
  rewrite bool_decide_eq_true_2 in Hrun by done.
  pose proof (read_word_steps (no_wait false) (iClient p) e1 (aMap h) (serverClientSlot i))
    as Hrd.
  destruct (read_word (iClient p) e1 (aMap h) (serverClientSlot i)) as [[e1' m1] v].
  cbn [fst snd] in Hrd.
  assert (∃ e2 h2,
            (if negb (v =? 0)
             then serverRollbackClient fuel e1' (hma_set_aMap h m1) p i
             else Some (e1', hma_set_aMap h m1, SQLITE_OK)) = Some (e2, h2, r)
            ∧ e' = (posixLock e2 (fd h2) (i + 1)
                      (if negb (rc_nonzero r) then SERVER_READ_LOCK else SERVER_NO_LOCK)
                      false).1
            ∧ h' = h2 ∧ i' = i) as (e2 & h2 & Hmid & -> & -> & ->).
  { destruct (if negb (v =? 0) then _ else _) as [[[e2 h2] r2]|]; [|done].
    destruct (posixLock e2 _ _ _ _) as [e3 r3] eqn:Hpl. inversion Hrun; subst.
    exists e2, h'. by rewrite Hpl. }
  clear Hrun.
  assert (h2 = hma_set_aMap h (aMap h2) ∧ env_steps (no_wait false) e1' e2
          ∧ (r = SQLITE_OK ∨ r ∈ e_pager e1')) as (Hh2 & Hst & Hc).
  { destruct (v =? 0); cbn [negb] in Hmid.
    - inversion Hmid; subst. split_and!; [done | apply env_steps_refl | by left].
    - pose proof (serverRollbackClient_object _ _ _ _ _ _ _ _ Hmid) as Hobj.
      apply (serverRollbackClient_steps false) in Hmid as [Hst Hc].
      rewrite Hobj. cbn. split_and!; done. }
  pose proof (posixLock_event e2 (fd h2) (i + 1)
                (if negb (rc_nonzero r) then SERVER_READ_LOCK else SERVER_NO_LOCK) false)
    as Hev2.
  assert (fd h2 = fd h) as Hfd2 by (by rewrite Hh2).
  destruct Hrd as [Hp1 (t1 & Ht1 & _)]. destruct Hst as [Hp2 (t2 & Ht2 & _)].
  split; [done|]. split; [lia|]. split; [lia|]. split; [|split].
  - intros _. split; [done|]. eexists. rewrite Hev2, Hfd2. f_equal. f_equal.
    by destruct r.
  - destruct Hc as [?|Hin]; [by left|]. right. rewrite <- Hp. by apply Hp1.
  - eexists. rewrite Hev2, Ht2, Ht1, Hev, <- !app_assoc. done.
Qed.

Lemma serverOpenHma_cases (e : Env) (g : Registry) (pPager : Z) (zPath : string)
    (e1 : Env) (g1 : Registry) (r : rc) (pH : Z) :
  registry_ok g →
  serverOpenHma e g pPager zPath = (e1, g1, r, pH) →
  (∀ x, x ∈ e_pager e1 → x ∈ e_pager e)
  ∧ (∃ t, e_trace e1 = e_trace e ++ t)
  ∧ (r ≠ SQLITE_OK →
     pH = 0 ∧ g1 = g
     ∧ (r = SQLITE_ERROR ∨ r = SQLITE_NOMEM ∨ r = SQLITE_BUSY ∨ r = SQLITE_BUSY_DEADLOCK
        ∨ r ∈ e_pager e))
  ∧ (r = SQLITE_OK →
     pH ≠ 0
     ∧ ∃ h1, hma_lookup g1 pH = Some h1
        ∧ ((g1 = (pH, h1) :: g ∧ nClient h1 = 1 ∧ aClient h1 = ∅
            ∧ pH = hd 4096 (e_alloc e))
           ∨ (∃ h, hma_lookup g pH = Some h
                   ∧ h1 = hma_set_nClient h (nClient h + 1)
                   ∧ g1 = hma_update g pH h1))).
Proof.
  intros Hg. unfold serverOpenHma, stat.
  destruct (hd (0, 0, 0) (e_stat e)) as [[res dev] ino].
  set (e0 := Build_Env _ _ _ _ _ _ _ _ _ _ _).
  assert (e_trace e0 = e_trace e ++ [EvStat zPath]) as Ht0 by done.
  destruct (Z.eqb_spec res 0) as [Hres|Hres]; cbn [negb].
  2:{ intros Hrun. inversion Hrun; subst. split; [done|]. split.
      { eexists. cbn. by rewrite <- app_assoc. }
      split; [|done]. intros _. auto. }
  destruct (hma_find g dev ino) as [[a h]|] eqn:Hfind.
  { intros Hrun. inversion Hrun; subst. split; [done|]. split; [by eexists|].
    split; [done|]. intros _.
    destruct (hma_find_lookup g dev ino pH h (proj1 Hg) Hfind) as (Hl & _ & _ & _).
    destruct (registry_ok_lookup g pH h Hg Hl) as [Hnz Hn].
    split; [done|]. eexists. split; [by eapply hma_lookup_update_eq|].
    right. by exists h. }
  unfold sqlite3_malloc. set (pNew := hd 4096 (e_alloc e0)).
  set (e2 := Build_Env _ _ _ _ _ _ _ _ _ _ _).
  assert (e_trace e2 = e_trace e ++ [EvStat zPath; EvAlloc
            (sizeof_ServerHMA + Z.of_nat (String.length zPath) + 1 + 4)]) as Ht2.
  { subst e2. cbn [e_trace]. by rewrite Ht0, <- app_assoc. }
  destruct (Z.eqb_spec pNew 0) as [Hnull|Hptr].
  { intros Hrun. inversion Hrun; subst e1 g1 r pH. split; [done|].
    split; [by eexists|]. split; [|done]. intros _. auto. }
  set (h0 := Build_ServerHMA _ _ _ _ _ _ _ _).
  destruct (serverOpenNew e2 h0 pPager) as [[e3 h3] r3] eqn:Hnew.
  pose proof (serverOpenNew_spec _ _ _ _ _ _ Hnew) as (_ & Hn3 & Hc3 & _).
  pose proof (serverOpenNew_run _ _ _ _ _ _ Hnew) as (Hcode & tn & Ht3 & _ & Hsub3).
  change (e_pager e2) with (e_pager e) in *.
  change (nClient h0) with 1 in *. change (aClient h0) with (∅ : gmap Z Z) in *.
  destruct (decide (r3 = SQLITE_OK)) as [Hok|Hno].
  { rewrite bool_decide_eq_true_2 by done. cbn [negb].
    intros Hrun. inversion Hrun; subst e1 g1 r pH. split; [done|].
    split; [eexists; by rewrite Ht3, Ht2, <- app_assoc|].
    split; [done|]. intros _. split; [done|]. exists h3.
    split; [cbn [hma_lookup]; by rewrite Z.eqb_refl|]. left. done. }
  rewrite bool_decide_eq_false_2 by done. cbn [negb].
  unfold serverDecrHmaRefcount. cbn [hma_lookup hma_unlink].
  apply Z.eqb_neq in Hptr. rewrite Hptr, Z.eqb_refl. cbn [nClient hma_set_nClient aMapAddr fd].
  rewrite Hn3. cbn [Z.sub Z.leb Z.compare Z.add Z.opp Z.pos_sub].
  intros Hrun. inversion Hrun; subst e1 g1 r pH. clear Hrun.
  split.
  { unfold sqlite3_free. by destruct (negb (aMapAddr h3 =? 0)), (0 <=? fd h3). }
  split.
  { unfold sqlite3_free.
    destruct (negb (aMapAddr h3 =? 0)), (0 <=? fd h3); cbn [env_log e_trace];
      rewrite Ht3, Ht2, <- ?app_assoc; by eexists. }
  split; [|done]. intros _. split; [done|]. split; [done|].
  destruct Hcode as [?|[?|[?|[?|?]]]]; [done | auto..].
Qed.

Lemma hma_unlink_update (g : Registry) (a : Z) (h : ServerHMA) :
  hma_unlink (hma_update g a h) a = hma_unlink g a.
Proof.
  induction g as [|[a0 h0] g IH]; simpl; [done|].
  destruct (Z.eqb_spec a0 a) as [->|Hne]; simpl.
  - by rewrite Z.eqb_refl.
  - apply Z.eqb_neq in Hne. by rewrite Hne, IH.
Qed.

Lemma serverDecrHmaRefcount_many (e : Env) (g : Registry) (a : Z) (h : ServerHMA) :
  a ≠ 0 → hma_lookup g a = Some h → 1 < nClient h →
  serverDecrHmaRefcount e g a = (e, hma_update g a (hma_set_nClient h (nClient h - 1))).
Proof.
  intros Hnz Hl Hn. unfold serverDecrHmaRefcount.
  apply Z.eqb_neq in Hnz. rewrite Hnz, Hl. cbn [nClient hma_set_nClient].
  destruct (Z.leb_spec (nClient h - 1) 0); [lia | done].
Qed.

Lemma serverDecrHmaRefcount_last (e : Env) (g : Registry) (a : Z) (h : ServerHMA) :
  a ≠ 0 → hma_lookup g a = Some h → nClient h <= 1 →
  (serverDecrHmaRefcount e g a).2 = hma_unlink g a
  ∧ e_trace (serverDecrHmaRefcount e g a).1 =
      e_trace e
      ++ (if aMapAddr h =? 0 then [] else [EvMunmap (aMapAddr h)])
      ++ (if 0 <=? fd h then [EvClose (fd h)] else [])
      ++ [EvFree a]
  ∧ e_pager (serverDecrHmaRefcount e g a).1 = e_pager e.
Proof.
  intros Hnz Hl Hn. unfold serverDecrHmaRefcount.
  apply Z.eqb_neq in Hnz. rewrite Hnz, Hl. cbn [nClient hma_set_nClient].
  destruct (Z.leb_spec (nClient h - 1) 0); [|lia].
  cbn [fst snd aMapAddr fd hma_set_nClient]. unfold sqlite3_free.
  destruct (aMapAddr h =? 0), (0 <=? fd h); cbn; by rewrite <- ?app_assoc.
Qed.



Lemma registry_ok_nil : registry_ok [].
Proof. split_and!; [apply NoDup_nil_2 | by apply not_elem_of_nil | done]. Qed.

Lemma registry_ok_singleton (a : Z) (h : ServerHMA) :
  a ≠ 0 → 1 <= nClient h → registry_ok [(a, h)].
Proof.
  intros Ha Hn. split_and!.
  - apply NoDup_singleton.
  - cbn. intros Hin. apply list_elem_of_singleton in Hin. congruence.
  - by repeat constructor.
Qed.




(** sqlite3ServerConnect when the Server could be allocated and the call
    fails.  The caller gets a null pointer and [*piClient] is left as it was.
    The code is ERROR, NOMEM, BUSY or BUSY_DEADLOCK from opening the HMA file,
    or the code of a failed journal rollback.  The Server is freed (after its
    lock buffer, which is still null) as the last thing the call does, and
    the reference to the HMA object is given back: the registry is as it was
    before the call, but for the content of the mapping of the object that
    was scanned for a free slot. *)
Theorem sqlite3ServerConnect_failure (fuel : nat) (e : Env) (g : Registry) (pPg : Z)
    (zPath : string) (piClient : Z) (e' : Env) (g' : Registry) (res : ConnectResult) :
  registry_ok g →
  hd 4096 (e_alloc e) ≠ 0 →
  sqlite3ServerConnect fuel e g pPg zPath piClient = Some (e', g', res) →
  cr_rc res ≠ SQLITE_OK →
  cr_ppOut res = 0 ∧ cr_server res = None ∧ cr_piClient res = piClient
  ∧ (cr_rc res = SQLITE_ERROR ∨ cr_rc res = SQLITE_NOMEM ∨ cr_rc res = SQLITE_BUSY
     ∨ cr_rc res = SQLITE_BUSY_DEADLOCK ∨ cr_rc res ∈ e_pager e)
  ∧ (∃ t, e_trace e' = e_trace e ++ t ++ [EvFree 0; EvFree (hd 4096 (e_alloc e))])
  ∧ (g' = g
     ∨ ∃ a h m, hma_lookup g a = Some h ∧ g' = hma_update g a (hma_set_aMap h m)).
Proof.
  intros Hg Hptr. unfold sqlite3ServerConnect, sqlite3_malloc.
  set (pAddr := hd 4096 (e_alloc e)) in *. set (e1 := Build_Env _ _ _ _ _ _ _ _ _ _ _).
  destruct (Z.eqb_spec pAddr 0) as [Hnull|_]; [done|].
  set (p0 := Build_Server _ _ _ _ _ _ _ _ _).
  destruct (serverOpenHma e1 g pPg zPath) as [[[e2 g2] r2] pH] eqn:Hopen.
  destruct (serverOpenHma_cases _ _ _ _ _ _ _ _ Hg Hopen)
    as (Hsub2 & (t2 & Ht2) & Hfail & Hsucc).
  change (e_pager e1) with (e_pager e) in *.
  change (e_trace e1) with (e_trace e ++ [EvAlloc sizeof_Server]) in Ht2.
  destruct (decide (r2 = SQLITE_OK)) as [Hr2|Hr2].
  2:{ rewrite bool_decide_eq_false_2 by done. rewrite bool_decide_eq_false_2 by done.
      cbn [negb]. destruct (Hfail Hr2) as (-> & -> & Hcode).
      unfold sqlite3ServerDisconnect. cbn [pHma server_set_hma Z.eqb negb aLockAddr p0].
      intros Hrun _. inversion Hrun; subst e' g' res. clear Hrun.
      cbn [cr_rc cr_ppOut cr_server cr_piClient].
      split; [done|]. split; [done|]. split; [done|]. split; [done|].
      split; [|by left].
      exists ([EvAlloc sizeof_Server] ++ t2). unfold sqlite3_free. cbn [env_log e_trace].
      rewrite Ht2, <- !app_assoc. done. }
  rewrite bool_decide_eq_true_2 by done.
  destruct (Hsucc Hr2) as (Hnz & h2 & Hl2 & Hcase). rewrite Hl2.
  change (Z.to_nat HMA_CLIENT_SLOTS) with 16%nat.
  destruct (serverConnectScan 16 fuel e2 h2 _ 0) as [[[[e3 h3] r3] i]|] eqn:Hscan; [|done].
  destruct (serverConnectScan_spec _ _ _ _ _ _ _ _ _ _ Hscan)
    as (Hh3 & Hi & _ & _ & Hc3 & (t3 & Ht3)).
  destruct (decide (r3 = SQLITE_OK)) as [Hr3|Hr3].
  { rewrite bool_decide_eq_true_2 by done.
    destruct (Z.ltb_spec HMA_CLIENT_SLOTS i) as [Hbig|_];
      [unfold HMA_CLIENT_SLOTS in *; lia|].
    rewrite bool_decide_eq_true_2 by done. cbn [negb].
    intros Hrun Hrc. inversion Hrun; subst. done. }
  rewrite bool_decide_eq_false_2 by done. rewrite bool_decide_eq_false_2 by done.
  cbn [negb]. unfold sqlite3ServerDisconnect.
  cbn [pHma iClient server_set_hma aLockAddr p0].
  destruct (Z.eqb_spec pH 0) as [?|_]; [done|]. cbn [negb].
  rewrite (hma_lookup_update_eq g2 pH h2 h3 Hl2).
  cbn [Z.leb Z.compare Z.eqb negb andb]. rewrite hma_update_update.
  assert (hma_lookup (hma_update g2 pH h3) pH = Some h3) as Hl3
    by (by eapply hma_lookup_update_eq).
  assert (nClient h3 = nClient h2) as Hn3 by (by rewrite Hh3).
  assert (cr_code :
            r3 = SQLITE_ERROR ∨ r3 = SQLITE_NOMEM ∨ r3 = SQLITE_BUSY
            ∨ r3 = SQLITE_BUSY_DEADLOCK ∨ r3 ∈ e_pager e).
  { destruct Hc3 as [?|Hin]; [done|]. do 4 right. by apply Hsub2. }
  destruct Hcase as [(Hg2 & Hone & _)|(h & Hl & Hh2 & Hg2)].
  - (* the object was new: it goes away again *)
    destruct (serverDecrHmaRefcount_last e3 _ _ h3 Hnz Hl3 ltac:(lia)) as (Hg5 & Ht5 & _).
    destruct (serverDecrHmaRefcount e3 _ _) as [e5 g5]. cbn [fst snd] in *.
    intros Hrun _. inversion Hrun; subst e' g' res. clear Hrun.
    cbn [cr_rc cr_ppOut cr_server cr_piClient].
    split; [done|]. split; [done|]. split; [done|]. split; [done|].
    split.
    + exists ([EvAlloc sizeof_Server] ++ t2 ++ t3
              ++ (if aMapAddr h3 =? 0 then [] else [EvMunmap (aMapAddr h3)])
              ++ (if 0 <=? fd h3 then [EvClose (fd h3)] else [])
              ++ [EvFree pH]).
      unfold sqlite3_free. cbn [env_log e_trace].
      rewrite Ht5, Ht3, Ht2, <- !app_assoc. done.
    + left. rewrite Hg5, hma_unlink_update, Hg2. cbn [hma_unlink]. by rewrite Z.eqb_refl.
  - (* the object was shared: its count goes back *)
    destruct (registry_ok_lookup g pH h Hg Hl) as [_ Hn].
    assert (1 < nClient h3) as Hmany by (rewrite Hn3, Hh2; cbn; lia).
    rewrite (serverDecrHmaRefcount_many e3 _ _ h3 Hnz Hl3 Hmany).
    intros Hrun _. inversion Hrun; subst e' g' res. clear Hrun.
    cbn [cr_rc cr_ppOut cr_server cr_piClient].
    split; [done|]. split; [done|]. split; [done|]. split; [done|].
    split.
    + exists ([EvAlloc sizeof_Server] ++ t2 ++ t3).
      unfold sqlite3_free. cbn [env_log e_trace].
      rewrite Ht3, Ht2, <- !app_assoc. done.
    + right. exists pH, h, (aMap h3). split; [done|].
      rewrite hma_update_update, Hg2, hma_update_update. f_equal.
      rewrite Hh3 at 1. rewrite Hn3, Hh2.
      destruct h as [zn f n ac ad am sd si].
      unfold hma_set_nClient, hma_set_aMap. cbn. f_equal. lia.
Qed.

Lemma sqlite3ServerConnect_failure_witness :
  ∃ e' g' res,
    sqlite3ServerConnect 1 (env_open [(-1, EAGAIN)] [16384; 20480] {[1 := 1]} [SQLITE_IOERR])
      [] 7 "db" (-1) = Some (e', g', res)
    ∧ cr_rc res = SQLITE_IOERR
    ∧ cr_ppOut res = 0 ∧ cr_server res = None ∧ cr_piClient res = -1.
Proof.
  eexists _, _, _. split; [vm_compute; reflexivity|]. split; [reflexivity|].
  edestruct (sqlite3ServerConnect_failure 1
               (env_open [(-1, EAGAIN)] [16384; 20480] {[1 := 1]} [SQLITE_IOERR])
               [] 7 "db" (-1)) as (Hout & Hsrv & Hid & _).
  - apply registry_ok_nil.
  - discriminate.
  - vm_compute. reflexivity.
  - discriminate.
  - split; [exact Hout|]. split; [exact Hsrv | exact Hid].
Defined.




Lemma hma_unlink_fst (g : Registry) (a x : Z) :
  x ∈ map fst (hma_unlink g a) → x ∈ map fst g.
Proof.
  induction g as [|[a0 h0] g IH]; simpl; [done|].
  destruct (a0 =? a); simpl.
  - apply list_elem_of_further.
  - rewrite !elem_of_cons. intros [?|?]; auto.
Qed.

Lemma registry_ok_unlink (g : Registry) (a : Z) :
  registry_ok g → registry_ok (hma_unlink g a).
Proof.
  intros (Hnd & Hnz & Hall). split_and!.
  - clear Hnz Hall. induction g as [|[a0 h0] g IH]; simpl; [done|].
    simpl in Hnd. apply NoDup_cons in Hnd as [Hnot Hnd].
    destruct (a0 =? a); simpl; [done|].
    apply NoDup_cons. split; [|by apply IH].
    intros Hin. apply Hnot. by eapply hma_unlink_fst.
  - intros Hin. apply Hnz. by eapply hma_unlink_fst.
  - clear Hnd Hnz. induction g as [|[a0 h0] g IH]; simpl; [done|].
    apply Forall_cons in Hall as [H0 Hall].
    destruct (a0 =? a); [done|]. constructor; auto.
Qed.

Lemma registry_ok_cons (g : Registry) (a : Z) (h : ServerHMA) :
  registry_ok g → a ≠ 0 → a ∉ map fst g → 1 <= nClient h → registry_ok ((a, h) :: g).
Proof.
  intros (Hnd & Hnz & Hall) Ha Hfresh Hn. split_and!.
  - cbn [map fst]. by apply NoDup_cons.
  - cbn [map fst]. rewrite elem_of_cons. intros [?|?]; [congruence | done].
  - by constructor.
Qed.

Lemma sqlite3ServerDisconnect_registry (e : Env) (g : Registry) (pAddr : Z) (p : Server)
    (dbfd : Z) :
  registry_ok g → registry_ok (sqlite3ServerDisconnect e g pAddr p dbfd).2.
Proof.
  intros Hg. unfold sqlite3ServerDisconnect.
  destruct (Z.eqb_spec (pHma p) 0) as [Hnull|Hnz]; cbn [negb]; [done|].
  destruct (hma_lookup g (pHma p)) as [h|] eqn:Hl; [|done].
  destruct (registry_ok_lookup g _ h Hg Hl) as [_ Hn].
  set (eh := if 0 <=? iClient p then _ else (e, h)).
  assert (nClient eh.2 = nClient h) as Hn1.
  { subst eh. destruct (0 <=? iClient p); [|done].
    by destruct (posixLock _ _ _ _ _). }
  destruct eh as [e1 h1]. cbn [snd] in Hn1.
  set (e2 := if _ && _ then _ else e1).
  assert (hma_lookup (hma_update g (pHma p) h1) (pHma p) = Some h1) as Hl1
    by (by eapply hma_lookup_update_eq).
  destruct (Z_lt_le_dec 1 (nClient h1)) as [Hmany|Hone].
  - rewrite (serverDecrHmaRefcount_many e2 _ _ h1 Hnz Hl1 Hmany). cbn [snd].
    rewrite hma_update_update. apply registry_ok_update; [done|]. cbn. lia.
  - destruct (serverDecrHmaRefcount_last e2 _ _ h1 Hnz Hl1 Hone) as (Hg2 & _).
    destruct (serverDecrHmaRefcount e2 _ _) as [e3 g3]. cbn [fst snd] in *.
    rewrite Hg2, hma_unlink_update. by apply registry_ok_unlink.
Qed.

Lemma serverOpenHma_registry (e : Env) (g : Registry) (pPager : Z) (zPath : string)
    (e1 : Env) (g1 : Registry) (r : rc) (pH : Z) :
  registry_ok g → hd 4096 (e_alloc e) ∉ map fst g →
  serverOpenHma e g pPager zPath = (e1, g1, r, pH) →
  registry_ok g1.
Proof.
  intros Hg Hfresh Hrun.
  destruct (serverOpenHma_cases _ _ _ _ _ _ _ _ Hg Hrun) as (_ & _ & Hfail & Hsucc).
  destruct (decide (r = SQLITE_OK)) as [Hr|Hr].
  - destruct (Hsucc Hr) as (Hnz & h1 & Hl1 & [(-> & Hone & _ & ->)|(h & Hl & -> & ->)]).
    + apply registry_ok_cons; [done | done | done | lia].
    + destruct (registry_ok_lookup g pH h Hg Hl) as [_ Hn].
      apply registry_ok_update; [done|]. cbn. lia.
  - by destruct (Hfail Hr) as (_ & -> & _).
Qed.

Lemma sqlite3ServerConnect_registry (fuel : nat) (e : Env) (g : Registry) (pPg : Z)
    (zPath : string) (piClient : Z) (e' : Env) (g' : Registry) (res : ConnectResult) :
  registry_ok g → hd 4096 (tl (e_alloc e)) ∉ map fst g →
  sqlite3ServerConnect fuel e g pPg zPath piClient = Some (e', g', res) →
  registry_ok g'.
Proof.
  intros Hg Hfresh. unfold sqlite3ServerConnect, sqlite3_malloc.
  set (pAddr := hd 4096 (e_alloc e)). set (e1 := Build_Env _ _ _ _ _ _ _ _ _ _ _).
  destruct (pAddr =? 0).
  { intros Hrun. by inversion Hrun; subst. }
  set (p0 := Build_Server _ _ _ _ _ _ _ _ _).
  destruct (serverOpenHma e1 g pPg zPath) as [[[e2 g2] r2] pH] eqn:Hopen.
  pose proof (serverOpenHma_registry e1 g pPg zPath e2 g2 r2 pH Hg Hfresh Hopen) as Hg2.
  set (p1 := server_set_hma p0 pH (iClient p0)).
  (* the registry at the end of the scan for a client slot *)
  assert (∀ (e4 : Env) (g4 : Registry) (p4 : Server) (r4 : rc) (pi4 : Z),
            registry_ok g4 →
            (if negb (bool_decide (r4 = SQLITE_OK))
             then let '(e5, g5) := sqlite3ServerDisconnect e4 g4 pAddr p4 0 in
                  Some (e5, g5, {| cr_rc := r4; cr_ppOut := 0; cr_server := None;
                                   cr_piClient := pi4 |})
             else Some (e4, g4, {| cr_rc := r4; cr_ppOut := pAddr; cr_server := Some p4;
                                   cr_piClient := pi4 |}))
            = Some (e', g', res) →
            registry_ok g') as Hend.
  { intros e4 g4 p4 r4 pi4 Hg4 Hrun. destruct (negb _).
    - pose proof (sqlite3ServerDisconnect_registry e4 g4 pAddr p4 0 Hg4) as Hg5.
      destruct (sqlite3ServerDisconnect e4 g4 pAddr p4 0) as [e5 g5].
      by inversion Hrun; subst.
    - by inversion Hrun; subst. }
  destruct (bool_decide (r2 = SQLITE_OK)); [|by apply Hend].
  destruct (hma_lookup g2 pH) as [h2|] eqn:Hl2; [|done].
  destruct (registry_ok_lookup g2 pH h2 Hg2 Hl2) as [_ Hn2].
  destruct (serverConnectScan _ fuel e2 h2 p1 0) as [[[[e3 h3] r3] i]|] eqn:Hscan; [|done].
  destruct (serverConnectScan_spec _ _ _ _ _ _ _ _ _ _ Hscan) as (Hh3 & _).
  assert (nClient h3 = nClient h2) as Hn3 by (by rewrite Hh3).
  destruct (bool_decide (r3 = SQLITE_OK)).
  - destruct (HMA_CLIENT_SLOTS <? i); apply Hend; apply registry_ok_update; try done.
    + lia.
    + cbn. lia.
  - apply Hend. apply registry_ok_update; [done | lia].
Qed.

(** The registry stays well-formed.  If the objects of the registry have
    distinct non-null addresses and at least one user each, the same holds
    after sqlite3ServerConnect, whether it succeeds or fails, provided the
    allocator does not hand out for the new HMA object an address that is in
    use in the registry; and it holds after sqlite3ServerDisconnect of any
    Server. *)
Theorem registry_ok_kept (g : Registry) :
  registry_ok g →
  (∀ (fuel : nat) (e : Env) (pPg : Z) (zPath : string) (piClient : Z)
     (e' : Env) (g' : Registry) (res : ConnectResult),
      hd 4096 (tl (e_alloc e)) ∉ map fst g →
      sqlite3ServerConnect fuel e g pPg zPath piClient = Some (e', g', res) →
      registry_ok g')
  ∧ (∀ (e : Env) (pAddr : Z) (p : Server) (dbfd : Z),
       registry_ok (sqlite3ServerDisconnect e g pAddr p dbfd).2).
Proof.
  intros Hg. split.
  - intros fuel e pPg zPath piClient e' g' res Hfresh Hrun.
    by eapply sqlite3ServerConnect_registry.
  - intros e pAddr p dbfd. by apply sqlite3ServerDisconnect_registry.
Qed.

Lemma registry_ok_kept_witness :
  (∀ (fuel : nat) (e : Env) (pPg : Z) (zPath : string) (piClient : Z)
     (e' : Env) (g' : Registry) (res : ConnectResult),
      hd 4096 (tl (e_alloc e)) ∉ map fst [(4096, hma_two ∅)] →
      sqlite3ServerConnect fuel e [(4096, hma_two ∅)] pPg zPath piClient
      = Some (e', g', res) →
      registry_ok g')
  ∧ (∀ (e : Env) (pAddr : Z) (p : Server) (dbfd : Z),
       registry_ok (sqlite3ServerDisconnect e [(4096, hma_two ∅)] pAddr p dbfd).2).
Proof.
  apply (registry_ok_kept [(4096, hma_two ∅)]).
  apply registry_ok_singleton; [discriminate | simpl; lia].
Defined.
